(** * zw-yt-python: the transcript download pipeline, its storage adapter
      and its scheduler, embedded from [download_service.py],
      [github_storage.py] and [scheduler.py]. *)

From Stdlib Require Import ZArith QArith String Ascii List Lia.
From stdpp Require Import base option list gmap strings.

Open Scope string_scope.
Open Scope Z_scope.

(** ** Python values used by the sources

    A Python [str] is a sequence of code points; the embedding keeps the
    code points U+0000..U+00FF, one [ascii] each, so [len], slicing and
    character classes count code points as Python does. *)

Module Py.

Definition truthy (s : string) : bool :=
  match s with EmptyString => false | String _ _ => true end.

Definition truthy_opt (o : option string) : bool :=
  match o with Some s => truthy s | None => false end.

(** [a or b] on values that are a string or [None]. *)
Definition or_opt (a b : option string) : option string :=
  if truthy_opt a then a else b.

(** [a or b] where [a] is a string and [b] a non-empty default. *)
Definition or_else (a b : string) : string := if truthy a then a else b.

(** [s[:n]] *)
Fixpoint slice_to (n : nat) (s : string) : string :=
  match n, s with
  | S n', String c s' => String c (slice_to n' s')
  | _, _ => EmptyString
  end.
Arguments slice_to !n !s.

(** [needle in hay] *)
Fixpoint contains (needle hay : string) : bool :=
  match hay with
  | EmptyString => String.prefix needle EmptyString
  | String _ hay' => String.prefix needle hay || contains needle hay'
  end.

(** [str.lower] on U+0000..U+00FF: A-Z, and the Latin-1 capitals U+00C0
    to U+00DE without the multiplication sign U+00D7, move up by 32. *)
Definition lower_char (c : ascii) : ascii :=
  let n := nat_of_ascii c in
  if (Nat.leb 65 n && Nat.leb n 90)
     || (Nat.leb 192 n && Nat.leb n 222 && negb (Nat.eqb n 215))
  then ascii_of_nat (n + 32) else c.

Fixpoint lower (s : string) : string :=
  match s with
  | EmptyString => EmptyString
  | String c s' => String (lower_char c) (lower s')
  end.

(** [str.isspace] on one code point of U+0000..U+00FF. *)
Definition is_space (c : ascii) : bool :=
  let n := nat_of_ascii c in
  (Nat.leb 9 n && Nat.leb n 13) || (Nat.leb 28 n && Nat.leb n 32)
  || Nat.eqb n 133 || Nat.eqb n 160.

Fixpoint lstrip (s : string) : string :=
  match s with
  | EmptyString => EmptyString
  | String c s' => if is_space c then lstrip s' else s
  end.

Fixpoint rstrip (s : string) : string :=
  match s with
  | EmptyString => EmptyString
  | String c s' =>
      match rstrip s' with
      | EmptyString => if is_space c then EmptyString else String c EmptyString
      | r => String c r
      end
  end.

(** [s.strip()] *)
Definition strip (s : string) : string := rstrip (lstrip s).

(** [s.split(sep)] for a one-character separator. *)
Fixpoint split (sep : ascii) (s : string) : list string :=
  match s with
  | EmptyString => [EmptyString]
  | String c s' =>
      if Ascii.eqb c sep then EmptyString :: split sep s'
      else match split sep s' with
           | h :: t => String c h :: t
           | [] => [String c EmptyString]
           end
  end.

(** [re.sub('[...]', '', s)] for a character class given by its members. *)
Fixpoint re_sub_class_empty (cls : list ascii) (s : string) : string :=
  match s with
  | EmptyString => EmptyString
  | String c s' =>
      if existsb (Ascii.eqb c) cls then re_sub_class_empty cls s'
      else String c (re_sub_class_empty cls s')
  end.

(** [s.replace(old, new)] for one-character [old] and [new]. *)
Fixpoint replace (old new : ascii) (s : string) : string :=
  match s with
  | EmptyString => EmptyString
  | String c s' =>
      String (if Ascii.eqb c old then new else c) (replace old new s')
  end.

(** [sep.join(parts)] *)
Fixpoint join (sep : string) (parts : list string) : string :=
  match parts with
  | [] => EmptyString
  | [p] => p
  | p :: ps => p ++ sep ++ join sep ps
  end.

(** [s[n:]] *)
Fixpoint slice_from (n : nat) (s : string) : string :=
  match n, s with
  | S n', String _ s' => slice_from n' s'
  | _, _ => s
  end.

(** What reading a text file gives for the text [s] it holds: with
    universal newlines a carriage return followed by a line feed, and a
    carriage return on its own, are read as a line feed. *)
Fixpoint universal_newlines (s : string) : string :=
  match s with
  | EmptyString => EmptyString
  | String c s' =>
      if Ascii.eqb c "013" then
        match s' with
        | String c' _ =>
            if Ascii.eqb c' "010" then universal_newlines s'
            else String "010" (universal_newlines s')
        | EmptyString => String "010" EmptyString
        end
      else String c (universal_newlines s')
  end.

(** [s.replace(old, new)] for a non-empty [old]: the occurrences are
    found from the left and do not overlap; [skip] counts the characters
    of an occurrence just replaced that are still to be passed over. *)
Fixpoint replace_from (old new : string) (skip : nat) (s : string) : string :=
  match s with
  | EmptyString => EmptyString
  | String c s' =>
      match skip with
      | S k => replace_from old new k s'
      | O =>
          if String.prefix old s
          then new ++ replace_from old new (String.length old - 1) s'
          else String c (replace_from old new 0 s')
      end
  end.

Definition replace_str (old new s : string) : string := replace_from old new 0 s.

End Py.

(** ** Outcomes, the world and the effect monad *)

(** What running a piece of Python gives: a value, or a raised exception
    with its [str(e)]. *)
Inductive res (A : Type) : Type :=
| Ok (a : A)
| Raise (msg : string).
Arguments Ok {A} a.
Arguments Raise {A} msg.

(** What [requests.get] / [requests.put] gives: an exception (from the
    transport, or later from decoding the body), or a response with its
    status, raw text and decoded JSON payload. *)
Inductive http (A : Type) : Type :=
| RequestError (msg : string)
| Response (status_code : Z) (text : string) (json : A).
Arguments RequestError {A} msg.
Arguments Response {A} status_code text json.

(** A [datetime]: the instant it denotes (microseconds since the epoch)
    and its [isoformat()] rendering. Aware datetimes compare by instant. *)
Record datetime := { instant : Z; isoformat : string }.

(** One snippet of a fetched transcript. *)
Record snippet := { text : string; start : Q }.

(** A transcript listed for a video, before it is fetched. *)
Record transcript :=
  { of_video : string; language : string; language_code : string;
    is_generated : bool }.

(** The dict [metadata] built by [download_transcript]. *)
Module Metadata.
Record t :=
  { transcript_type : string; duration : Q;
    channel_id : string; published_at : string }.
End Metadata.

(** The dict [content] that [save_transcript] serialises. JSON encoding
    and base64 are inverse to their decoders, so a stored file is held as
    the dict itself. *)
Module Content.
Record t :=
  { video_id : string; channel_id : string; title : string;
    channel : string; published_at : string; downloaded_at : string;
    transcript : string; metadata : Metadata.t }.
End Content.

(** What is logged, in the order it happens: the calls that leave the
    process (requests, transcript API calls, sleeps) and the entries into
    [run_download] and [download_transcript]. *)
Inductive event : Type :=
| Sleep (seconds : Q)
| DownloadTranscript (video_id title : string)
| SearchCode (q : string)
| GetContents (path : string)
| PutContents (path : string) (sha : option string)
| YouTubeSearch (query : string)
| YouTubeChannelSnippet (channel_id : string)
| YouTubeChannelDetails (channel_id : string)
| PlaylistItems (playlist_id : string) (page_token : option string)
| RunDownload (channel video_ids : string)
| ListTranscripts (video_id : string)
| FindManuallyCreated (codes : list string)
| FindGenerated (codes : list string)
| FindTranscript (codes : list string)
| IterTranscripts
| Fetch (t : transcript).

(** The repository behind the contents API, and the calls made so far. *)
Record world := { files : gmap string Content.t; trace : list event }.

(** Code that reads and writes a state [St] and may raise. *)
Definition StateM (St A : Type) : Type := St → res A * St.

#[global] Instance StateM_ret St : MRet (StateM St) := λ A a s, (Ok a, s).

#[global] Instance StateM_bind St : MBind (StateM St) := λ A B f m s,
  match m s with
  | (Ok a, s') => f a s'
  | (Raise msg, s') => (Raise msg, s')
  end.

Definition raise {St A} (msg : string) : StateM St A := λ s, (Raise msg, s).

(** A value or exception that is already there. *)
Definition lift {St A} (r : res A) : StateM St A := λ s, (r, s).

(** [try: body / except Exception as e: handler(str(e))]; effects of the
    body up to the exception are kept. *)
Definition try_except {St A} (body : StateM St A)
    (handler : string → StateM St A) : StateM St A :=
  λ s, match body s with
       | (Raise msg, s') => handler msg s'
       | r => r
       end.

(** The pipeline and the storage adapter run on the world. *)
Abbreviation M := (StateM world).

(** The world once the call [e] has been made. *)
Definition logged (e : event) (w : world) : world :=
  {| files := files w; trace := (trace w ++ [e])%list |}.

Definition emit (e : event) : M unit := λ w, (Ok tt, logged e w).

Definition ask {A} (oracle : world → A) : M A := λ w, (Ok (oracle w), w).

Definition set_files (f : gmap string Content.t) : M unit :=
  λ w, (Ok tt, {| files := f; trace := trace w |}).

(** A response object. *)
Record response (A : Type) :=
  { status_code : Z; resp_text : string; json : A }.
Arguments status_code {A} r.
Arguments resp_text {A} r.
Arguments json {A} r.

(** Issue a request: log it, then take the reply the far side gives in
    the world as it then is. *)
Definition request {A} (e : event) (reply : world → http A) : M (response A) :=
  emit e;;
  r ← ask reply;
  match r with
  | RequestError msg => raise msg
  | Response s t j => mret {| status_code := s; resp_text := t; json := j |}
  end.

(** ** The services the program talks to

    The replies of the services are inputs of the model. Each is asked in
    the world of the moment, so a reply may change from one call to the
    next (a rate limit that sets in, a record another writer adds). *)

(** What went wrong with a contents request that the repository itself
    would have served. A request that meets a fault has no effect on the
    repository: a write that is performed while its reply is lost is
    not among the cases. *)
Inductive fault : Type :=
| NetworkError (msg : string)
| HttpError (status : Z) (body : string).

(** One page of [playlistItems]. [publishedAt] is held as the datetime
    the RFC 3339 stamp denotes, which is what
    [datetime.fromisoformat(published_at.replace('Z', '+00:00'))] reads
    off it. *)
Record playlist_item :=
  { publishedAt : datetime; videoId : string; snippet_title : string;
    channelTitle : string; snippet_channelId : option string }.

(** The upload list as the API serves it, page by page: a request fails
    in transit, or is answered with a status, a body text and the [items]
    of the page, either without [nextPageToken] or with one, together with
    what a request carrying that token will be answered. Upload lists are
    finite, so the pages form a finite chain. *)
Inductive pages : Type :=
| PageError (msg : string)
| LastPage (status : Z) (body : string) (items : list playlist_item)
| MorePages (status : Z) (body : string) (items : list playlist_item)
            (nextPageToken : string) (rest : pages).

(** What [YouTubeTranscriptApi().list(video_id)] returns: the manually
    created and the generated transcripts, each keyed by language code. *)
Record transcript_list :=
  { manually_created : list transcript; generated : list transcript }.

(** A line the scheduler hands to [print]: the start of a scheduled
    run, its completion with the number of new transcripts, its failure
    with the message, and the same three for a catch-up run; each names
    the job. *)
Inductive printed : Type :=
| RunningJob (name : string)
| JobCompleted (name : string) (total_downloads : Z)
| JobFailed (name error_msg : string)
| RunningCatchup (name : string)
| CatchupCompleted (name : string) (total_downloads : Z)
| CatchupFailed (name error_msg : string).

Record upstream := {
  (** search?part=snippet&type=channel: the channel ids of the items *)
  youtube_search : world → string → string → http (list string);
  (** channels?part=snippet: the titles of the items *)
  youtube_channel_snippet : world → string → string → http (list string);
  (** channels?part=contentDetails: the uploads playlists of the items *)
  youtube_channel_details : world → string → string → http (list string);
  (** playlistItems?part=snippet&maxResults=50, from the first page on *)
  youtube_playlist_items : world → string → string → pages;
  youtube_transcript_list : world → string → res transcript_list;
  youtube_transcript_fetch : world → transcript → res (list snippet);
  (** search/code: the items found for the query *)
  github_search_code : world → string → http (list string);
  github_get_fault : world → string → option fault;
  github_put_fault : world → string → option fault;
  (** the blob hash the repository reports for a stored file *)
  git_sha : Content.t → string;
  (** [get_api_key_func], handed to [DownloadService] *)
  get_api_key_func : world → option string;
  (** [datetime.strptime(s, '%Y-%m-%d')] put in the local time zone *)
  strptime_ymd : string → res datetime;
  (** [datetime.fromisoformat(s).strftime('%Y-%m-%d')] *)
  isoformat_to_ymd : string → res string;
  (** [datetime.now()] *)
  now : world → datetime;
  (** [datetime.now().strftime('%Y-%m-%d')] *)
  today : world → string;
  (** [hashlib.md5(s.encode()).hexdigest()] *)
  md5_hexdigest : string → string;
  (** [time.sleep(seconds)]: the message of the exception it raises, if
      it raises one, as it does for a negative length *)
  time_sleep : world → Q → option string;
  (** [print(line)]: the message of the exception that writing the line
      to standard output raises, if it raises one, as it does when the
      encoding of the stream has no place for a character of the line *)
  stdout_fault : world → printed → option string
}.

(** The contents API of the repository: a file is read by path; a write
    to a free path creates it (201); a write to a taken path replaces it
    when the request carries the hash of the blob that is there (200),
    and is refused otherwise.

    A path is the string the program puts behind [/contents/] in the
    URL, and the files are keyed by that string as it is written. What
    the HTTP client and the API make of a number sign, a percent sign
    or dot segments in it (characters [_sanitize_name] lets through) is
    not followed: [files] is the repository as far as paths without
    them go. *)
Module GitHub.

Definition html_url (owner name path : string) : string :=
  "https://github.com/" ++ owner ++ "/" ++ name ++ "/blob/main/" ++ path.

Definition get_contents (up : upstream) (path : string) (w : world)
  : http (option (string * Content.t)) :=
  match github_get_fault up w path with
  | Some (NetworkError msg) => RequestError msg
  | Some (HttpError s b) => Response s b None
  | None =>
      match files w !! path with
      | Some r => Response 200 EmptyString (Some (git_sha up r, r))
      | None => Response 404 "Not Found" None
      end
  end.

(** The reply to a write, and the files after it. *)
Definition put_contents (up : upstream) (owner name path : string)
    (content : Content.t) (sha : option string) (w : world)
  : http (option string) * gmap string Content.t :=
  match github_put_fault up w path with
  | Some (NetworkError msg) => (RequestError msg, files w)
  | Some (HttpError s b) => (Response s b None, files w)
  | None =>
      match files w !! path, sha with
      | None, None =>
          (Response 201 EmptyString (Some (html_url owner name path)),
           <[path := content]> (files w))
      | Some r, Some h =>
          if String.eqb h (git_sha up r)
          then (Response 200 EmptyString (Some (html_url owner name path)),
                <[path := content]> (files w))
          else (Response 409 "does not match" None, files w)
      | Some _, None => (Response 422 "sha was not supplied" None, files w)
      | None, Some _ => (Response 409 "does not match" None, files w)
      end
  end.

End GitHub.

(** ** github_storage.py *)

Module GitHubStorage.

Record t := { repo_owner : string; repo_name : string }.

(** [GitHubStorage()] with the defaults of [__init__]. *)
Definition new : t :=
  {| repo_owner := "filenamedotexe"; repo_name := "youtube-transcripts-db" |}.

(** The three shapes of the dict [save_transcript] returns: duplicate
    ([success] false, [duplicate] true), written ([success] true with
    [path] and [url]) and refused ([success] false with [error]). *)
Inductive save_result : Type :=
| SaveDuplicate (error : string)
| SaveOk (path url : string)
| SaveFailed (error : string).

(** The members of the character class that [re.sub] deletes: less-than,
    greater-than, colon, double quote, slash, backslash, bar, question
    mark, star and at sign. *)
Definition invalid_chars : list ascii :=
  ["<"; ">"; ":"; "034"; "/"; "\"; "|"; "?"; "*"; "@"]%char.

Definition _sanitize_name (name : string) : string :=
  let name := Py.re_sub_class_empty invalid_chars name in
  let name := Py.replace " " "_" name in
  Py.slice_to 100 name.

Definition dquote : string := String "034"%char EmptyString.

Section Methods.
Context (up : upstream) (self : t).

(** The [q] parameter of the existence probe. *)
Definition exists_query (video_id : string) : string :=
  dquote ++ "video_id" ++ dquote ++ ": " ++ dquote ++ video_id ++ dquote
  ++ " repo:" ++ repo_owner self ++ "/" ++ repo_name self.

Definition check_transcript_exists (video_id : string) : M bool :=
  returned ← try_except
    (search_response ←
       request (SearchCode (exists_query video_id))
               (λ w, github_search_code up w (exists_query video_id));
     if status_code search_response =? 200
     then let results := json search_response in
          mret (Some (0 <? Z.of_nat (length results)))
     else mret None)
    (λ _, mret None);
  match returned with
  | Some b => mret b
  | None => mret false
  end.

Definition _get_file_sha (file_path : string) : M (option string) :=
  response ← request (GetContents file_path) (GitHub.get_contents up file_path);
  if status_code response =? 200
  then match json response with
       | Some (sha, _) => mret (Some sha)
       | None => raise "'sha'"
       end
  else mret None.

(** [requests.put] on the contents API: the reply, and the write the
    repository performs. *)
Definition put_file (file_path : string) (content : Content.t)
    (sha : option string) : M (response (option string)) :=
  emit (PutContents file_path sha);;
  served ← ask (GitHub.put_contents up (repo_owner self) (repo_name self)
                  file_path content sha);
  set_files served.2;;
  match served.1 with
  | RequestError msg => raise msg
  | Response s t j => mret {| status_code := s; resp_text := t; json := j |}
  end.

(** [save_transcript] from the sanitising of the names on, past the
    duplicate check. *)
Definition write_transcript (channel_name video_id title transcript_text : string)
    (metadata : option Metadata.t) : M save_result :=
  let safe_channel := _sanitize_name channel_name in
  let safe_title := _sanitize_name title in
  let file_path :=
    "channels/" ++ safe_channel ++ "/" ++ video_id ++ "_" ++ safe_title
    ++ ".json" in
  md ← match metadata with
       | Some md => mret md
       | None => raise "'NoneType' object has no attribute 'get'"
       end;
  downloaded ← ask (now up);
  let content :=
    {| Content.video_id := video_id;
       Content.channel_id := Metadata.channel_id md;
       Content.title := title;
       Content.channel := channel_name;
       Content.published_at := Metadata.published_at md;
       Content.downloaded_at := isoformat downloaded;
       Content.transcript := transcript_text;
       Content.metadata := md |} in
  existing_sha ← _get_file_sha file_path;
  let sha := if Py.truthy_opt existing_sha then existing_sha else None in
  response ← put_file file_path content sha;
  if (status_code response =? 201) || (status_code response =? 200)
  then mret (SaveOk file_path (default EmptyString (json response)))
  else mret (SaveFailed (resp_text response)).

Definition save_transcript (channel_name video_id title transcript_text : string)
    (metadata : option Metadata.t) : M save_result :=
  dup ← check_transcript_exists video_id;
  if dup : bool then mret (SaveDuplicate "Transcript already exists")
  else write_transcript channel_name video_id title transcript_text metadata.

Definition get_transcript (channel_name title : string)
  : M (option Content.t) :=
  let safe_channel := _sanitize_name channel_name in
  let safe_title := _sanitize_name title in
  let file_path := "channels/" ++ safe_channel ++ "/" ++ safe_title ++ ".json" in
  response ← request (GetContents file_path) (GitHub.get_contents up file_path);
  if status_code response =? 200
  then match json response with
       | Some (_, content) => mret (Some content)
       | None => raise "'content'"
       end
  else mret None.

End Methods.

End GitHubStorage.

(** ** youtube_transcript_api: the transcript list

    The library keeps two dicts keyed by language code; a finder walks
    the requested codes and, for each, the dicts it was given, and raises
    when nothing matches; iteration yields the manually created
    transcripts, then the generated ones. *)

Module TranscriptList.

Definition lookup (code : string) (d : list transcript) : option transcript :=
  List.find (λ t, String.eqb (language_code t) code) d.

Fixpoint lookup_dicts (code : string) (dicts : list (list transcript))
  : option transcript :=
  match dicts with
  | [] => None
  | d :: ds =>
      match lookup code d with
      | Some t => Some t
      | None => lookup_dicts code ds
      end
  end.

Fixpoint _find_transcript (language_codes : list string)
    (dicts : list (list transcript)) : res transcript :=
  match language_codes with
  | [] => Raise "No transcripts were found for any of the requested language codes"
  | code :: codes =>
      match lookup_dicts code dicts with
      | Some t => Ok t
      | None => _find_transcript codes dicts
      end
  end.

Definition find_manually_created_transcript (codes : list string)
    (tl : transcript_list) : M transcript :=
  emit (FindManuallyCreated codes);;
  lift (_find_transcript codes [manually_created tl]).

Definition find_generated_transcript (codes : list string)
    (tl : transcript_list) : M transcript :=
  emit (FindGenerated codes);;
  lift (_find_transcript codes [generated tl]).

Definition find_transcript (codes : list string)
    (tl : transcript_list) : M transcript :=
  emit (FindTranscript codes);;
  lift (_find_transcript codes [manually_created tl; generated tl]).

Definition iter (tl : transcript_list) : M (list transcript) :=
  emit IterTranscripts;;
  mret (manually_created tl ++ generated tl)%list.

Definition list_transcripts (up : upstream) (video_id : string)
  : M transcript_list :=
  emit (ListTranscripts video_id);;
  r ← ask (λ w, youtube_transcript_list up w video_id);
  lift r.

Definition fetch (up : upstream) (t : transcript) : M (list snippet) :=
  emit (Fetch t);;
  r ← ask (λ w, youtube_transcript_fetch up w t);
  lift r.

End TranscriptList.

(** ** download_service.py *)

(** A candidate video, the dict of [videos_to_download]; [date] and
    [channel_id] are absent in direct-id mode. *)
Module Video.
Record t :=
  { id : string; date : option string; title : string;
    channel : string; channel_id : option string }.
End Video.

(** One entry of [results]; the keys [url] and [error] repeat [result]. *)
Module VideoResult.
Record t :=
  { video_id : string; title : string; success : bool; result : string }.
End VideoResult.

(** The dict [config]; a key that is absent is [None]. *)
Module Config.
Record t :=
  { api_key : option string; channel : option string;
    video_ids : option string; after_date : option string;
    folder : option string; delay : option Q; limit : option Z }.
End Config.

(** The dict [run_download] returns on its normal path. *)
Module Summary.
Record t :=
  { total_videos : Z; total_downloads : Z; success_count : Z;
    failed_count : Z; duplicate_count : Z; folder : string;
    results : list VideoResult.t }.
End Summary.

(** [{'success': False, 'error': ...}] or [{'success': True, ...}]. *)
Inductive run_result : Type :=
| RunError (error : string)
| RunOk (summary : Summary.t).

Module DownloadService.

Definition newline : string := String "010"%char EmptyString.

(** The loop variables of [run_download]. *)
Record tally :=
  { success_count : Z; failed_count : Z; duplicate_count : Z;
    results : list VideoResult.t }.

(** [limit and len(video_data) >= limit] *)
Definition limit_reached (limit : option Z) (video_data : list Video.t) : bool :=
  match limit with
  | Some n => negb (n =? 0) && (n <=? Z.of_nat (length video_data))
  | None => false
  end.

(** The [for item in data.get("items", [])] of one page: [inl] when the
    body returned from the function, [inr] when the loop ran to its end. *)
Fixpoint collect_page (channel_id : option string) (after_date : option datetime)
    (limit : option Z) (page_items : list playlist_item)
    (video_data : list Video.t) : list Video.t + list Video.t :=
  match page_items with
  | [] => inr video_data
  | item :: rest =>
      let video_date := publishedAt item in
      let keep :=
        match after_date with
        | None => true
        | Some after => instant after <? instant video_date
        end in
      if keep then
        let video_data :=
          (video_data ++
          [{| Video.id := videoId item;
              Video.date := Some (isoformat video_date);
              Video.title := snippet_title item;
              Video.channel := channelTitle item;
              Video.channel_id :=
                Some (if Py.truthy_opt channel_id
                      then default EmptyString channel_id
                      else default EmptyString (snippet_channelId item)) |}])%list in
        if limit_reached limit video_data then inl video_data
        else collect_page channel_id after_date limit rest video_data
      else collect_page channel_id after_date limit rest video_data
  end.

Section Methods.
Context (up : upstream) (storage : GitHubStorage.t).

Definition get_channel_id (query api_key : string) : M string :=
  response ← request (YouTubeSearch query)
                     (λ w, youtube_search up w query api_key);
  if negb (status_code response =? 200)
  then raise ("Error searching for channel: " ++ resp_text response)
  else match json response with
       | channelId :: _ => mret channelId
       | [] => raise ("No channel found for query: " ++ query)
       end.

Definition get_channel_info (channel_id api_key : string) : M string :=
  response ← request (YouTubeChannelSnippet channel_id)
                     (λ w, youtube_channel_snippet up w channel_id api_key);
  if status_code response =? 200
  then match json response with
       | t :: _ => mret t
       | [] => mret "Unknown Channel"
       end
  else mret "Unknown Channel".

Definition get_uploads_playlist_id (channel_id api_key : string) : M string :=
  response ← request (YouTubeChannelDetails channel_id)
                     (λ w, youtube_channel_details up w channel_id api_key);
  if negb (status_code response =? 200)
  then raise ("Error fetching channel details: " ++ resp_text response)
  else match json response with
       | uploads :: _ => mret uploads
       | [] => raise "No channel details found."
       end.

(** The [while True] of [get_video_ids_from_playlist]: [served] is what
    the request of this round is answered, [next_page_token] the token it
    carries. *)
Fixpoint playlist_loop (playlist_id : string) (channel_id : option string)
    (after_date : option datetime) (limit : option Z)
    (video_data : list Video.t) (next_page_token : option string)
    (served : pages) : M (list Video.t) :=
  emit (PlaylistItems playlist_id
          (if Py.truthy_opt next_page_token then next_page_token else None));;
  match served with
  | PageError msg => raise msg
  | LastPage status body page_items =>
      if negb (status =? 200)
      then raise ("Error fetching playlist items: " ++ body)
      else
        match collect_page channel_id after_date limit page_items video_data with
        | inl returned => mret returned
        | inr video_data => mret video_data
        end
  | MorePages status body page_items token rest =>
      if negb (status =? 200)
      then raise ("Error fetching playlist items: " ++ body)
      else
        match collect_page channel_id after_date limit page_items video_data with
        | inl returned => mret returned
        | inr video_data =>
            if negb (Py.truthy token) then mret video_data
            else playlist_loop playlist_id channel_id after_date limit
                               video_data (Some token) rest
        end
  end.

Definition get_video_ids_from_playlist (playlist_id api_key : string)
    (channel_id : option string) (after_date : option datetime)
    (limit : option Z) : M (list Video.t) :=
  served ← ask (λ w, youtube_playlist_items up w playlist_id api_key);
  playlist_loop playlist_id channel_id after_date limit [] None served.

(** The four tiers of [download_transcript]: [inr] carries [transcript]
    and [transcript_type] on to the rest of the function, [inl] is a
    [return] from inside the innermost [try]. *)
Definition select_transcript (transcript_list : transcript_list)
  : M (bool * string + list snippet * string) :=
  try_except
    (t ← TranscriptList.find_manually_created_transcript ["en"] transcript_list;
     transcript ← TranscriptList.fetch up t;
     mret (inr (transcript, "manual")))
    (λ _,
     try_except
       (t ← TranscriptList.find_generated_transcript ["en"] transcript_list;
        transcript ← TranscriptList.fetch up t;
        mret (inr (transcript, "auto-generated")))
       (λ _,
        try_except
          (t ← TranscriptList.find_transcript ["en"] transcript_list;
           transcript ← TranscriptList.fetch up t;
           mret (inr (transcript, "unknown")))
          (λ _,
           try_except
             (available ← TranscriptList.iter transcript_list;
              match available with
              | first :: _ =>
                  transcript ← TranscriptList.fetch up first;
                  mret (inr (transcript, "auto (" ++ language first ++ ")"))
              | [] =>
                  mret (inl (false, "No transcripts available in any language"))
              end)
             (λ e,
              mret (inl (false, "Cannot fetch transcript: " ++ Py.slice_to 200 e)))))).

(** What [download_transcript] does once [transcript] is in hand. *)
Definition store_transcript (video_id title : string)
    (channel_name channel_id published_at : option string)
    (transcript : list snippet) (transcript_type : string) : M (bool * string) :=
  match transcript with
  | [] => mret (false, "No transcript content found")
  | _ :: _ =>
      let full_text := Py.join newline (map text transcript) in
      let channel_name :=
        if Py.truthy_opt channel_name then default EmptyString channel_name
        else "Unknown_Channel" in
      let metadata :=
        {| Metadata.transcript_type := transcript_type;
           Metadata.duration :=
             match last transcript with
             | Some last_entry => start last_entry
             | None => 0%Q
             end;
           Metadata.channel_id :=
             if Py.truthy_opt channel_id then default EmptyString channel_id
             else EmptyString;
           Metadata.published_at :=
             if Py.truthy_opt published_at then default EmptyString published_at
             else EmptyString |} in
      result ← GitHubStorage.save_transcript up storage channel_name video_id
                 title full_text (Some metadata);
      match result with
      | GitHubStorage.SaveDuplicate _ =>
          mret (false, "Transcript already exists (duplicate)")
      | GitHubStorage.SaveOk _ url => mret (true, url)
      | GitHubStorage.SaveFailed error =>
          if Py.contains "rate limit" (Py.lower error)
          then mret (false, "GitHub API rate limit reached - please wait before retrying")
          else mret (false, "GitHub save failed: " ++ Py.slice_to 200 error)
      end
  end.

Definition download_transcript (video_id title : string)
    (channel_name channel_id published_at : option string) : M (bool * string) :=
  emit (DownloadTranscript video_id title);;
  try_except
    (exists_already ← GitHubStorage.check_transcript_exists up storage video_id;
     if exists_already : bool
     then mret (false, "Transcript already exists (duplicate)")
     else
       listed ← try_except
         (transcript_list ← TranscriptList.list_transcripts up video_id;
          mret (inr transcript_list))
         (λ error_msg,
          if Py.contains "Could not retrieve" error_msg
          then mret (inl (false, "No transcript available for this video (ID: "
                                 ++ video_id ++ ")"))
          else if Py.contains "Too Many Requests" error_msg
          then mret (inl (false, "YouTube rate limit reached - please wait a few minutes"))
          else mret (inl (false, "Failed to fetch transcript: "
                                 ++ Py.slice_to 200 error_msg)));
       match listed with
       | inl returned => mret returned
       | inr transcript_list =>
           selected ← select_transcript transcript_list;
           match selected with
           | inl returned => mret returned
           | inr (transcript, transcript_type) =>
               store_transcript video_id title channel_name channel_id
                                published_at transcript transcript_type
           end
       end)
    (λ error_msg,
     if Py.contains "429" error_msg || Py.contains "rate" (Py.lower error_msg)
     then mret (false, "Rate limited - please wait before retrying")
     else if Py.contains "404" error_msg
     then mret (false, "Video not found (ID: " ++ video_id ++ ")")
     else if Py.contains "403" error_msg
     then mret (false, "Access forbidden - video may be private or restricted")
     else mret (false, "Unexpected error: " ++ Py.slice_to 200 error_msg)).

(** [time.sleep(seconds)]: the sleep is logged when it takes place. *)
Definition sleep (seconds : Q) : M unit :=
  fault ← ask (λ w, time_sleep up w seconds);
  match fault with
  | Some msg => raise msg
  | None => emit (Sleep seconds)
  end.

(** The body of [for i, video in enumerate(videos_to_download)], from
    index [i] on; [n] is [len(videos_to_download)]. *)
Fixpoint download_each (delay : Q) (n i : Z)
    (videos : list Video.t) (acc : tally) : M tally :=
  match videos with
  | [] => mret acc
  | video :: rest =>
      '(success, result) ←
        download_transcript (Video.id video) (Video.title video)
          (Some (Video.channel video)) (Video.channel_id video)
          (Video.date video);
      let video_result :=
        {| VideoResult.video_id := Video.id video;
           VideoResult.title := Video.title video;
           VideoResult.success := success;
           VideoResult.result := result |} in
      let acc :=
        if success : bool
        then {| success_count := success_count acc + 1;
                failed_count := failed_count acc;
                duplicate_count := duplicate_count acc;
                results := (results acc ++ [video_result])%list |}
        else {| success_count := success_count acc;
                failed_count := failed_count acc + 1;
                duplicate_count :=
                  if Py.contains "duplicate" (Py.lower result)
                  then duplicate_count acc + 1 else duplicate_count acc;
                results := (results acc ++ [video_result])%list |} in
      (if i <? n - 1 then sleep delay else mret tt);;
      download_each delay n (i + 1) rest acc
  end.

(** [float(config.get('delay', 3.0))] *)
Definition delay_of (config : Config.t) : Q := default 3%Q (Config.delay config).

Definition run_download (config : Config.t) : M run_result :=
  emit (RunDownload (default EmptyString (Config.channel config))
                    (default EmptyString (Config.video_ids config)));;
  try_except
    (stored_key ←
       (if Py.truthy_opt (Config.api_key config) then mret None
        else ask (get_api_key_func up));
     let api_key := Py.or_opt (Config.api_key config) stored_key in
     if negb (Py.truthy_opt api_key) then mret (RunError "No API key available")
     else
       let api_key := default EmptyString api_key in
       let channel := default EmptyString (Config.channel config) in
       let video_ids := default EmptyString (Config.video_ids config) in
       let after_date := default EmptyString (Config.after_date config) in
       let folder_name := default EmptyString (Config.folder config) in
       let delay := delay_of config in
       let limit := Config.limit config in
       after_date_obj ←
         (if Py.truthy after_date
          then d ← lift (strptime_ymd up after_date); mret (Some d)
          else mret None);
       '(videos_to_download, folder_name) ←
         (if Py.truthy video_ids then
            let ids := map Py.strip (Py.split "," video_ids) in
            mret (map (λ vid,
                    {| Video.id := vid; Video.date := None;
                       Video.title := "video_" ++ vid;
                       Video.channel := Py.or_else folder_name "Direct_Downloads";
                       Video.channel_id := None |}) ids,
                  folder_name)
          else if Py.truthy channel then
            channel_id ← get_channel_id channel api_key;
            info ← get_channel_info channel_id api_key;
            let channel_name := Py.or_else info channel in
            let folder_name :=
              if negb (Py.truthy folder_name) then channel_name else folder_name in
            playlist_id ← get_uploads_playlist_id channel_id api_key;
            videos ← get_video_ids_from_playlist playlist_id api_key
                       (Some channel_id) after_date_obj limit;
            mret (map (λ video,
                    {| Video.id := Video.id video;
                       Video.date := Video.date video;
                       Video.title := Video.title video;
                       Video.channel := folder_name;
                       Video.channel_id := Video.channel_id video |}) videos,
                  folder_name)
          else mret ([], folder_name));
       let n := Z.of_nat (length videos_to_download) in
       acc ← download_each delay n 0 videos_to_download
               {| success_count := 0; failed_count := 0; duplicate_count := 0;
                  results := [] |};
       mret (RunOk
         {| Summary.total_videos := n;
            Summary.total_downloads := success_count acc;
            Summary.success_count := success_count acc;
            Summary.failed_count := failed_count acc;
            Summary.duplicate_count := duplicate_count acc;
            Summary.folder := folder_name;
            Summary.results := results acc |}))
    (λ e, mret (RunError e)).

(** The class of [sanitize_filename]: that of [_sanitize_name] without
    the at sign. *)
Definition filename_invalid_chars : list ascii :=
  ["<"; ">"; ":"; "034"; "/"; "\"; "|"; "?"; "*"]%char.

Definition sanitize_filename (name : string) : string :=
  let sanitized := Py.re_sub_class_empty filename_invalid_chars name in
  Py.strip sanitized.

End Methods.

End DownloadService.

(** ** scheduler.py *)

(** A job definition, the dict [job_config]. *)
Module Job.
Record t :=
  { id : string; name : string; channels : list string; frequency : string;
    start_date : string; folder_prefix : string; created_at : string;
    last_run : option string; status : string; total_downloads : Z;
    last_error : option string }.
End Job.

(** What the program uses of APScheduler: triggers, and a store of jobs
    by id in which [add_job(..., replace_existing=True)] puts a job
    whether or not the scheduler has been started. *)
Module APScheduler.

Record CronTrigger :=
  { day_of_week : option Z; day : option Z; hour : Z; minute : Z }.

Inductive trigger : Type :=
| Cron (fields : CronTrigger)
| Date (run_date : Z).

Inductive func : Type := RunScheduledDownload | RunCatchupDownload.

Record job :=
  { job_func : func; job_trigger : trigger; args : string; name : string }.

End APScheduler.

Module JobScheduler.

(** The fields of a [JobScheduler]; [jobs_file] is the mapping held by
    [.scheduled_jobs.json], empty while the file does not exist. *)
Record t :=
  { jobs : gmap string Job.t; jobs_file : gmap string Job.t;
    running : bool; scheduler : gmap string APScheduler.job }.

(** The two shapes of the dict [add_scheduled_job] returns. *)
Inductive add_result : Type :=
| AddOk (job_id message : string)
| AddError (error : string).

(** Scheduler code runs on its own fields and on the world. *)
Abbreviation S := (StateM (t * world)).

Definition get_self : S t := λ s, (Ok s.1, s).

Definition put_self (self : t) : S unit := λ s, (Ok tt, (self, s.2)).

Definition in_world {A} (m : M A) : S A :=
  λ s, let '(r, w) := m s.2 in (r, (s.1, w)).

Definition set_jobs (js : gmap string Job.t) : S unit :=
  self ← get_self;
  put_self {| jobs := js; jobs_file := jobs_file self;
              running := running self; scheduler := scheduler self |}.

(** [self.scheduler.add_job(..., id=id, replace_existing=True)] *)
Definition scheduler_add_job (id : string) (j : APScheduler.job) : S unit :=
  self ← get_self;
  put_self {| jobs := jobs self; jobs_file := jobs_file self;
              running := running self;
              scheduler := <[id := j]> (scheduler self) |}.

(** The file takes the whole mapping. *)
Definition _save_jobs : S unit :=
  self ← get_self;
  put_self {| jobs := jobs self; jobs_file := jobs self;
              running := running self; scheduler := scheduler self |}.

Definition _get_cron_trigger (frequency : string) : res APScheduler.CronTrigger :=
  if String.eqb frequency "daily" then
    Ok {| APScheduler.day_of_week := None; APScheduler.day := None;
          APScheduler.hour := 0; APScheduler.minute := 0 |}
  else if String.eqb frequency "weekly" then
    Ok {| APScheduler.day_of_week := Some 0; APScheduler.day := None;
          APScheduler.hour := 0; APScheduler.minute := 0 |}
  else if String.eqb frequency "monthly" then
    Ok {| APScheduler.day_of_week := None; APScheduler.day := Some 1;
          APScheduler.hour := 0; APScheduler.minute := 0 |}
  else Raise ("Unsupported frequency: " ++ frequency).

Definition _add_job_to_scheduler (job_config : Job.t) : S unit :=
  trigger ← lift (_get_cron_trigger (Job.frequency job_config));
  scheduler_add_job (Job.id job_config)
    {| APScheduler.job_func := APScheduler.RunScheduledDownload;
       APScheduler.job_trigger := APScheduler.Cron trigger;
       APScheduler.args := Job.id job_config;
       APScheduler.name := Job.name job_config |}.

Section Methods.
Context (up : upstream) (storage : GitHubStorage.t).

Definition _generate_job_id (name : string) (channels : list string)
    (frequency : string) : S string :=
  current ← in_world (ask (now up));
  let content :=
    name ++ "_" ++ Py.join "," channels ++ "_" ++ frequency ++ "_"
    ++ isoformat current in
  mret (Py.slice_to 12 (md5_hexdigest up content)).

(** Thirty seconds, in the unit of [instant]. *)
Definition catchup_delay : Z := 30000000.

Definition _schedule_catchup_run (job_config : Job.t) : S unit :=
  let catchup_job_id := "catchup_" ++ Job.id job_config in
  current ← in_world (ask (now up));
  scheduler_add_job catchup_job_id
    {| APScheduler.job_func := APScheduler.RunCatchupDownload;
       APScheduler.job_trigger := APScheduler.Date (instant current + catchup_delay);
       APScheduler.args := Job.id job_config;
       APScheduler.name := "Catchup: " ++ Job.name job_config |}.

Definition add_scheduled_job (name : string) (channels : list string)
    (frequency : string) (start_date : option string) (folder_prefix : string)
  : S add_result :=
  try_except
    (job_id ← _generate_job_id name channels frequency;
     date_today ← in_world (ask (today up));
     created ← in_world (ask (now up));
     let job_config :=
       {| Job.id := job_id; Job.name := name; Job.channels := channels;
          Job.frequency := frequency;
          Job.start_date :=
            if Py.truthy_opt start_date then default EmptyString start_date
            else date_today;
          Job.folder_prefix := folder_prefix;
          Job.created_at := isoformat created;
          Job.last_run := None; Job.status := "active";
          Job.total_downloads := 0; Job.last_error := None |} in
     self ← get_self;
     set_jobs (<[job_id := job_config]> (jobs self));;
     _save_jobs;;
     self ← get_self;
     (if running self then _add_job_to_scheduler job_config else mret tt);;
     _schedule_catchup_run job_config;;
     mret (AddOk job_id ("Scheduled job " ++ GitHubStorage.dquote ++ name
                         ++ GitHubStorage.dquote ++ " created")))
    (λ e, mret (AddError e)).

Definition update_job_status (job_id status : string) (error : option string)
  : S unit :=
  self ← get_self;
  match jobs self !! job_id with
  | Some job =>
      current ← in_world (ask (now up));
      set_jobs (<[job_id :=
        {| Job.id := Job.id job; Job.name := Job.name job;
           Job.channels := Job.channels job;
           Job.frequency := Job.frequency job;
           Job.start_date := Job.start_date job;
           Job.folder_prefix := Job.folder_prefix job;
           Job.created_at := Job.created_at job;
           Job.last_run := Some (isoformat current);
           Job.status := status;
           Job.total_downloads := Job.total_downloads job;
           Job.last_error :=
             if Py.truthy_opt error then error else None |}]> (jobs self));;
      _save_jobs
  | None => mret tt
  end.

(** [self.jobs[job_id]['total_downloads'] += n] *)
Definition add_total_downloads (job_id : string) (n : Z) : S unit :=
  self ← get_self;
  match jobs self !! job_id with
  | Some job =>
      set_jobs (<[job_id :=
        {| Job.id := Job.id job; Job.name := Job.name job;
           Job.channels := Job.channels job;
           Job.frequency := Job.frequency job;
           Job.start_date := Job.start_date job;
           Job.folder_prefix := Job.folder_prefix job;
           Job.created_at := Job.created_at job;
           Job.last_run := Job.last_run job;
           Job.status := Job.status job;
           Job.total_downloads := Job.total_downloads job + n;
           Job.last_error := Job.last_error job |}]> (jobs self))
  | None => raise job_id
  end.

(** [print(line)] *)
Definition print (line : printed) : S unit :=
  fault ← in_world (ask (λ w, stdout_fault up w line));
  match fault with
  | Some msg => raise msg
  | None => mret tt
  end.

(** The dict [download_config] built for one channel of a job. *)
Definition download_config (job_config : Job.t) (after_date channel : string)
  : Config.t :=
  let folder_name :=
    if Py.truthy (Job.folder_prefix job_config)
    then Job.folder_prefix job_config ++ channel else channel in
  {| Config.api_key := None; Config.channel := Some channel;
     Config.video_ids := None; Config.after_date := Some after_date;
     Config.folder := Some folder_name; Config.delay := Some 3%Q;
     Config.limit := None |}.

(** [for channel in job_config['channels']], with [total_downloads] as
    it stands. *)
Fixpoint download_channels (job_config : Job.t) (after_date : string)
    (channels : list string) (total_downloads : Z) : S Z :=
  match channels with
  | [] => mret total_downloads
  | channel :: rest =>
      result ← in_world (DownloadService.run_download up storage
                           (download_config job_config after_date channel));
      let total_downloads :=
        match result with
        | RunOk summary => total_downloads + Summary.total_downloads summary
        | RunError _ => total_downloads
        end in
      download_channels job_config after_date rest total_downloads
  end.

Definition _run_scheduled_download (job_id : string) : S unit :=
  self ← get_self;
  match jobs self !! job_id with
  | None => mret tt
  | Some job_config =>
      print (RunningJob (Job.name job_config));;
      try_except
        (after_date ←
           (if Py.truthy_opt (Job.last_run job_config)
            then lift (isoformat_to_ymd up
                         (default EmptyString (Job.last_run job_config)))
            else mret (Job.start_date job_config));
         total_downloads ←
           download_channels job_config after_date (Job.channels job_config) 0;
         add_total_downloads job_id total_downloads;;
         update_job_status job_id "completed" None;;
         print (JobCompleted (Job.name job_config) total_downloads))
        (λ error_msg,
         update_job_status job_id "failed" (Some error_msg);;
         print (JobFailed (Job.name job_config) error_msg))
  end.





(** [JobScheduler(download_service, storage)]: [stored] is the mapping
    [_load_jobs] reads from the file, empty while there is no file. The
    scheduler is not started and its store holds nothing. *)
Definition __init__ (stored : gmap string Job.t) : t :=
  {| jobs := stored; jobs_file := stored; running := false; scheduler := ∅ |}.

Definition set_running (b : bool) : S unit :=
  self ← get_self;
  put_self {| jobs := jobs self; jobs_file := jobs_file self;
              running := b; scheduler := scheduler self |}.

(** [for job_id, job_config in self.jobs.items()]; [items] are the
    entries of the dict in the order it yields them. *)
Fixpoint _restore_jobs (items : list (string * Job.t)) : S unit :=
  match items with
  | [] => mret tt
  | (job_id, job_config) :: rest =>
      (if String.eqb (Job.status job_config) "active"
       then _add_job_to_scheduler job_config
       else mret tt);;
      _restore_jobs rest
  end.

(** [items] are the entries of [self.jobs], as for [_restore_jobs].
    [self.scheduler.start()] sets the scheduler going and changes
    nothing in its store. *)
Definition start (items : list (string * Job.t)) : S unit :=
  self ← get_self;
  if negb (running self)
  then set_running true;; _restore_jobs items
  else mret tt.

End Methods.

End JobScheduler.

(** ** app_v2.py: the key store and the combined document *)

Module App.

(** What the key functions work on: the entry [youtube_api_key] of the
    session, the text of the key file (none while the file does not
    exist), the variable [YOUTUBE_API_KEY] of the environment, and
    whether the file can be opened for writing, read and removed. *)
Record t :=
  { session_key : option string; key_file : option string;
    environ_key : option string;
    writable : bool; readable : bool; removable : bool }.

(** The JSON body and the status of a response of the key routes. *)
Record key_response := { status : Z; success : bool; message : string }.

(** The body of the response of [check_api_key]. *)
Record key_check := { has_key : bool; source : option string }.

Definition set_session_key (k : option string) (s : t) : t :=
  {| session_key := k; key_file := key_file s; environ_key := environ_key s;
     writable := writable s; readable := readable s; removable := removable s |}.

Definition set_key_file (f : option string) (s : t) : t :=
  {| session_key := session_key s; key_file := f; environ_key := environ_key s;
     writable := writable s; readable := readable s; removable := removable s |}.

Section KeyStore.

(** [hashlib.sha256(s.encode()).hexdigest()] *)
Context (sha256_hexdigest : string → string).

(** The text is stored as it is written, as on a system whose line
    separator is the line feed; a file that cannot be opened makes the
    function return [False] and stays as it was. *)
Definition save_api_key_to_file (api_key : string) (s : t) : bool * t :=
  let encoded_key := Py.slice_to 16 (sha256_hexdigest api_key) ++ api_key in
  if writable s then (true, set_key_file (Some encoded_key) s)
  else (false, s).

(** A file that is there but cannot be read ends in the handler, and
    the function returns [None]. *)
Definition load_api_key_from_file (s : t) : option string :=
  match key_file s with
  | Some text =>
      if readable s then
        let encoded_key := Py.strip (Py.universal_newlines text) in
        if (16 <? String.length encoded_key)%nat
        then Some (Py.slice_from 16 encoded_key)
        else None
      else None
  | None => None
  end.

Definition remove_api_key_file (s : t) : bool * t :=
  match key_file s with
  | Some _ =>
      if removable s then (true, set_key_file None s) else (false, s)
  | None => (true, s)
  end.

Definition get_current_api_key (s : t) : string :=
  match session_key s with
  | Some k => k
  | None =>
      let file_key := load_api_key_from_file s in
      if Py.truthy_opt file_key then default EmptyString file_key
      else default EmptyString (environ_key s)
  end.

(** The route [/api/set_api_key]; [api_key] is the entry of the request
    body, if it has one. *)
Definition set_api_key (api_key : option string) (s : t) : key_response * t :=
  let api_key := default EmptyString api_key in
  if Py.truthy api_key then
    let '(saved, s) := save_api_key_to_file api_key s in
    if saved : bool
    then ({| status := 200; success := true;
             message := "API key saved for all users" |},
          set_session_key (Some api_key) s)
    else ({| status := 500; success := false;
             message := "Failed to save API key" |}, s)
  else ({| status := 400; success := false; message := "Invalid API key" |}, s).

(** The route [/api/remove_api_key]. *)
Definition remove_api_key (s : t) : key_response * t :=
  let s := set_session_key None s in
  let '(removed, s) := remove_api_key_file s in
  if removed : bool
  then ({| status := 200; success := true;
           message := "API key removed for all users" |}, s)
  else ({| status := 200; success := true;
           message := "API key removed from session" |}, s).

(** The route [/api/check_api_key]. *)
Definition check_api_key (s : t) : key_check :=
  let current_key := get_current_api_key s in
  {| has_key := Py.truthy current_key;
     source :=
       if bool_decide (is_Some (session_key s)) then Some "session"
       else if Py.truthy_opt (load_api_key_from_file s) then Some "persistent"
       else if Py.truthy_opt (environ_key s) then Some "environment"
       else None |}.

End KeyStore.

(** What the route [/api/storage/transcripts/combine] answers. *)
Inductive combined : Type :=
| CombineError (error : string)
| Combined (markdown : string) (count : Z).

Definition nl : string := String "010"%char EmptyString.

(** The part of the document written for one transcript. *)
Definition section_of (transcript_data : Content.t) : string :=
  "## " ++ Content.title transcript_data ++ nl ++ nl
  ++ "**Channel:** " ++ Content.channel transcript_data ++ "  " ++ nl
  ++ "**Video ID:** " ++ Content.video_id transcript_data ++ "  " ++ nl
  ++ (if Py.truthy (Content.published_at transcript_data)
      then "**Published:** "
           ++ Py.slice_to 10 (Content.published_at transcript_data) ++ "  " ++ nl
      else EmptyString)
  ++ "**Downloaded:** " ++ Py.slice_to 10 (Content.downloaded_at transcript_data)
  ++ "  " ++ nl ++ nl
  ++ "### Transcript" ++ nl ++ nl
  ++ Content.transcript transcript_data
  ++ nl ++ nl ++ "---" ++ nl ++ nl.

(** The head of the document; [generated] is
    [datetime.now().strftime('%Y-%m-%d %H:%M:%S')]. *)
Definition heading (generated : string) : string :=
  "# Combined YouTube Transcripts" ++ nl ++ nl
  ++ "Generated: " ++ generated ++ nl ++ nl
  ++ "---" ++ nl ++ nl.

Section Combine.

Context (up : upstream) (strftime_now : world → string).

(** [for path in paths], with [combined_markdown] as it stands. *)
Fixpoint combine_each (paths : list string) (combined_markdown : string)
  : M string :=
  match paths with
  | [] => mret combined_markdown
  | path :: rest =>
      let parts := Py.split "/" path in
      if (3 <=? length parts)%nat then
        let channel := nth 1 parts EmptyString in
        let filename := Py.replace_str ".json" EmptyString (nth 2 parts EmptyString) in
        transcript_data ← GitHubStorage.get_transcript up channel filename;
        match transcript_data with
        | Some data => combine_each rest (combined_markdown ++ section_of data)
        | None => combine_each rest combined_markdown
        end
      else combine_each rest combined_markdown
  end.

(** [paths] is the entry of the request body, if it has one. *)
Definition combine_transcripts (paths : option (list string)) : M combined :=
  try_except
    (let paths := default [] paths in
     match paths with
     | [] => mret (CombineError "No transcripts selected")
     | _ :: _ =>
         generated ← ask strftime_now;
         combined_markdown ← combine_each paths (heading generated);
         mret (Combined combined_markdown (Z.of_nat (length paths)))
     end)
    (λ e, mret (CombineError e)).

End Combine.

End App.

(** * Vocabulary of the properties *)

Definition space : ascii := " "%char.

(** The ten characters a sanitised name is to be rid of: less-than
    (60), greater-than (62), colon (58), double quote (34), slash (47),
    backslash (92), bar (124), question mark (63), star (42) and at
    sign (64). *)
Definition removed_chars : list ascii :=
  map ascii_of_nat [60; 62; 58; 34; 47; 92; 124; 63; 42; 64]%nat.

(** [c] is one of those ten. *)
Definition is_removed (c : ascii) : bool :=
  bool_decide (c ∈ removed_chars).

(** What sanitising is to make of a name: its characters outside those
    ten, in order, each space among them turned into an underscore. *)
Definition cleaned (name : string) : list ascii :=
  map (λ c, if Ascii.eqb c space then "_"%char else c)
      (List.filter (λ c, negb (is_removed c)) (list_ascii_of_string name)).

(** The nine characters a file name is to be rid of: the ten without
    the at sign. *)
Definition filename_removed_chars : list ascii :=
  map ascii_of_nat [60; 62; 58; 34; 47; 92; 124; 63; 42]%nat.

(** The characters of [name] outside those nine, in order. *)
Definition filename_kept (name : string) : list ascii :=
  List.filter (λ c, negb (bool_decide (c ∈ filename_removed_chars)))
              (list_ascii_of_string name).

(** Every character of [l] is whitespace. *)
Definition blank (l : list ascii) : Prop :=
  Forall (λ c, Py.is_space c = true) l.

(** ** The existence probe and the paths of the storage adapter *)

(** What a probe for [video_id] made in the world [w] is answered. *)
Definition probe_reply (up : upstream) (self : GitHubStorage.t)
    (video_id : string) (w : world) : http (list string) :=
  github_search_code up
    (logged (SearchCode (GitHubStorage.exists_query self video_id)) w)
    (GitHubStorage.exists_query self video_id).

(** The request raised, or came back with a status other than 200. *)
Definition probe_failed (reply : http (list string)) : Prop :=
  match reply with
  | RequestError _ => True
  | Response status _ _ => status ≠ 200
  end.

(** The world once a probe for [video_id] has been made. *)
Definition probed (self : GitHubStorage.t) (video_id : string) (w : world)
  : world :=
  logged (SearchCode (GitHubStorage.exists_query self video_id)) w.

(** The path [save_transcript] writes to. *)
Definition saved_path (channel_name video_id title : string) : string :=
  "channels/" ++ GitHubStorage._sanitize_name channel_name ++ "/" ++ video_id
  ++ "_" ++ GitHubStorage._sanitize_name title ++ ".json".

(** The path [get_transcript] reads from. *)
Definition read_path (channel_name title : string) : string :=
  "channels/" ++ GitHubStorage._sanitize_name channel_name ++ "/"
  ++ GitHubStorage._sanitize_name title ++ ".json".

(** The dict [save_transcript] writes, [downloaded_at] apart. *)
Definition content_of (channel_name video_id title transcript_text : string)
    (md : Metadata.t) (downloaded_at : string) : Content.t :=
  {| Content.video_id := video_id;
     Content.channel_id := Metadata.channel_id md;
     Content.title := title;
     Content.channel := channel_name;
     Content.published_at := Metadata.published_at md;
     Content.downloaded_at := downloaded_at;
     Content.transcript := transcript_text;
     Content.metadata := md |}.

(** ** Calls made by a piece of code *)

(** Every run of [m] appends calls to the trace, all of them in [P], and
    nothing else happens to the trace. *)
Definition emits {A} (P : event → Prop) (m : M A) : Prop :=
  ∀ w, ∃ evs, trace (m w).2 = (trace w ++ evs)%list ∧ Forall P evs.

(** The calls of the storage adapter. *)
Definition storage_call (e : event) : Prop :=
  match e with
  | SearchCode _ | GetContents _ | PutContents _ _ => True
  | _ => False
  end.

(** The calls of [download_transcript] after its own entry. *)
Definition transcript_call (e : event) : Prop :=
  match e with
  | SearchCode _ | GetContents _ | PutContents _ _ | ListTranscripts _
  | FindManuallyCreated _ | FindGenerated _ | FindTranscript _
  | IterTranscripts | Fetch _ => True
  | _ => False
  end.

(** ** Concrete services and worlds for the examples *)

Definition empty_world : world := {| files := ∅; trace := [] |}.

Definition noon : datetime :=
  {| instant := 1704110400000000; isoformat := "2024-01-01T12:00:00" |}.

(** Services that answer the same whatever the world: [search_code] to
    every probe, [listing] / [fetch] on the transcript API, [key] from the
    key store, [channel_search] on the channel search and [uploads] as the
    upload list of every channel, which is titled "Some Channel" and
    whose uploads playlist is "UU1". *)
Definition services (search_code : http (list string))
    (listing : res transcript_list) (fetch : transcript → res (list snippet))
    (key : option string) (channel_search : string → http (list string))
    (uploads : pages) : upstream :=
  {| youtube_search := λ _ query _, channel_search query;
     youtube_channel_snippet := λ _ _ _, Response 200 EmptyString ["Some Channel"];
     youtube_channel_details := λ _ _ _, Response 200 EmptyString ["UU1"];
     youtube_playlist_items := λ _ _ _, uploads;
     youtube_transcript_list := λ _ _, listing;
     youtube_transcript_fetch := λ _ t, fetch t;
     github_search_code := λ _ _, search_code;
     github_get_fault := λ _ _, None;
     github_put_fault := λ _ _, None;
     git_sha := λ r, "sha-" ++ Content.video_id r;
     get_api_key_func := λ _, key;
     strptime_ymd := λ s, Ok {| instant := 0; isoformat := s ++ "T00:00:00" |};
     isoformat_to_ymd := λ s, Ok (Py.slice_to 10 s);
     now := λ _, noon;
     today := λ _, "2024-01-01";
     md5_hexdigest := λ s, "0123456789abcdef0123456789abcdef";
     time_sleep := λ _ seconds,
       if Qle_bool 0 seconds then None
       else Some "sleep length must be non-negative";
     stdout_fault := λ _ _, None |}.

(** A probe that finds nothing. *)
Definition not_found : http (list string) := Response 200 EmptyString [].

(** A probe that is turned away. *)
Definition rate_limited : http (list string) :=
  Response 403 "API rate limit exceeded" [].

Definition no_transcripts : res transcript_list :=
  Ok {| manually_created := []; generated := [] |}.

(** Services in which nothing is stored yet and nothing fails. *)
Definition fresh_store : upstream :=
  services not_found no_transcripts (λ _, Ok []) None (λ _, not_found)
    (PageError EmptyString).

Definition some_metadata : Metadata.t :=
  {| Metadata.transcript_type := "manual"; Metadata.duration := 12%Q;
     Metadata.channel_id := EmptyString; Metadata.published_at := EmptyString |}.

(** ** Counting the outcomes of a run *)




(** The number of entries of [l] that pass [p]. *)
Definition count (p : VideoResult.t → bool) (l : list VideoResult.t) : Z :=
  Z.of_nat (length (List.filter p l)).


(** The run of the end-to-end scenario: two ids, no channel, a key. *)
Definition direct_config : Config.t :=
  {| Config.api_key := Some "KEY"; Config.channel := None;
     Config.video_ids := Some "abc123,def456"; Config.after_date := None;
     Config.folder := None; Config.delay := None; Config.limit := None |}.

(** Services whose probe finds every video stored already. *)
Definition stored_already : upstream :=
  services (Response 200 EmptyString ["channels/Chan/abc123_Title.json"])
    no_transcripts (λ _, Ok []) None (λ _, not_found) (PageError EmptyString).

(** ** The upload list and the date filter *)

(** The pages of an upload list all of whose requests are answered with
    status 200, up to the first page without a token (or with an empty
    one): the items of each page, in order. *)
Fixpoint served_pages (p : pages) : option (list (list playlist_item)) :=
  match p with
  | PageError _ => None
  | LastPage status _ page_items =>
      if status =? 200 then Some [page_items] else None
  | MorePages status _ page_items token rest =>
      if status =? 200 then
        if Py.truthy token
        then match served_pages rest with
             | Some more => Some (page_items :: more)
             | None => None
             end
        else Some [page_items]
      else None
  end.

(** The item was published strictly after [after_date]; every item
    passes when no date is given. *)
Definition published_after (after_date : option datetime)
    (item : playlist_item) : bool :=
  match after_date with
  | None => true
  | Some after => instant after <? instant (publishedAt item)
  end.

(** The candidate made from a playlist item. *)
Definition candidate (channel_id : option string) (item : playlist_item)
  : Video.t :=
  {| Video.id := videoId item;
     Video.date := Some (isoformat (publishedAt item));
     Video.title := snippet_title item;
     Video.channel := channelTitle item;
     Video.channel_id :=
       Some (if Py.truthy_opt channel_id then default EmptyString channel_id
             else default EmptyString (snippet_channelId item)) |}.

(** The candidates of the items that pass the date filter, in order. *)
Definition candidates (channel_id : option string)
    (after_date : option datetime) (l : list playlist_item) : list Video.t :=
  map (candidate channel_id) (List.filter (published_after after_date) l).

(** A request for a page of the playlist. *)
Definition page_request (playlist_id : string) (e : event) : Prop :=
  ∃ token, e = PlaylistItems playlist_id token.

(** The number of candidates the pages [pss] give. *)
Definition candidate_count (channel_id : option string)
    (after_date : option datetime) (pss : list (list playlist_item)) : Z :=
  Z.of_nat (length (candidates channel_id after_date (concat pss))).

(** The number of items in the pages [pss] that pass the date filter. *)
Definition passing (after_date : option datetime)
    (pss : list (list playlist_item)) : Z :=
  Z.of_nat (length (List.filter (published_after after_date) (concat pss))).

(** A cut-off instant [T] and three uploads, published just before, at
    and just after it, served newest first on two pages. *)
Definition cutoff : datetime :=
  {| instant := 1704067200000000; isoformat := "2024-01-01T00:00:00+00:00" |}.

Definition upload (id : string) (at_instant : Z) (stamp : string) : playlist_item :=
  {| publishedAt := {| instant := at_instant; isoformat := stamp |};
     videoId := id; snippet_title := "Upload " ++ id;
     channelTitle := "Some Channel"; snippet_channelId := Some "UC1" |}.

Definition upload_before : playlist_item :=
  upload "before" 1704067199000000 "2023-12-31T23:59:59+00:00".

Definition upload_at : playlist_item :=
  upload "exact" 1704067200000000 "2024-01-01T00:00:00+00:00".

Definition upload_after : playlist_item :=
  upload "after" 1704067201000000 "2024-01-01T00:00:01+00:00".

Definition two_pages : pages :=
  MorePages 200 EmptyString [upload_after; upload_at] "PAGE2"
    (LastPage 200 EmptyString [upload_before]).

(** Services with a key, a channel found for every query and
    [two_pages] as its uploads; nothing is stored and no video has a
    transcript. *)
Definition channel_services : upstream :=
  services not_found no_transcripts (λ _, Ok []) (Some "KEY")
    (λ _, Response 200 EmptyString ["UC1"]) two_pages.

(** ** The tiers of the transcript lookup *)

(** The lookups of tier 3 (any target-language transcript) and tier 4
    (the first transcript in any language). *)
Definition tier3_or_4 (e : event) : Prop :=
  match e with
  | FindTranscript _ | IterTranscripts => True
  | _ => False
  end.

(** The metadata [download_transcript] builds for a fetched transcript. *)
Definition metadata_of (transcript_type : string) (transcript : list snippet)
    (channel_id published_at : option string) : Metadata.t :=
  {| Metadata.transcript_type := transcript_type;
     Metadata.duration :=
       match last transcript with
       | Some last_entry => start last_entry
       | None => 0%Q
       end;
     Metadata.channel_id :=
       if Py.truthy_opt channel_id then default EmptyString channel_id
       else EmptyString;
     Metadata.published_at :=
       if Py.truthy_opt published_at then default EmptyString published_at
       else EmptyString |}.

(** The text [download_transcript] stores for a fetched transcript. *)
Definition full_text_of (transcript : list snippet) : string :=
  Py.join DownloadService.newline (map text transcript).

(** The folder a transcript is stored under. *)
Definition folder_of (channel_name : option string) : string :=
  if Py.truthy_opt channel_name then default EmptyString channel_name
  else "Unknown_Channel".

(** An auto-generated English transcript of video abc123, and a listing
    that has nothing else. *)
Definition en_generated : transcript :=
  {| of_video := "abc123"; language := "English (auto-generated)";
     language_code := "en"; is_generated := true |}.

Definition only_generated : res transcript_list :=
  Ok {| manually_created := []; generated := [en_generated] |}.

Definition two_lines : list snippet :=
  [{| text := "hello"; start := 0%Q |}; {| text := "world"; start := 2%Q |}].

(** Services for a video with only an auto-generated English transcript:
    [fetch] is what fetching it gives, [search_code] what the probe is
    answered. *)
Definition generated_only_services (search_code : http (list string))
    (fetch : res (list snippet)) : upstream :=
  services search_code only_generated (λ _, fetch) (Some "KEY")
    (λ _, not_found) (PageError EmptyString).

(** ** The steps of a run *)

(** The calls by which a run moves from item to item: the entry into
    [download_transcript] and the sleep between two items. *)
Definition is_step (e : event) : bool :=
  match e with
  | Sleep _ | DownloadTranscript _ _ => true
  | _ => false
  end.

(** The api key a run started in the world [w] works with. *)
Definition api_key_of (up : upstream) (config : Config.t) (w : world)
  : option string :=
  Py.or_opt (Config.api_key config)
    (get_api_key_func up
       (logged (RunDownload (default EmptyString (Config.channel config))
                            (default EmptyString (Config.video_ids config))) w)).


(** The standard output takes every line the scheduler prints. *)
Definition stdout_open (up : upstream) : Prop :=
  ∀ w line, stdout_fault up w line = None.


(** The scenario without any key: none in the config, none stored. *)
Definition keyless_config : Config.t :=
  {| Config.api_key := None; Config.channel := None;
     Config.video_ids := Some "abc123,def456"; Config.after_date := None;
     Config.folder := None; Config.delay := None; Config.limit := None |}.

(** The same two ids, with a delay of -1 second. *)
Definition negative_delay_config : Config.t :=
  {| Config.api_key := None; Config.channel := None;
     Config.video_ids := Some "abc123,def456"; Config.after_date := None;
     Config.folder := None; Config.delay := Some (-1)%Q;
     Config.limit := None |}.

(** The steps of a run over [videos]: one download for each, a sleep of
    [delay] seconds after every one but the last. *)
Fixpoint steps_of (delay : Q) (videos : list Video.t) : list event :=
  match videos with
  | [] => []
  | video :: rest =>
      DownloadTranscript (Video.id video) (Video.title video)
      :: match rest with
         | [] => []
         | _ :: _ => Sleep delay :: steps_of delay rest
         end
  end.

(** The id and title recorded for each entry of [results]. *)
Definition recorded (results : list VideoResult.t) : list (string * string) :=
  map (λ r, (VideoResult.video_id r, VideoResult.title r)) results.

(** ** Runs started by the scheduler *)

(** The entry into [run_download]. *)
Definition is_run (e : event) : bool :=
  match e with
  | RunDownload _ _ => true
  | _ => false
  end.

(** Every call but the entry into [run_download]. *)
Definition inside_run (e : event) : Prop :=
  match e with
  | RunDownload _ _ => False
  | _ => True
  end.

(** The date filter of a trigger can be computed: there is no last run,
    or its stamp is read into the date [after_date]; without a last run
    the filter is the start date. *)
Definition date_filter (up : upstream) (job : Job.t) (after_date : string)
  : Prop :=
  if Py.truthy_opt (Job.last_run job)
  then isoformat_to_ymd up (default EmptyString (Job.last_run job)) = Ok after_date
  else after_date = Job.start_date job.

(** What the runs of [channels] return, one after the other from [w]
    on, and the world they leave. *)
Fixpoint channel_runs (up : upstream) (storage : GitHubStorage.t)
    (job : Job.t) (after_date : string) (channels : list string) (w : world)
  : list run_result * world :=
  match channels with
  | [] => ([], w)
  | channel :: rest =>
      match DownloadService.run_download up storage
              (JobScheduler.download_config job after_date channel) w with
      | (Ok result, w1) =>
          let '(results, w') :=
            channel_runs up storage job after_date rest w1 in
          (result :: results, w')
      | (Raise _, w1) => ([], w1)
      end
  end.

(** The downloads a trigger is to count: the total_downloads of every
    run that returned a summary; a failure dict counts for nothing. *)
Fixpoint downloads_of (results : list run_result) : Z :=
  match results with
  | [] => 0
  | RunOk summary :: rest => Summary.total_downloads summary + downloads_of rest
  | RunError _ :: rest => downloads_of rest
  end.

(** The job after a trigger that ran to its end. *)
Definition completed (job : Job.t) (downloads : Z) (finished : string) : Job.t :=
  {| Job.id := Job.id job; Job.name := Job.name job;
     Job.channels := Job.channels job; Job.frequency := Job.frequency job;
     Job.start_date := Job.start_date job;
     Job.folder_prefix := Job.folder_prefix job;
     Job.created_at := Job.created_at job;
     Job.last_run := Some finished; Job.status := "completed";
     Job.total_downloads := Job.total_downloads job + downloads;
     Job.last_error := None |}.

(** Services in which the channel "gone" is not found and every other
    channel is, with [two_pages] as its uploads; no video has a
    transcript. *)
Definition mixed_services : upstream :=
  services not_found no_transcripts (λ _, Ok []) (Some "KEY")
    (λ query, if String.eqb query "gone" then not_found
              else Response 200 EmptyString ["UC1"])
    two_pages.

(** A weekly job over the channels "gone" and "alive". *)
Definition two_channel_job : Job.t :=
  {| Job.id := "job1"; Job.name := "weekly digest";
     Job.channels := ["gone"; "alive"]; Job.frequency := "weekly";
     Job.start_date := "2024-01-01"; Job.folder_prefix := EmptyString;
     Job.created_at := "2024-01-01T12:00:00"; Job.last_run := None;
     Job.status := "active"; Job.total_downloads := 0;
     Job.last_error := None |}.

(** A started scheduler that holds [two_channel_job]. *)
Definition one_job : JobScheduler.t :=
  {| JobScheduler.jobs := {[ "job1" := two_channel_job ]};
     JobScheduler.jobs_file := {[ "job1" := two_channel_job ]};
     JobScheduler.running := true; JobScheduler.scheduler := ∅ |}.


(** A scheduler that holds no job, not started and started. *)
Definition idle : JobScheduler.t :=
  {| JobScheduler.jobs := ∅; JobScheduler.jobs_file := ∅;
     JobScheduler.running := false; JobScheduler.scheduler := ∅ |}.

Definition started : JobScheduler.t :=
  {| JobScheduler.jobs := ∅; JobScheduler.jobs_file := ∅;
     JobScheduler.running := true; JobScheduler.scheduler := ∅ |}.

(** ** Names that sanitising leaves alone *)

(** No character of [s] is in the class [_sanitize_name] deletes, and
    none is a space. *)
Definition clean (s : string) : Prop :=
  Forall (λ c, (c ∉ GitHubStorage.invalid_chars) ∧ c ≠ space)
         (list_ascii_of_string s).

(** The file name [save_transcript] gives a transcript, without the
    extension. *)
Definition stem (video_id title : string) : string :=
  video_id ++ "_" ++ GitHubStorage._sanitize_name title.

(** The first and the last character of a string. *)
Definition first_char (s : string) : option ascii :=
  match s with
  | EmptyString => None
  | String c _ => Some c
  end.

Fixpoint last_char (s : string) : option ascii :=
  match s with
  | EmptyString => None
  | String c EmptyString => Some c
  | String _ s' => last_char s'
  end.

(** [s] neither starts nor ends with whitespace. *)
Definition trimmed (s : string) : Prop :=
  (∀ c, first_char s = Some c → Py.is_space c = false)
  ∧ (∀ c, last_char s = Some c → Py.is_space c = false).

(** A title of a hundred letters. *)
Definition long_title : string :=
  string_of_list_ascii (replicate 100 "a"%char).

(** The probe found at least one file that mentions the video id. *)
Definition probe_found (reply : http (list string)) : Prop :=
  match reply with
  | Response status _ (_ :: _) => status = 200
  | _ => False
  end.

(** ** What a download leaves in the repository *)

(** Running [m] leaves every file as it was. *)
Definition keeps_files {A} (m : M A) : Prop := ∀ w, files (m w).2 = files w.

(** A write request to the contents API. *)
Definition is_put (e : event) : bool :=
  match e with
  | PutContents _ _ => true
  | _ => false
  end.

(** Running [m] makes no write request and leaves every file as it
    was; what it returns satisfies [Q]. *)
Definition quiet {A} (Q : A → Prop) (m : M A) : Prop :=
  ∀ w, ∃ evs,
    trace (m w).2 = (trace w ++ evs)%list
    ∧ List.filter is_put evs = []
    ∧ files (m w).2 = files w
    ∧ ∀ a, (m w).1 = Ok a → Q a.

(** Running [m] makes at most one write request, and that for [path];
    a run that makes none leaves every file as it was and returns
    nothing [ok] accepts. *)
Definition puts_once {A} (path : string) (ok : A → bool) (m : M A) : Prop :=
  ∀ w, ∃ evs,
    trace (m w).2 = (trace w ++ evs)%list
    ∧ ((List.filter is_put evs = [] ∧ files (m w).2 = files w
        ∧ ∀ a, (m w).1 = Ok a → ok a = false)
       ∨ ∃ sha, List.filter is_put evs = [PutContents path sha]).

(** A pair returned from inside [download_transcript] before anything
    is stored reports a failure. *)
Definition early_return {A} (x : bool * string + A) : Prop :=
  match x with
  | inl returned => returned.1 = false
  | inr _ => True
  end.

(** The dict [save_transcript] returns says [success]. *)
Definition is_saved (r : GitHubStorage.save_result) : bool :=
  match r with
  | GitHubStorage.SaveOk _ _ => true
  | _ => false
  end.

(** The requests by which [run_download] finds the videos of a channel. *)
Definition resolution_call (e : event) : Prop :=
  match e with
  | YouTubeSearch _ | YouTubeChannelSnippet _ | YouTubeChannelDetails _
  | PlaylistItems _ _ => True
  | _ => False
  end.
(** ** Tier lookups and failure messages *)

(** What fetching a transcript gives does not change from one call to
    the next. *)
Definition steady_fetch (up : upstream) : Prop :=
  ∀ w1 w2 t, youtube_transcript_fetch up w1 t = youtube_transcript_fetch up w2 t.

(** The world after the four lookups of a listing without any English
    transcript. *)
Definition looked_up (w : world) : world :=
  logged IterTranscripts
    (logged (FindTranscript ["en"])
       (logged (FindGenerated ["en"])
          (logged (FindManuallyCreated ["en"]) w))).

(** The messages of the handler around the whole of
    [download_transcript]. *)
Definition handler_message (video_id result : string) : Prop :=
  result = "Rate limited - please wait before retrying"
  ∨ result = "Video not found (ID: " ++ video_id ++ ")"
  ∨ result = "Access forbidden - video may be private or restricted"
  ∨ ∃ error_msg, result = "Unexpected error: " ++ Py.slice_to 200 error_msg.

(** A German transcript written by hand, and a listing that has nothing
    else. *)
Definition de_manual : transcript :=
  {| of_video := "abc123"; language := "German"; language_code := "de";
     is_generated := false |}.

Definition only_german : transcript_list :=
  {| manually_created := [de_manual]; generated := [] |}.
(** ** Runs that stop early, and runs over stored videos *)

(** A sleep between two items. *)
Definition is_sleep (e : event) : bool :=
  match e with
  | Sleep _ => true
  | _ => false
  end.

(** The calls of a run in which every video is found stored: the entry
    into [download_transcript], its probe, and the sleep. *)
Definition duplicate_call (e : event) : Prop :=
  match e with
  | DownloadTranscript _ _ | SearchCode _ | Sleep _ => True
  | _ => False
  end.

(** The probe finds every video id, whenever it is asked. *)
Definition all_stored (up : upstream) (storage : GitHubStorage.t) : Prop :=
  ∀ w video_id, probe_found (probe_reply up storage video_id w).

(** The world at the entry of a run. *)
Definition entered (config : Config.t) (w : world) : world :=
  logged (RunDownload (default EmptyString (Config.channel config))
                      (default EmptyString (Config.video_ids config))) w.



(** ** Upload lists that are not served to the end *)

(** An upload list whose second page is answered with status 500. *)
Definition broken_pages : pages :=
  MorePages 200 EmptyString [upload_after; upload_at] "PAGE2"
    (LastPage 500 "Backend Error" [upload_before]).

Definition broken_services : upstream :=
  services not_found no_transcripts (λ _, Ok []) (Some "KEY")
    (λ _, Response 200 EmptyString ["UC1"]) broken_pages.

(** ** Jobs as the scheduler creates, closes and removes them *)









(** ** The key store *)

(** A lower-case hexadecimal digit. *)
Definition hex_digit (c : ascii) : bool :=
  let n := nat_of_ascii c in
  (Nat.leb 48 n && Nat.leb n 57) || (Nat.leb 97 n && Nat.leb n 102).

(** [h] gives digests as [hexdigest] of SHA-256 does: 64 hexadecimal
    digits. *)
Definition sha256_like (h : string → string) : Prop :=
  ∀ s, String.length (h s) = 64%nat
       ∧ Forall (λ c, hex_digit c = true) (list_ascii_of_string (h s)).

(** The key a session without a key of its own reads back from the
    file in which [api_key] was saved. *)
Definition stored_form (api_key : string) : string :=
  Py.rstrip (Py.universal_newlines api_key).

(** A digest function for the examples. *)
Definition constant_digest (s : string) : string :=
  "0123456789abcdef0123456789abcdef0123456789abcdef0123456789abcdef".

(** A key store with nothing in it, whose file can be written, read and
    removed. *)
Definition no_keys : App.t :=
  {| App.session_key := None; App.key_file := None; App.environ_key := None;
     App.writable := true; App.readable := true; App.removable := true |}.
(** ** The combined document *)

(** No file is stored and the contents API answers every request
    itself. *)
Definition nothing_stored (up : upstream) (w : world) : Prop :=
  files w = ∅ ∧ ∀ w' path, github_get_fault up w' path = None.

(** The stamp of the examples. *)
Definition stamp (w : world) : string := "2024-01-01 12:00:00".

(** The world in which video abc123, titled Title, of channel Chan has
    been saved in an empty repository. *)
Definition one_saved : world :=
  (GitHubStorage.save_transcript fresh_store GitHubStorage.new "Chan" "abc123"
     "Title" "hello" (Some some_metadata) empty_world).2.

(** ** Starting the scheduler *)

(** [_get_cron_trigger] knows the frequency. *)
Definition supported (frequency : string) : Prop :=
  ∃ trigger, JobScheduler._get_cron_trigger frequency = Ok trigger.



(** The cron entry of a job is that of a scheduled download for it. *)
Definition cron_entry_of (job : Job.t) (entry : APScheduler.job) : Prop :=
  APScheduler.job_func entry = APScheduler.RunScheduledDownload
  ∧ APScheduler.args entry = Job.id job.

(** An active job with a frequency nobody knows, as a scheduler that
    was not started accepts it. *)
Definition hourly_job : Job.t :=
  {| Job.id := "job2"; Job.name := "hourly digest";
     Job.channels := ["alive"]; Job.frequency := "hourly";
     Job.start_date := "2024-01-01"; Job.folder_prefix := EmptyString;
     Job.created_at := "2024-01-01T12:00:00"; Job.last_run := None;
     Job.status := "active"; Job.total_downloads := 0;
     Job.last_error := None |}.

(** * Properties *)

(** ** Python strings as lists of characters *)

Section PyStrings.

Lemma list_of_slice_to n s :
  list_ascii_of_string (Py.slice_to n s) = take n (list_ascii_of_string s).
Proof.
  revert s; induction n as [|n IH]; intros [|c s]; simpl; try reflexivity.
  by rewrite IH.
Qed.

Lemma list_of_re_sub_class_empty cls s :
  list_ascii_of_string (Py.re_sub_class_empty cls s)
  = List.filter (λ c, negb (existsb (Ascii.eqb c) cls)) (list_ascii_of_string s).
Proof.
  induction s as [|c s IH]; simpl; [reflexivity|].
  destruct (existsb (Ascii.eqb c) cls); simpl; by rewrite IH.
Qed.

Lemma list_of_replace old new s :
  list_ascii_of_string (Py.replace old new s)
  = map (λ c, if Ascii.eqb c old then new else c) (list_ascii_of_string s).
Proof. induction s as [|c s IH]; simpl; [reflexivity|]. by rewrite IH. Qed.

Lemma length_list_of s : length (list_ascii_of_string s) = String.length s.
Proof. induction s as [|c s IH]; simpl; [reflexivity|]. by rewrite IH. Qed.

End PyStrings.

(** ** github_storage.py *)

Section SanitizeName.

Import GitHubStorage.

(** The class of the code has the ten characters as its members. *)
Lemma invalid_chars_removed c :
  existsb (Ascii.eqb c) invalid_chars = is_removed c.
Proof.
  unfold is_removed. destruct (existsb (Ascii.eqb c) invalid_chars) eqn:Hex.
  - apply existsb_exists in Hex as (d & Hd & Heq).
    apply Ascii.eqb_eq in Heq as <-. symmetry. apply bool_decide_eq_true.
    by apply list_elem_of_In.
  - symmetry. apply bool_decide_eq_false. intros Hin.
    apply list_elem_of_In in Hin.
    assert (existsb (Ascii.eqb c) invalid_chars = true) as Hex'; [|congruence].
    apply existsb_exists. exists c. split; [exact Hin|apply Ascii.eqb_refl].
Qed.

Lemma sanitize_name_chars name :
  list_ascii_of_string (_sanitize_name name) = take 100 (cleaned name).
Proof.
  unfold _sanitize_name, cleaned.
  rewrite list_of_slice_to, list_of_replace, list_of_re_sub_class_empty.
  do 2 f_equal. apply filter_ext. intros c. by rewrite invalid_chars_removed.
Qed.

Lemma cleaned_no_invalid name c :
  c ∈ cleaned name → (c ∉ removed_chars) ∧ c ≠ space.
Proof.
  unfold cleaned. rewrite list_elem_of_fmap. intros (d & -> & Hd).
  apply list_elem_of_In, filter_In in Hd as [_ Hd].
  apply negb_true_iff, bool_decide_eq_false in Hd.
  unfold space. destruct (Ascii.eqb_spec d " ") as [->|Hsp].
  - split; [|discriminate]. rewrite list_elem_of_In. simpl. intuition discriminate.
  - by split.
Qed.

(** C9. For every name, [_sanitize_name] gives the first 100 of the
    characters of the name that are not one of less-than, greater-than,
    colon, double quote, slash, backslash, bar, question mark, star and
    at sign, each space among them turned into an underscore: none of
    those ten characters and no space is left, and the result has at
    most 100 characters. *)
Theorem sanitize_name_strips_replaces_truncates (name : string) :
  let result := list_ascii_of_string (_sanitize_name name) in
  result = take 100 (cleaned name)
  ∧ (∀ c, c ∈ removed_chars → c ∉ result)
  ∧ (space ∉ result)
  ∧ (String.length (_sanitize_name name) ≤ 100)%nat.
Proof.
  simpl. rewrite <- length_list_of, sanitize_name_chars.
  split; [reflexivity|]. split; [|split].
  - intros c Hc Hin. apply subseteq_take in Hin.
    by apply cleaned_no_invalid in Hin as [Hin _].
  - intros Hin. apply subseteq_take in Hin.
    by apply cleaned_no_invalid in Hin as [_ Hin].
  - rewrite length_take. lia.
Qed.

Example sanitize_name_example :
  _sanitize_name "a<b>: c/d\e|f?g*h@i j" = "ab_cdefghi_j".
Proof. reflexivity. Qed.

End SanitizeName.

(** ** Stepping through effectful code *)

Ltac run_monad :=
  cbv beta iota delta
    [mbind StateM_bind mret StateM_ret try_except request emit ask raise
     lift set_files] in *;
  simpl in *.

Lemma bind_Ok {St A B} (m : StateM St A) (f : A → StateM St B) s b s' :
  (m ≫= f) s = (Ok b, s') → ∃ a s1, m s = (Ok a, s1) ∧ f a s1 = (Ok b, s').
Proof.
  unfold mbind, StateM_bind. destruct (m s) as [[a|msg] s1]; [|discriminate].
  intros H. by exists a, s1.
Qed.


Lemma bind_run {St A B} (m : StateM St A) (f : A → StateM St B) s a s1 :
  m s = (Ok a, s1) → (m ≫= f) s = f a s1.
Proof. intros H. unfold mbind, StateM_bind. by rewrite H. Qed.

Lemma try_except_run {St A} (m : StateM St A) (h : string → StateM St A) s a s1 :
  m s = (Ok a, s1) → try_except m h s = (Ok a, s1).
Proof. intros H. unfold try_except. by rewrite H. Qed.

Section ExistenceProbe.

Import GitHubStorage.
Context (up : upstream) (self : GitHubStorage.t).

Lemma check_transcript_exists_failed video_id w :
  probe_failed (probe_reply up self video_id w) →
  check_transcript_exists up self video_id w = (Ok false, probed self video_id w).
Proof.
  unfold probe_failed, probe_reply, probed, check_transcript_exists.
  run_monad. intros Hfail.
  destruct (github_search_code up _ _) as [msg|status body found]; simpl.
  - reflexivity.
  - destruct (Z.eqb_spec status 200) as [->|_]; [done|reflexivity].
Qed.

(** The probe never raises, and leaves exactly one call behind. *)
Lemma check_transcript_exists_total video_id w :
  ∃ b, check_transcript_exists up self video_id w = (Ok b, probed self video_id w).
Proof.
  unfold probed, check_transcript_exists. run_monad.
  destruct (github_search_code up _ _) as [msg|status body found]; simpl.
  - by eexists.
  - destruct (status =? 200); simpl; by eexists.
Qed.

End ExistenceProbe.

(** ** The calls a computation leaves in the trace *)

Section Emits.

Context {A B : Type} (P : event → Prop).

Lemma emits_ret (a : A) : emits P (mret a).
Proof. intros w. exists []. by rewrite app_nil_r. Qed.

Lemma emits_raise msg : emits P (raise (A:=A) msg).
Proof. intros w. exists []. by rewrite app_nil_r. Qed.

Lemma emits_lift (r : res A) : emits P (lift r).
Proof. intros w. exists []. by rewrite app_nil_r. Qed.

Lemma emits_ask (oracle : world → A) : emits P (ask oracle).
Proof. intros w. exists []. by rewrite app_nil_r. Qed.

Lemma emits_set_files f : emits P (set_files f).
Proof. intros w. exists []. simpl. by rewrite app_nil_r. Qed.

Lemma emits_emit e : P e → emits P (emit e).
Proof. intros He w. exists [e]. split; [reflexivity|]. by constructor. Qed.

Lemma emits_bind (m : M A) (f : A → M B) :
  emits P m → (∀ a, emits P (f a)) → emits P (m ≫= f).
Proof.
  intros Hm Hf w. destruct (Hm w) as (evs & Htr & Hall).
  unfold mbind, StateM_bind. destruct (m w) as [[a|msg] w1]; simpl in *.
  - destruct (Hf a w1) as (evs' & Htr' & Hall').
    exists (evs ++ evs')%list. rewrite Htr', Htr, app_assoc.
    split; [reflexivity|]. by apply Forall_app.
  - by exists evs.
Qed.

Lemma emits_try_except (m : M A) (h : string → M A) :
  emits P m → (∀ msg, emits P (h msg)) → emits P (try_except m h).
Proof.
  intros Hm Hh w. destruct (Hm w) as (evs & Htr & Hall).
  unfold try_except. destruct (m w) as [[a|msg] w1]; simpl in *.
  - by exists evs.
  - destruct (Hh msg w1) as (evs' & Htr' & Hall').
    exists (evs ++ evs')%list. rewrite Htr', Htr, app_assoc.
    split; [reflexivity|]. by apply Forall_app.
Qed.

Lemma emits_request e (reply : world → http A) : P e → emits P (request e reply).
Proof.
  intros He w. exists [e]. split; [|by constructor].
  unfold request. run_monad. by destruct (reply _).
Qed.

End Emits.

Lemma emits_weaken {A} (P Q : event → Prop) (m : M A) :
  (∀ e, P e → Q e) → emits P m → emits Q m.
Proof.
  intros HPQ Hm w. destruct (Hm w) as (evs & Htr & Hall).
  exists evs. split; [assumption|]. eapply Forall_impl; eauto.
Qed.

(** What is in the trace stays there. *)
Lemma emits_keeps {A} (P : event → Prop) (m : M A) w e :
  emits P m → e ∈ trace w → e ∈ trace (m w).2.
Proof.
  intros Hm He. destruct (Hm w) as (evs & -> & _).
  apply elem_of_app. by left.
Qed.

(** A computation that starts by logging [e]. *)
Lemma emits_after_emit {A} (P : event → Prop) e (k : M A) w :
  emits P k →
  ∃ evs, trace ((emit e;; k) w).2 = (trace w ++ e :: evs)%list ∧ Forall P evs.
Proof.
  intros Hk. destruct (Hk (logged e w)) as (evs & Htr & Hall).
  exists evs. split; [|assumption].
  change ((emit e;; k) w) with (k (logged e w)).
  rewrite Htr. simpl. by rewrite <- app_assoc.
Qed.

(** Goals [emits P m] for code built from the monad: split along binds
    and handlers, case on what is matched on. *)
Ltac emits_step :=
  first
    [ apply emits_ret | apply emits_raise | apply emits_lift | apply emits_ask
    | apply emits_set_files
    | apply emits_emit; simpl; trivial
    | apply emits_request; simpl; trivial
    | apply emits_bind; [|intros ?]
    | apply emits_try_except; [|intros ?]
    | match goal with
      | |- emits _ (match ?x with _ => _ end) => destruct x
      | |- emits _ (if ?x then _ else _) => destruct x
      | |- emits _ (let '(_, _) := ?x in _) => destruct x
      end ].

Ltac emits_auto := repeat emits_step.

(** ** Footprints of the storage adapter and of [download_transcript] *)

Section Footprints.

Context (up : upstream) (self : GitHubStorage.t).

Lemma storage_call_transcript_call e : storage_call e → transcript_call e.
Proof. by destruct e. Qed.

Lemma check_transcript_exists_emits video_id :
  emits storage_call (GitHubStorage.check_transcript_exists up self video_id).
Proof. unfold GitHubStorage.check_transcript_exists. emits_auto. Qed.

Lemma _get_file_sha_emits file_path :
  emits storage_call (GitHubStorage._get_file_sha up file_path).
Proof. unfold GitHubStorage._get_file_sha. emits_auto. Qed.

Lemma put_file_emits file_path content sha :
  emits storage_call (GitHubStorage.put_file up self file_path content sha).
Proof. unfold GitHubStorage.put_file. emits_auto. Qed.

Lemma save_transcript_emits channel_name video_id title transcript_text metadata :
  emits storage_call
    (GitHubStorage.save_transcript up self channel_name video_id title
       transcript_text metadata).
Proof.
  unfold GitHubStorage.save_transcript.
  apply emits_bind; [apply check_transcript_exists_emits|intros dup].
  destruct dup; [apply emits_ret|]. unfold GitHubStorage.write_transcript.
  apply emits_bind; [emits_auto|intros md].
  apply emits_bind; [emits_auto|intros downloaded].
  apply emits_bind; [apply _get_file_sha_emits|intros existing_sha].
  apply emits_bind; [apply put_file_emits|intros response].
  emits_auto.
Qed.

Lemma select_transcript_emits transcript_list :
  emits transcript_call (DownloadService.select_transcript up transcript_list).
Proof.
  unfold DownloadService.select_transcript,
    TranscriptList.find_manually_created_transcript,
    TranscriptList.find_generated_transcript, TranscriptList.find_transcript,
    TranscriptList.iter, TranscriptList.fetch.
  emits_auto.
Qed.

Lemma store_transcript_emits video_id title channel_name channel_id published_at
    transcript transcript_type :
  emits transcript_call
    (DownloadService.store_transcript up self video_id title channel_name
       channel_id published_at transcript transcript_type).
Proof.
  unfold DownloadService.store_transcript. destruct transcript; [apply emits_ret|].
  apply emits_bind.
  - eapply emits_weaken; [apply storage_call_transcript_call|].
    apply save_transcript_emits.
  - intros result. emits_auto.
Qed.

(** [download_transcript] logs its entry, then only calls of the storage
    adapter and of the transcript API: it never sleeps and never starts
    another download. *)
Lemma download_transcript_emits video_id title channel_name channel_id
    published_at w :
  ∃ evs,
    trace (DownloadService.download_transcript up self video_id title
             channel_name channel_id published_at w).2
    = (trace w ++ DownloadTranscript video_id title :: evs)%list
    ∧ Forall transcript_call evs.
Proof.
  unfold DownloadService.download_transcript. apply emits_after_emit.
  apply emits_try_except; [|intros msg; emits_auto].
  apply emits_bind.
  - eapply emits_weaken; [apply storage_call_transcript_call|].
    apply check_transcript_exists_emits.
  - intros [|]; [apply emits_ret|].
    apply emits_bind.
    + unfold TranscriptList.list_transcripts. emits_auto.
    + intros [returned|transcript_list]; [apply emits_ret|].
      apply emits_bind; [apply select_transcript_emits|].
      intros [returned|[transcript transcript_type]]; [apply emits_ret|].
      apply store_transcript_emits.
Qed.

(** Every exception raised inside [download_transcript] is turned into a
    failure message: the call always returns its pair. *)
Lemma download_transcript_returns video_id title channel_name channel_id
    published_at w :
  ∃ success result,
    (DownloadService.download_transcript up self video_id title channel_name
       channel_id published_at w).1 = Ok (success, result).
Proof.
  unfold DownloadService.download_transcript.
  unfold mbind at 1. unfold StateM_bind at 1. unfold emit at 1.
  unfold try_except at 1.
  match goal with |- context [match ?body ?w0 with _ => _ end] =>
    destruct (body w0) as [[[success result]|msg] w1] end.
  - by exists success, result.
  - repeat match goal with
           | |- context [if ?c then _ else _] => destruct c
           end; simpl; by eexists _, _.
Qed.

End Footprints.

(** ** A failed existence probe *)

Section FailedProbe.

Import GitHubStorage.
Context (up : upstream) (self : GitHubStorage.t).

Lemma save_transcript_unguarded channel_name video_id title text metadata w :
  probe_failed (probe_reply up self video_id w) →
  save_transcript up self channel_name video_id title text metadata w
  = write_transcript up self channel_name video_id title text metadata
      (probed self video_id w).
Proof.
  intros Hfail. unfold save_transcript, mbind, StateM_bind.
  by rewrite (check_transcript_exists_failed up self video_id w Hfail).
Qed.

(** A write to a path that is taken replaces what is there. *)
Lemma write_transcript_overwrites channel_name video_id title text md old w :
  let path := saved_path channel_name video_id title in
  files w !! path = Some old →
  Py.truthy (git_sha up old) = true →
  (∀ w', github_get_fault up w' path = None) →
  (∀ w', github_put_fault up w' path = None) →
  write_transcript up self channel_name video_id title text (Some md) w
  = (Ok (SaveOk path (GitHub.html_url (repo_owner self) (repo_name self) path)),
     {| files := <[path := content_of channel_name video_id title text md
                             (isoformat (now up w))]> (files w);
        trace := (trace w ++ [GetContents path;
                              PutContents path (Some (git_sha up old))])%list |}).
Proof.
  intros path Hold Hsha Hget Hput.
  unfold write_transcript. fold (saved_path channel_name video_id title). fold path.
  unfold _get_file_sha, put_file, GitHub.get_contents, GitHub.put_contents.
  run_monad. rewrite Hget, Hold. simpl. rewrite Hsha. simpl.
  rewrite Hput, Hold. rewrite String.eqb_refl. simpl.
  unfold logged, content_of. simpl. rewrite <- app_assoc. reflexivity.
Qed.

Lemma download_transcript_after_failed_probe video_id title channel_name
    channel_id published_at w0 :
  probe_failed (probe_reply up self video_id
                  (logged (DownloadTranscript video_id title) w0)) →
  ListTranscripts video_id
  ∈ trace (DownloadService.download_transcript up self video_id title
             channel_name channel_id published_at w0).2.
Proof.
  intros Hfail. unfold DownloadService.download_transcript.
  match goal with |- context [(emit ?e;; ?body) w0] =>
    change ((emit e;; body) w0) with (body (logged e w0)) end.
  unfold try_except at 1. unfold mbind at 1. unfold StateM_bind at 1.
  rewrite (check_transcript_exists_failed up self video_id _ Hfail).
  unfold mbind at 1. unfold StateM_bind at 1.
  match goal with |- context [try_except ?body ?h (probed ?s ?v ?w)] =>
    assert (∃ listed, try_except body h (probed s v w)
                      = (Ok listed, logged (ListTranscripts video_id) (probed s v w)))
      as [listed ->] end.
  { unfold TranscriptList.list_transcripts. run_monad.
    destruct (youtube_transcript_list up _ _); simpl; [by eexists|].
    repeat match goal with |- context [if ?c then _ else _] => destruct c end;
      by eexists. }
  match goal with |- context [let (_, _) := ?k ?w1 in _] =>
    assert (emits transcript_call k) as Hk;
    [|pose proof (emits_keeps _ k w1 (ListTranscripts video_id) Hk) as Hin;
      destruct (k w1) as [[a|msg] s']] end.
  { destruct listed as [returned|transcript_list]; [apply emits_ret|].
    apply emits_bind; [apply select_transcript_emits|].
    intros [returned|[transcript transcript_type]]; [apply emits_ret|].
    apply store_transcript_emits. }
  - apply Hin. unfold logged; simpl. apply elem_of_app. right. by left.
  - assert (ListTranscripts video_id ∈ trace s') as Hs'.
    { apply Hin. unfold logged; simpl. apply elem_of_app. right. by left. }
    repeat match goal with |- context [if ?c then _ else _] => destruct c end;
      exact Hs'.
Qed.

(** C10. When the search request of the existence probe raises or comes
    back with a status other than 200, [check_transcript_exists] returns
    [False] and raises nothing. So [save_transcript] does not report a
    duplicate: it goes on as its write path does in the world after the
    probe, and where the path is taken and the contents API serves, the
    record that was there is replaced. And when the failed probe is the
    check at the head of [download_transcript], the call goes on to list
    the transcripts of the video. *)
Theorem failed_probe_reads_as_absent (video_id : string) (w : world) :
  probe_failed (probe_reply up self video_id w) →
  check_transcript_exists up self video_id w = (Ok false, probed self video_id w)
  ∧ (∀ channel_name title text metadata,
       save_transcript up self channel_name video_id title text metadata w
       = write_transcript up self channel_name video_id title text metadata
           (probed self video_id w))
  ∧ (∀ channel_name title text md old,
       let path := saved_path channel_name video_id title in
       files w !! path = Some old →
       Py.truthy (git_sha up old) = true →
       (∀ w', github_get_fault up w' path = None) →
       (∀ w', github_put_fault up w' path = None) →
       ∃ w', save_transcript up self channel_name video_id title text (Some md) w
             = (Ok (SaveOk path (GitHub.html_url (repo_owner self)
                                   (repo_name self) path)), w')
             ∧ files w' !! path
               = Some (content_of channel_name video_id title text md
                         (isoformat (now up (probed self video_id w)))))
  ∧ (∀ w0 title channel_name channel_id published_at,
       w = logged (DownloadTranscript video_id title) w0 →
       ListTranscripts video_id
       ∈ trace (DownloadService.download_transcript up self video_id title
                  channel_name channel_id published_at w0).2).
Proof.
  intros Hfail. split; [|split; [|split]].
  - by apply check_transcript_exists_failed.
  - intros. by apply save_transcript_unguarded.
  - intros channel_name title text md old path Hold Hsha Hget Hput.
    rewrite save_transcript_unguarded by assumption.
    eexists. split.
    + apply (write_transcript_overwrites channel_name video_id title text md old);
        assumption.
    + simpl. fold path. apply lookup_insert_eq.
  - intros w0 title channel_name channel_id published_at ->.
    by apply download_transcript_after_failed_probe.
Qed.

End FailedProbe.

(** The probe is turned away with status 403: it reads as absent. *)
Lemma failed_probe_reads_as_absent_witness :
  probe_failed
    (probe_reply (services rate_limited no_transcripts (λ _, Ok []) None
                    (λ _, not_found) (PageError EmptyString))
       GitHubStorage.new "abc123" empty_world)
  ∧ GitHubStorage.check_transcript_exists
      (services rate_limited no_transcripts (λ _, Ok []) None
         (λ _, not_found) (PageError EmptyString))
      GitHubStorage.new "abc123" empty_world
    = (Ok false, probed GitHubStorage.new "abc123" empty_world).
Proof.
  assert (probe_failed
    (probe_reply (services rate_limited no_transcripts (λ _, Ok []) None
                    (λ _, not_found) (PageError EmptyString))
       GitHubStorage.new "abc123" empty_world)) as Hfail.
  { simpl. discriminate. }
  split; [exact Hfail|].
  exact (proj1 (failed_probe_reads_as_absent _ _ _ _ Hfail)).
Defined.

(** ** Reading back what was saved *)

Section ReadBack.

Import GitHubStorage.
Context (up : upstream) (self : GitHubStorage.t).

Lemma length_append (s1 s2 : string) :
  String.length (s1 ++ s2) = (String.length s1 + String.length s2)%nat.
Proof. induction s1 as [|c s1 IH]; simpl; [reflexivity|]. by rewrite IH. Qed.

(** The file written is never the file read: the written name carries
    the video id and an underscore in front of the title. *)
Lemma saved_path_not_read_path channel_name video_id title :
  saved_path channel_name video_id title ≠ read_path channel_name title.
Proof.
  unfold saved_path, read_path. intros Heq.
  do 3 apply String.app_inj in Heq.
  apply (f_equal String.length) in Heq.
  rewrite !length_append in Heq. simpl in Heq. lia.
Qed.

Lemma _get_file_sha_world file_path w :
  (_get_file_sha up file_path w).2 = logged (GetContents file_path) w.
Proof.
  unfold _get_file_sha. run_monad.
  destruct (GitHub.get_contents up file_path _) as [msg|status body found];
    simpl; [reflexivity|].
  destruct (status =? 200); [|reflexivity]. by destruct found as [[sha c]|].
Qed.

Lemma put_file_files file_path content sha w path :
  path ≠ file_path →
  files (put_file up self file_path content sha w).2 !! path = files w !! path.
Proof.
  intros Hne. unfold put_file, GitHub.put_contents. run_monad.
  destruct (github_put_fault up _ file_path) as [[msg|status body]|]; simpl;
    try reflexivity.
  destruct (files w !! file_path) as [old|], sha as [h|]; simpl;
    try reflexivity.
  - destruct (String.eqb h (git_sha up old)); simpl; [|reflexivity].
    by rewrite lookup_insert_ne.
  - by rewrite lookup_insert_ne.
Qed.

(** [save_transcript] touches no file but the one at its own path. *)
Lemma save_transcript_files channel_name video_id title text metadata w path :
  path ≠ saved_path channel_name video_id title →
  files (save_transcript up self channel_name video_id title text metadata w).2
    !! path = files w !! path.
Proof.
  intros Hne. unfold save_transcript.
  destruct (check_transcript_exists_total up self video_id w) as [dup Hdup].
  unfold mbind at 1. unfold StateM_bind at 1. rewrite Hdup.
  destruct dup; [reflexivity|].
  unfold write_transcript. fold (saved_path channel_name video_id title).
  destruct metadata as [md|]; [|reflexivity].
  unfold mbind at 1. unfold StateM_bind at 1. unfold mret at 1, StateM_ret at 1.
  unfold mbind at 1. unfold StateM_bind at 1. unfold ask at 1.
  unfold mbind at 1. unfold StateM_bind at 1.
  pose proof (_get_file_sha_world (saved_path channel_name video_id title)
                (probed self video_id w)) as Hsha.
  destruct (_get_file_sha up _ _) as [[existing_sha|msg] w2]; simpl in Hsha;
    subst w2; [|reflexivity].
  unfold mbind at 1. unfold StateM_bind at 1.
  match goal with |- context [put_file up self ?fp ?c ?sha ?w2] =>
    pose proof (put_file_files fp c sha w2 path Hne) as Hput;
    destruct (put_file up self fp c sha w2) as [[response|msg] w3] end;
    simpl in Hput; [|exact Hput].
  destruct ((status_code response =? 201) || (status_code response =? 200));
    exact Hput.
Qed.

(** C2, as the code has it. After a [save_transcript] that wrote its
    record, [get_transcript] with the same channel name and title does
    not return that record: the write went to the path that carries the
    video id in front of the title, the read goes to the path of the
    bare title, and, nothing having been stored there before, it gives
    [None]. *)
Theorem get_transcript_misses_saved_record
    (channel_name video_id title text : string) (metadata : option Metadata.t)
    (w w1 : world) (path url : string) :
  save_transcript up self channel_name video_id title text metadata w
    = (Ok (SaveOk path url), w1) →
  files w !! read_path channel_name title = None →
  github_get_fault up (logged (GetContents (read_path channel_name title)) w1)
    (read_path channel_name title) = None →
  path = saved_path channel_name video_id title
  ∧ path ≠ read_path channel_name title
  ∧ get_transcript up channel_name title w1
    = (Ok None, logged (GetContents (read_path channel_name title)) w1).
Proof.
  intros Hsave Hfree Hserved.
  assert (files w1 !! read_path channel_name title = None) as Hstill.
  { change w1 with (Ok (SaveOk path url), w1).2. rewrite <- Hsave.
    rewrite save_transcript_files; [assumption|].
    intros Heq. by apply (saved_path_not_read_path channel_name video_id title). }
  assert (path = saved_path channel_name video_id title) as ->.
  { revert Hsave. unfold save_transcript, write_transcript.
    fold (saved_path channel_name video_id title).
    run_monad.
    repeat (match goal with
            | |- context [match ?x with _ => _ end] => destruct x eqn:?
            end; simpl; try discriminate).
    all: by intros [= <- _ _]. }
  split; [reflexivity|]. split; [apply saved_path_not_read_path|].
  unfold get_transcript. fold (read_path channel_name title).
  unfold GitHub.get_contents. run_monad.
  by rewrite Hserved, Hstill.
Qed.

End ReadBack.

(** A transcript of video abc123 titled Title is saved for channel Chan
    in an empty repository, where the write succeeds; reading channel
    Chan, title Title gives [None]. *)
Lemma get_transcript_misses_saved_record_witness :
  (GitHubStorage.save_transcript fresh_store GitHubStorage.new "Chan" "abc123"
     "Title" "hello" (Some some_metadata) empty_world).1
  = Ok (GitHubStorage.SaveOk "channels/Chan/abc123_Title.json"
          "https://github.com/filenamedotexe/youtube-transcripts-db/blob/main/channels/Chan/abc123_Title.json")
  ∧ (GitHubStorage.get_transcript fresh_store "Chan" "Title"
       (GitHubStorage.save_transcript fresh_store GitHubStorage.new "Chan"
          "abc123" "Title" "hello" (Some some_metadata) empty_world).2).1
    = Ok None.
Proof.
  split; [reflexivity|].
  refine (f_equal fst (proj2 (proj2
    (get_transcript_misses_saved_record fresh_store GitHubStorage.new
       "Chan" "abc123" "Title" "hello" (Some some_metadata) empty_world _
       "channels/Chan/abc123_Title.json"
       "https://github.com/filenamedotexe/youtube-transcripts-db/blob/main/channels/Chan/abc123_Title.json"
       _ _ _)))); reflexivity.
Defined.

(** ** The counters of a run *)

Section RunCounters.

Context (up : upstream) (storage : GitHubStorage.t).






End RunCounters.


(** ** Listing the uploads of a channel *)

Section PlaylistListing.
Context (channel_id : option string) (after_date : option datetime).

Lemma candidates_app l1 l2 :
  candidates channel_id after_date (l1 ++ l2)
  = (candidates channel_id after_date l1 ++ candidates channel_id after_date l2)%list.
Proof. unfold candidates. by rewrite List.filter_app, map_app. Qed.

Lemma candidates_cons item l :
  candidates channel_id after_date (item :: l)
  = if published_after after_date item
    then candidate channel_id item :: candidates channel_id after_date l
    else candidates channel_id after_date l.
Proof. unfold candidates. simpl. by destruct (published_after _ _). Qed.

(** Whatever the limit, a page adds to the collected videos a prefix of
    its candidates, and all of them when the loop runs to its end. *)
Lemma collect_page_prefix limit page_items : ∀ video_data,
  match DownloadService.collect_page channel_id after_date limit page_items
          video_data with
  | inl returned =>
      ∃ k, returned
           = (video_data ++ take k (candidates channel_id after_date page_items))%list
  | inr collected =>
      collected = (video_data ++ candidates channel_id after_date page_items)%list
  end.
Proof.
  induction page_items as [|item rest IH]; intros video_data; simpl.
  - by rewrite app_nil_r.
  - rewrite candidates_cons. fold (published_after after_date item).
    fold (candidate channel_id item).
    destruct (published_after after_date item).
    + destruct (DownloadService.limit_reached _ _).
      * exists 1%nat. simpl. by rewrite take_0.
      * specialize (IH (video_data ++ [candidate channel_id item])%list).
        destruct (DownloadService.collect_page _ _ _ _ _) as [returned|collected].
        -- destruct IH as [k ->]. exists (S k). simpl. by rewrite <- app_assoc.
        -- rewrite IH. by rewrite <- app_assoc.
    + apply IH.
Qed.

(** With a positive limit not yet reached, a page either brings the
    collection to the limit, and the function returns the first [N]
    videos, or leaves it below, and the loop goes on. *)
Lemma collect_page_limit (N : Z) page_items : ∀ video_data,
  0 < N → Z.of_nat (length video_data) < N →
  let all := (video_data ++ candidates channel_id after_date page_items)%list in
  DownloadService.collect_page channel_id after_date (Some N) page_items video_data
  = if N <=? Z.of_nat (length all) then inl (take (Z.to_nat N) all) else inr all.
Proof.
  induction page_items as [|item rest IH]; intros video_data HN Hlen; simpl.
  - rewrite app_nil_r. destruct (Z.leb_spec N (Z.of_nat (length video_data))); [lia|done].
  - rewrite candidates_cons. fold (published_after after_date item).
    fold (candidate channel_id item).
    destruct (published_after after_date item); [|by apply IH].
    unfold DownloadService.limit_reached.
    destruct (Z.eqb_spec N 0) as [|_]; [lia|]. simpl.
    rewrite length_app. simpl.
    destruct (Z.leb_spec N (Z.of_nat (length video_data + 1))) as [Hreached|Hbelow].
    + match goal with |- context [N <=? ?x] =>
        destruct (Z.leb_spec N x) as [_|Hc] end.
      2:{ rewrite length_app in Hc. simpl in Hc. lia. }
      f_equal. rewrite take_app_ge by lia.
      replace (Z.to_nat N - length video_data)%nat with 1%nat by lia.
      simpl. by rewrite take_0.
    + rewrite IH; [|assumption|rewrite length_app; simpl; lia].
      by rewrite <- app_assoc.
Qed.

Lemma collect_page_no_limit page_items : ∀ video_data,
  DownloadService.collect_page channel_id after_date None page_items video_data
  = inr (video_data ++ candidates channel_id after_date page_items)%list.
Proof.
  induction page_items as [|item rest IH]; intros video_data; simpl.
  - by rewrite app_nil_r.
  - rewrite candidates_cons. fold (published_after after_date item).
    fold (candidate channel_id item).
    destruct (published_after after_date item); [|by apply IH].
    rewrite IH. by rewrite <- app_assoc.
Qed.

Lemma playlist_loop_no_limit playlist_id p : ∀ pss video_data token w,
  served_pages p = Some pss →
  ∃ reqs,
    DownloadService.playlist_loop playlist_id channel_id after_date None
      video_data token p w
    = (Ok (video_data ++ candidates channel_id after_date (concat pss))%list,
       {| files := files w; trace := (trace w ++ reqs)%list |})
    ∧ Forall (page_request playlist_id) reqs
    ∧ length reqs = length pss.
Proof.
  induction p as [msg|status body page_items|status body page_items next rest IH];
    intros pss video_data token w Hserved; simpl in Hserved.
  - discriminate.
  - destruct (Z.eqb_spec status 200) as [->|]; [|discriminate].
    injection Hserved as <-. eexists [_]. simpl. run_monad.
    rewrite collect_page_no_limit, app_nil_r.
    split; [reflexivity|]. split; [|reflexivity].
    constructor; [by eexists|constructor].
  - destruct (Z.eqb_spec status 200) as [->|]; [|discriminate].
    destruct (Py.truthy next) eqn:Hnext.
    + destruct (served_pages rest) as [more|] eqn:Hrest; [|discriminate].
      injection Hserved as <-.
      simpl. run_monad. rewrite collect_page_no_limit, Hnext. simpl.
      edestruct (IH more) as (reqs & -> & Hall & Hlen); [reflexivity|].
      eexists (_ :: reqs). simpl. rewrite candidates_app, <- !app_assoc. simpl.
      split; [reflexivity|]. split; [|by rewrite Hlen].
      constructor; [by eexists|assumption].
    + injection Hserved as <-. eexists [_]. simpl. run_monad.
      rewrite collect_page_no_limit, Hnext, app_nil_r. simpl.
      split; [reflexivity|]. split; [|reflexivity].
      constructor; [by eexists|constructor].
Qed.

Lemma playlist_loop_prefix playlist_id limit p : ∀ pss video_data token w,
  served_pages p = Some pss →
  ∃ more reqs,
    DownloadService.playlist_loop playlist_id channel_id after_date limit
      video_data token p w
    = (Ok (video_data ++ more)%list,
       {| files := files w; trace := (trace w ++ reqs)%list |})
    ∧ more `prefix_of` candidates channel_id after_date (concat pss).
Proof.
  induction p as [msg|status body page_items|status body page_items next rest IH];
    intros pss video_data token w Hserved; simpl in Hserved.
  - discriminate.
  - destruct (Z.eqb_spec status 200) as [->|]; [|discriminate].
    injection Hserved as <-. simpl. run_monad. rewrite app_nil_r.
    pose proof (collect_page_prefix limit page_items video_data) as Hpage.
    destruct (DownloadService.collect_page _ _ _ _ _) as [returned|collected].
    + destruct Hpage as [k ->]. eexists _, [_]. split; [reflexivity|].
      apply prefix_take.
    + rewrite Hpage. by eexists _, [_].
  - destruct (Z.eqb_spec status 200) as [->|]; [|discriminate].
    simpl. run_monad.
    pose proof (collect_page_prefix limit page_items video_data) as Hpage.
    assert (∀ more, take more (candidates channel_id after_date page_items)
                    `prefix_of` candidates channel_id after_date (concat pss))
      as Hearly.
    { intros k. destruct (Py.truthy next), (served_pages rest);
        try discriminate; injection Hserved as <-; simpl;
        rewrite candidates_app; apply prefix_app_r, prefix_take. }
    destruct (DownloadService.collect_page _ _ _ _ _) as [returned|collected].
    { destruct Hpage as [k ->]. eexists _, [_]. split; [reflexivity|]. apply Hearly. }
    rewrite Hpage. destruct (Py.truthy next) eqn:Hnext; simpl.
    + destruct (served_pages rest) as [more|] eqn:Hrest; [|discriminate].
      injection Hserved as <-.
      edestruct (IH more) as (found & reqs & -> & Hprefix); [reflexivity|].
      eexists _, (_ :: reqs). simpl. rewrite <- !app_assoc. simpl.
      split; [reflexivity|]. rewrite candidates_app. by apply prefix_app.
    + injection Hserved as <-. eexists _, [_]. split; [reflexivity|].
      simpl. by rewrite app_nil_r.
Qed.

Lemma length_candidates l :
  length (candidates channel_id after_date l)
  = length (List.filter (published_after after_date) l).
Proof. unfold candidates. by rewrite length_map. Qed.

Lemma playlist_loop_limit playlist_id (N : Z) p : ∀ pss video_data token w,
  0 < N → Z.of_nat (length video_data) < N →
  served_pages p = Some pss →
  ∃ reqs,
    DownloadService.playlist_loop playlist_id channel_id after_date (Some N)
      video_data token p w
    = (Ok (take (Z.to_nat N)
             (video_data ++ candidates channel_id after_date (concat pss))),
       {| files := files w; trace := (trace w ++ reqs)%list |})
    ∧ Forall (page_request playlist_id) reqs
    ∧ (1 ≤ length reqs ≤ length pss)%nat
    ∧ Z.of_nat (length video_data)
      + candidate_count channel_id after_date (take (length reqs - 1) pss) < N
    ∧ (length reqs = length pss
       ∨ N ≤ Z.of_nat (length video_data)
             + candidate_count channel_id after_date (take (length reqs) pss)).
Proof.
  unfold candidate_count.
  assert (∀ page_items video_data pss' token w,
    0 < N → Z.of_nat (length video_data) < N →
    N ≤ Z.of_nat (length (video_data ++ candidates channel_id after_date page_items)) →
    let reqs := [PlaylistItems playlist_id token] in
    (Ok (take (Z.to_nat N)
           (video_data ++ candidates channel_id after_date page_items)),
       logged (PlaylistItems playlist_id token) w)
    = (Ok (take (Z.to_nat N)
             (video_data ++ candidates channel_id after_date
                (concat (page_items :: pss')))),
       {| files := files w; trace := (trace w ++ reqs)%list |})
    ∧ Forall (page_request playlist_id) reqs
    ∧ (1 ≤ length reqs ≤ length (page_items :: pss'))%nat
    ∧ Z.of_nat (length video_data)
      + candidate_count channel_id after_date (take (length reqs - 1) (page_items :: pss')) < N
    ∧ (length reqs = length (page_items :: pss')
       ∨ N ≤ Z.of_nat (length video_data)
             + candidate_count channel_id after_date
                 (take (length reqs) (page_items :: pss')))) as Hstop.
  { intros page_items video_data pss' token w HN Hlen Hreach reqs. subst reqs.
    unfold candidate_count.
    simpl. rewrite candidates_app, app_assoc.
    rewrite (take_app_le (video_data ++ candidates channel_id after_date page_items)%list).
    2:{ lia. }
    split; [reflexivity|]. split; [constructor; [by eexists|constructor]|].
    split; [lia|]. simpl. split; [lia|]. right.
    rewrite app_nil_r. rewrite length_app in Hreach. lia. }
  assert (∀ page_items video_data token w,
    0 < N →
    ¬ N ≤ Z.of_nat (length (video_data ++ candidates channel_id after_date page_items)) →
    let reqs := [PlaylistItems playlist_id token] in
    (Ok (video_data ++ candidates channel_id after_date page_items)%list,
       logged (PlaylistItems playlist_id token) w)
    = (Ok (take (Z.to_nat N)
             (video_data ++ candidates channel_id after_date
                (concat [page_items]))),
       {| files := files w; trace := (trace w ++ reqs)%list |})
    ∧ Forall (page_request playlist_id) reqs
    ∧ (1 ≤ length reqs ≤ length [page_items])%nat
    ∧ Z.of_nat (length video_data)
      + candidate_count channel_id after_date
          (take (length reqs - 1) [page_items]) < N
    ∧ (length reqs = length [page_items]
       ∨ N ≤ Z.of_nat (length video_data)
             + candidate_count channel_id after_date (take (length reqs) [page_items]))) as Hlast.
  { intros page_items video_data token w HN Hbelow reqs. subst reqs.
    unfold candidate_count.
    simpl. rewrite app_nil_r, take_ge by lia.
    split; [reflexivity|]. split; [constructor; [by eexists|constructor]|].
    split; [lia|]. simpl. rewrite length_app in Hbelow.
    split; [lia|]. by left. }
  unfold candidate_count in Hstop, Hlast.
  induction p as [msg|status body page_items|status body page_items next rest IH];
    intros pss video_data token w HN Hlen Hserved; simpl in Hserved.
  - discriminate.
  - destruct (Z.eqb_spec status 200) as [->|]; [|discriminate].
    injection Hserved as <-. eexists [_]. simpl DownloadService.playlist_loop. run_monad.
    rewrite collect_page_limit by assumption. simpl.
    match goal with |- context [N <=? ?x] => destruct (Z.leb_spec N x) end.
    + by apply (Hstop page_items video_data []).
    + apply Hlast; [assumption|lia].
  - destruct (Z.eqb_spec status 200) as [->|]; [|discriminate].
    simpl DownloadService.playlist_loop. run_monad.
    rewrite collect_page_limit by assumption. simpl.
    match goal with |- context [N <=? ?x] =>
      destruct (Z.leb_spec N x) as [Hreach|Hbelow] end.
    + destruct (Py.truthy next); [destruct (served_pages rest) as [more|]|];
        try discriminate; injection Hserved as <-; eexists [_].
      * by apply (Hstop page_items video_data more).
      * by apply (Hstop page_items video_data []).
    + destruct (Py.truthy next) eqn:Hnext; simpl.
      2:{ injection Hserved as <-. eexists [_]. apply Hlast; [assumption|lia]. }
      destruct (served_pages rest) as [more|] eqn:Hrest; [|discriminate].
      injection Hserved as <-.
      edestruct (IH more (video_data ++ candidates channel_id after_date page_items)%list)
        as (reqs & -> & Hall & Hk & Hneeded & Hdone);
        [assumption|eassumption|reflexivity|].
      eexists (_ :: reqs). simpl. rewrite candidates_app, <- !app_assoc. simpl.
      split; [reflexivity|]. split; [constructor; [by eexists|assumption]|].
      split; [lia|].
      rewrite length_app in Hneeded, Hdone, Hbelow.
      split.
      * destruct (length reqs) as [|k] eqn:Hreqs; [lia|]. simpl in *.
        rewrite Nat.sub_0_r in *. rewrite candidates_app, length_app. lia.
      * destruct Hdone as [Hdone|Hdone]; [left; lia|right].
        simpl. rewrite candidates_app, length_app. lia.
Qed.

End PlaylistListing.

Section PlaylistClaims.

Context (up : upstream).

Lemma passing_candidates channel_id after_date pss :
  candidate_count channel_id after_date pss = passing after_date pss.
Proof. unfold passing, candidate_count. by rewrite length_candidates. Qed.

(** C6. For every filter value T, the listing of a playlist whose pages
    are served, asked without a limit, is made of exactly the playlist
    items whose publish timestamp is strictly greater than T, in the
    order of the pages: an item counts if and only if T is strictly
    before its timestamp, so an item published exactly at T is left out.
    With a limit the listing is a prefix of that list, so there too
    nothing published at or before T is returned. *)
Theorem after_date_filter_is_strict (playlist_id api_key : string)
    (channel_id : option string) (T : datetime) (w : world)
    (pss : list (list playlist_item)) :
  served_pages (youtube_playlist_items up w playlist_id api_key) = Some pss →
  (DownloadService.get_video_ids_from_playlist up playlist_id api_key channel_id
     (Some T) None w).1
  = Ok (map (candidate channel_id)
          (List.filter (published_after (Some T)) (concat pss)))
  ∧ (∀ item, published_after (Some T) item = true
             ↔ instant T < instant (publishedAt item))
  ∧ (∀ item, instant (publishedAt item) = instant T →
             item ∉ List.filter (published_after (Some T)) (concat pss))
  ∧ (∀ limit, ∃ videos,
       (DownloadService.get_video_ids_from_playlist up playlist_id api_key
          channel_id (Some T) limit w).1 = Ok videos
       ∧ videos `prefix_of`
           map (candidate channel_id)
               (List.filter (published_after (Some T)) (concat pss))).
Proof.
  intros Hserved. unfold DownloadService.get_video_ids_from_playlist.
  split; [|split; [|split]].
  - change ((ask ?o ≫= ?k) w) with (k (o w) w). cbv beta.
    destruct (playlist_loop_no_limit channel_id (Some T) playlist_id _ pss [] None w
                Hserved) as (reqs & -> & _).
    reflexivity.
  - intros item. unfold published_after. apply Z.ltb_lt.
  - intros item Hat Hin. apply list_elem_of_In, filter_In in Hin as [_ Hin].
    unfold published_after in Hin. apply Z.ltb_lt in Hin. lia.
  - intros limit.
    change ((ask ?o ≫= ?k) w) with (k (o w) w). cbv beta.
    destruct (playlist_loop_prefix channel_id (Some T) playlist_id limit _ pss []
                None w Hserved) as (more & reqs & -> & Hprefix).
    by exists more.
Qed.

(** C7. For every positive limit N, the listing of a playlist whose
    pages are served is the first N of the items that pass the date
    filter, so it has min(N, number of passing items) entries; and page
    requests stop as soon as N passing items have been collected: each
    request but the first is made while the pages before it hold fewer
    than N passing items, and the last one is for the last page or for
    the page that brings the count to N. *)
Theorem limit_truncates_and_stops_paging (playlist_id api_key : string)
    (channel_id : option string) (after_date : option datetime) (N : Z)
    (w : world) (pss : list (list playlist_item)) :
  0 < N →
  served_pages (youtube_playlist_items up w playlist_id api_key) = Some pss →
  ∃ videos reqs,
    DownloadService.get_video_ids_from_playlist up playlist_id api_key channel_id
      after_date (Some N) w
    = (Ok videos, {| files := files w; trace := (trace w ++ reqs)%list |})
    ∧ videos = take (Z.to_nat N) (candidates channel_id after_date (concat pss))
    ∧ Z.of_nat (length videos) = Z.min N (passing after_date pss)
    ∧ Forall (page_request playlist_id) reqs
    ∧ (1 ≤ length reqs ≤ length pss)%nat
    ∧ passing after_date (take (length reqs - 1) pss) < N
    ∧ (length reqs = length pss
       ∨ N ≤ passing after_date (take (length reqs) pss)).
Proof.
  intros HN Hserved. unfold DownloadService.get_video_ids_from_playlist.
  change ((ask ?o ≫= ?k) w) with (k (o w) w). cbv beta.
  destruct (playlist_loop_limit channel_id after_date playlist_id N _ pss [] None w
              HN ltac:(simpl; lia) Hserved)
    as (reqs & -> & Hall & Hk & Hneeded & Hdone).
  rewrite !passing_candidates in Hneeded, Hdone.
  cbn [length Z.of_nat app] in Hneeded, Hdone |- *.
  eexists _, reqs. split; [reflexivity|]. split; [reflexivity|].
  split; [|repeat split; try assumption; lia].
  rewrite length_take, <- (passing_candidates channel_id).
  unfold candidate_count. lia.
Qed.

End PlaylistClaims.

(** Uploads just before, at and just after the cut-off: only the one
    just after is listed. *)
Lemma after_date_filter_is_strict_witness :
  served_pages (youtube_playlist_items channel_services empty_world "UU1" "KEY")
  = Some [[upload_after; upload_at]; [upload_before]]
  ∧ (DownloadService.get_video_ids_from_playlist channel_services "UU1" "KEY"
       (Some "UC1") (Some cutoff) None empty_world).1
    = Ok [candidate (Some "UC1") upload_after].
Proof.
  split; [reflexivity|].
  exact (proj1 (after_date_filter_is_strict channel_services "UU1" "KEY"
                  (Some "UC1") cutoff empty_world _ eq_refl)).
Defined.

(** Limit 2 over three uploads on two pages: the first page fills the
    limit and the second is never requested. *)
Lemma limit_truncates_and_stops_paging_witness :
  0 < 2
  ∧ ∃ videos reqs,
      DownloadService.get_video_ids_from_playlist channel_services "UU1" "KEY"
        (Some "UC1") None (Some 2) empty_world
      = (Ok videos, {| files := ∅; trace := reqs |})
      ∧ length videos = 2%nat ∧ length reqs = 1%nat.
Proof.
  split; [lia|].
  destruct (limit_truncates_and_stops_paging channel_services "UU1" "KEY"
              (Some "UC1") None 2 empty_world
              [[upload_after; upload_at]; [upload_before]] eq_refl eq_refl)
    as (videos & reqs & Hrun & -> & _ & _ & _ & Hneeded & Hdone).
  exists (take (Z.to_nat 2)
            (candidates (Some "UC1") None
               (concat [[upload_after; upload_at]; [upload_before]]))),
         [PlaylistItems "UU1" None].
  split; [reflexivity|]. split; reflexivity.
Defined.

(** ** The tiers of [download_transcript] *)

Section TranscriptTiers.
Context (up : upstream) (storage : GitHubStorage.t).

Lemma store_transcript_emits_storage video_id title channel_name channel_id
    published_at transcript transcript_type :
  emits storage_call
    (DownloadService.store_transcript up storage video_id title channel_name
       channel_id published_at transcript transcript_type).
Proof.
  unfold DownloadService.store_transcript. destruct transcript; [apply emits_ret|].
  apply emits_bind; [apply save_transcript_emits|].
  intros result. emits_auto.
Qed.

Lemma select_transcript_tier2 tl t snippets w :
  TranscriptList.lookup "en" (manually_created tl) = None →
  TranscriptList.lookup "en" (generated tl) = Some t →
  youtube_transcript_fetch up
    (logged (Fetch t) (logged (FindGenerated ["en"])
       (logged (FindManuallyCreated ["en"]) w))) t = Ok snippets →
  DownloadService.select_transcript up tl w
  = (Ok (inr (snippets, "auto-generated")),
     logged (Fetch t) (logged (FindGenerated ["en"])
       (logged (FindManuallyCreated ["en"]) w))).
Proof.
  intros Hmanual Hgenerated Hfetch.
  unfold DownloadService.select_transcript,
    TranscriptList.find_manually_created_transcript,
    TranscriptList.find_generated_transcript, TranscriptList.fetch.
  run_monad. rewrite Hmanual, Hgenerated. simpl. by rewrite Hfetch.
Qed.

Lemma list_transcripts_listed {A} video_id tl (h : string → M (A + transcript_list)) w :
  youtube_transcript_list up (logged (ListTranscripts video_id) w) video_id = Ok tl →
  try_except
    (transcript_list ← TranscriptList.list_transcripts up video_id;
     mret (inr transcript_list)) h w
  = (Ok (inr tl), logged (ListTranscripts video_id) w).
Proof.
  intros Hlist. unfold TranscriptList.list_transcripts. run_monad.
  by rewrite Hlist.
Qed.

(** C5, amended. For every video that the existence check reports
    absent and whose transcript listing is obtained and has no manually
    created English transcript but an auto-generated one, if fetching
    that transcript succeeds then the tier lookup yields it with type
    auto-generated; from then on only calls of the storage adapter are
    made, so neither tier 3 nor tier 4 is attempted; and when the
    transcript is not empty it is handed to [save_transcript] tagged
    auto-generated, the call returning success with the URL when the
    save succeeds, the duplicate message when the save finds a duplicate,
    and a failure message otherwise. *)
Theorem generated_tier_wins (video_id title : string)
    (channel_name channel_id published_at : option string) (w : world)
    (tl : transcript_list) (t : transcript) (snippets : list snippet) :
  let w1 := logged (DownloadTranscript video_id title) w in
  let w2 := logged (ListTranscripts video_id) (probed storage video_id w1) in
  let w3 := logged (Fetch t) (logged (FindGenerated ["en"])
              (logged (FindManuallyCreated ["en"]) w2)) in
  let out := DownloadService.download_transcript up storage video_id title
               channel_name channel_id published_at w in
  let saved := GitHubStorage.save_transcript up storage (folder_of channel_name)
                 video_id title (full_text_of snippets)
                 (Some (metadata_of "auto-generated" snippets channel_id
                          published_at)) w3 in
  (GitHubStorage.check_transcript_exists up storage video_id w1).1 = Ok false →
  youtube_transcript_list up w2 video_id = Ok tl →
  TranscriptList.lookup "en" (manually_created tl) = None →
  TranscriptList.lookup "en" (generated tl) = Some t →
  youtube_transcript_fetch up w3 t = Ok snippets →
  DownloadService.select_transcript up tl w2
    = (Ok (inr (snippets, "auto-generated")), w3)
  ∧ (∃ evs, trace out.2 = (trace w3 ++ evs)%list ∧ Forall storage_call evs)
  ∧ (∀ e, e ∈ trace out.2 → tier3_or_4 e → e ∈ trace w)
  ∧ (snippets ≠ [] →
     out.2 = saved.2
     ∧ match saved.1 with
       | Ok (GitHubStorage.SaveOk _ url) => out.1 = Ok (true, url)
       | Ok (GitHubStorage.SaveDuplicate _) =>
           out.1 = Ok (false, "Transcript already exists (duplicate)")
       | _ => ∃ message, out.1 = Ok (false, message)
       end).
Proof.
  intros w1 w2 w3 out saved Hcheck Hlist Hmanual Hgenerated Hfetch.
  pose proof (select_transcript_tier2 tl t snippets w2 Hmanual Hgenerated Hfetch)
    as Hselect.
  split; [exact Hselect|].
  assert (out = try_except
            (DownloadService.store_transcript up storage video_id title
               channel_name channel_id published_at snippets "auto-generated")
            (λ error_msg,
               if Py.contains "429" error_msg || Py.contains "rate" (Py.lower error_msg)
               then mret (false, "Rate limited - please wait before retrying")
               else if Py.contains "404" error_msg
               then mret (false, "Video not found (ID: " ++ video_id ++ ")")
               else if Py.contains "403" error_msg
               then mret (false, "Access forbidden - video may be private or restricted")
               else mret (false, "Unexpected error: " ++ Py.slice_to 200 error_msg))
            w3) as Hout.
  { subst out. unfold DownloadService.download_transcript.
    match goal with |- context [(emit ?e;; ?body) w] =>
      change ((emit e;; body) w) with (body w1) end.
    destruct (check_transcript_exists_total up storage video_id w1) as [b Hb].
    rewrite Hb in Hcheck. injection Hcheck as ->.
    unfold try_except at 1. unfold mbind at 1. unfold StateM_bind at 1.
    rewrite Hb. unfold mbind at 1. unfold StateM_bind at 1.
    rewrite (list_transcripts_listed video_id tl) by exact Hlist.
    unfold mbind at 1. unfold StateM_bind at 1. fold w2. rewrite Hselect.
    reflexivity. }
  clearbody out. subst out.
  match goal with |- context [try_except ?m ?h w3] =>
    assert (emits storage_call (try_except m h)) as Hemits
      by (apply emits_try_except;
          [apply store_transcript_emits_storage|intros msg; emits_auto]);
    destruct (Hemits w3) as (evs & Htrace & Hevs) end.
  split; [by exists evs|]. split.
  - intros e Hin Htier. rewrite Htrace in Hin.
    apply elem_of_app in Hin as [Hin|Hin].
    + subst w3 w2 w1. unfold probed, logged in Hin. simpl in Hin.
      rewrite !elem_of_app in Hin. rewrite !list_elem_of_singleton in Hin.
      destruct Hin as [[[[[[Hin| ->]| ->]| ->]| ->]| ->]| ->];
        solve [assumption | destruct Htier].
    + rewrite Forall_forall in Hevs. apply Hevs in Hin. by destruct e.
  - intros Hnonempty. clear Htrace Hemits.
    unfold try_except, DownloadService.store_transcript.
    destruct snippets as [|first others]; [done|].
    unfold mbind, StateM_bind.
    fold (folder_of channel_name).
    fold (full_text_of (first :: others)).
    fold (metadata_of "auto-generated" (first :: others) channel_id published_at).
    fold saved.
    destruct saved as [[[error|path url|error]|msg] w4]; simpl.
    + by split.
    + by split.
    + split; [by destruct (Py.contains _ _)|].
      destruct (Py.contains _ _); by eexists.
    + repeat match goal with |- context [if ?c then _ else _] => destruct c end;
        (split; [reflexivity|by eexists]).
Qed.

End TranscriptTiers.

(** C5 as stated fails. A video whose listing has only an auto-generated
    English transcript: when fetching it raises, tier 3 and tier 4 are
    both attempted and no transcript is returned; and when the video is
    stored already, the call returns the duplicate message without
    looking at the listing. *)
Lemma generated_tier_not_always_final :
  TranscriptList.lookup "en" [] = None
  ∧ TranscriptList.lookup "en" [en_generated] = Some en_generated
  ∧ DownloadService.download_transcript
      (generated_only_services not_found (Raise "blocked")) GitHubStorage.new
      "abc123" "Title" None None None empty_world
    = (Ok (false, "Cannot fetch transcript: blocked"),
       {| files := ∅;
          trace := [DownloadTranscript "abc123" "Title";
                    SearchCode (GitHubStorage.exists_query GitHubStorage.new "abc123");
                    ListTranscripts "abc123";
                    FindManuallyCreated ["en"];
                    FindGenerated ["en"]; Fetch en_generated;
                    FindTranscript ["en"]; Fetch en_generated;
                    IterTranscripts; Fetch en_generated] |})
  ∧ DownloadService.download_transcript
      (generated_only_services
         (Response 200 EmptyString ["channels/Chan/abc123_Title.json"])
         (Ok two_lines)) GitHubStorage.new
      "abc123" "Title" None None None empty_world
    = (Ok (false, "Transcript already exists (duplicate)"),
       {| files := ∅;
          trace := [DownloadTranscript "abc123" "Title";
                    SearchCode (GitHubStorage.exists_query GitHubStorage.new "abc123")] |}).
Proof. repeat split. Qed.

(** Only an auto-generated English transcript, fetched without trouble,
    for a video not stored yet: it is saved, and the call succeeds. *)
Lemma generated_tier_wins_witness :
  (GitHubStorage.check_transcript_exists
     (generated_only_services not_found (Ok two_lines)) GitHubStorage.new
     "abc123" (logged (DownloadTranscript "abc123" "Title") empty_world)).1
  = Ok false
  ∧ (DownloadService.download_transcript
       (generated_only_services not_found (Ok two_lines)) GitHubStorage.new
       "abc123" "Title" None None None empty_world).1
    = Ok (true,
          "https://github.com/filenamedotexe/youtube-transcripts-db/blob/main/channels/Unknown_Channel/abc123_Title.json").
Proof.
  split; [reflexivity|].
  destruct (generated_tier_wins
              (generated_only_services not_found (Ok two_lines))
              GitHubStorage.new "abc123" "Title" None None None empty_world
              {| manually_created := []; generated := [en_generated] |}
              en_generated two_lines eq_refl eq_refl eq_refl eq_refl eq_refl)
    as (_ & _ & _ & Hsaved).
  destruct (Hsaved ltac:(discriminate)) as [_ Hresult].
  exact Hresult.
Defined.

(** ** A run over explicit ids *)

Section DirectIds.
Context (up : upstream) (storage : GitHubStorage.t).

Lemma transcript_calls_no_step evs :
  Forall transcript_call evs → List.filter is_step evs = [].
Proof.
  induction 1 as [|e evs He _ IH]; [reflexivity|].
  simpl. rewrite IH. by destruct e.
Qed.

Lemma download_transcript_run video_id title channel_name channel_id
    published_at w :
  ∃ success result w' evs,
    DownloadService.download_transcript up storage video_id title channel_name
      channel_id published_at w = (Ok (success, result), w')
    ∧ trace w' = (trace w ++ DownloadTranscript video_id title :: evs)%list
    ∧ List.filter is_step evs = [].
Proof.
  destruct (download_transcript_returns up storage video_id title channel_name
              channel_id published_at w) as (success & result & Hret).
  destruct (download_transcript_emits up storage video_id title channel_name
              channel_id published_at w) as (evs & Htrace & Hcalls).
  destruct (DownloadService.download_transcript _ _ _ _ _ _ _ w) as [r w'].
  simpl in *. subst r. exists success, result, w', evs.
  split; [reflexivity|]. split; [assumption|].
  by apply transcript_calls_no_step.
Qed.

(** The loop enters [download_transcript] once for each video, in
    order, and sleeps after every video but the last. It raises only
    what [time.sleep] raises. *)
Lemma download_each_run delay videos : ∀ i acc w,
  ∃ r w' evs,
    DownloadService.download_each up storage delay
      (i + Z.of_nat (length videos)) i videos acc w = (r, w')
    ∧ trace w' = (trace w ++ evs)%list
    ∧ match r with
      | Ok acc' =>
          List.filter is_step evs = steps_of delay videos
          ∧ recorded (DownloadService.results acc')
            = (recorded (DownloadService.results acc)
               ++ map (λ v, (Video.id v, Video.title v)) videos)%list
      | Raise msg =>
          (∃ w0, time_sleep up w0 delay = Some msg)
          ∧ ∃ video evs', hd_error videos = Some video
              ∧ evs = DownloadTranscript (Video.id video) (Video.title video)
                      :: evs'
      end.
Proof.
  induction videos as [|video rest IH]; intros i acc w.
  - exists (Ok acc), w, []. simpl. by rewrite !app_nil_r.
  - cbn [DownloadService.download_each].
    destruct (download_transcript_run (Video.id video) (Video.title video)
                (Some (Video.channel video)) (Video.channel_id video)
                (Video.date video) w)
      as (success & result & w1 & evs1 & Hrun & Htrace1 & Hsteps1).
    unfold mbind at 1. unfold StateM_bind at 1. rewrite Hrun.
    set (acc1 := if success then _ else _).
    assert (recorded (DownloadService.results acc1)
            = (recorded (DownloadService.results acc)
               ++ [(Video.id video, Video.title video)])%list) as Hacc1.
    { subst acc1. unfold recorded. destruct success; simpl; by rewrite map_app. }
    clearbody acc1.
    replace (i + Z.of_nat (length (video :: rest)))
      with ((i + 1) + Z.of_nat (length rest)) by (simpl length; lia).
    destruct rest as [|next rest'].
    + destruct (Z.ltb_spec i (i + 1 + Z.of_nat (length (@nil Video.t)) - 1))
        as [Hlt|_]; [simpl in Hlt; lia|].
      unfold mbind, StateM_bind. simpl.
      exists (Ok acc1), w1,
        (DownloadTranscript (Video.id video) (Video.title video) :: evs1).
      split; [reflexivity|]. split; [assumption|].
      simpl. rewrite Hsteps1. split; [reflexivity|]. exact Hacc1.
    + destruct (Z.ltb_spec i (i + 1 + Z.of_nat (length (next :: rest')) - 1))
        as [_|Hge]; [|simpl length in Hge; lia].
      unfold mbind at 1. unfold StateM_bind at 1.
      unfold DownloadService.sleep, ask, mbind at 1, StateM_bind at 1.
      destruct (time_sleep up w1 delay) as [msg|] eqn:Hsleep.
      { exists (Raise msg), w1,
          (DownloadTranscript (Video.id video) (Video.title video) :: evs1).
        split; [reflexivity|]. split; [assumption|].
        split; [by exists w1|]. by exists video, evs1. }
      destruct (IH (i + 1) acc1 (logged (Sleep delay) w1))
        as (r & w' & evs & Heach & Htrace & Hr).
      unfold emit. rewrite Heach.
      exists r, w',
        (DownloadTranscript (Video.id video) (Video.title video)
         :: evs1 ++ Sleep delay :: evs)%list.
      split; [reflexivity|]. split.
      { rewrite Htrace. simpl. rewrite Htrace1. by rewrite <- !app_assoc. }
      destruct r as [acc'|msg].
      * destruct Hr as [Hsteps Hrec]. split.
        { cbn [List.filter is_step steps_of]. rewrite List.filter_app, Hsteps1.
          cbn [List.filter is_step app]. by rewrite Hsteps. }
        rewrite Hrec, Hacc1. by rewrite <- app_assoc.
      * destruct Hr as [Hfault _]. split; [exact Hfault|].
        by eexists video, _.
Qed.



End DirectIds.


(** Nor does the run reach the second id when [time.sleep] refuses the
    delay: with a stored key and a delay of -1 the first transcript is
    downloaded and saved, the sleep raises, and the run returns an error
    instead of a summary. *)
Lemma direct_ids_negative_delay_fail :
  ∃ w',
    DownloadService.run_download
      (generated_only_services not_found (Ok two_lines)) GitHubStorage.new
      negative_delay_config empty_world
    = (Ok (RunError "sleep length must be non-negative"), w')
    ∧ List.filter is_step (trace w')
      = [DownloadTranscript "abc123" "video_abc123"]
    ∧ is_Some (files w' !! "channels/Direct_Downloads/abc123_video_abc123.json").
Proof.
  eexists. split; [vm_compute; reflexivity|].
  split; [reflexivity|]. vm_compute. by eexists.
Qed.


(** ** Triggers of a scheduled job *)

Section ScheduledRuns.
Context (up : upstream) (storage : GitHubStorage.t).

Lemma transcript_call_inside_run e : transcript_call e → inside_run e.
Proof. by destruct e. Qed.

Lemma inside_run_no_run evs : Forall inside_run evs → List.filter is_run evs = [].
Proof.
  induction 1 as [|e evs He _ IH]; [reflexivity|].
  simpl. rewrite IH. by destruct e.
Qed.

Lemma playlist_loop_emits playlist_id channel_id after_date limit served :
  ∀ video_data token,
  emits inside_run
    (DownloadService.playlist_loop playlist_id channel_id after_date limit
       video_data token served).
Proof.
  induction served as [msg|status body page_items|status body page_items next rest IH];
    intros video_data token; simpl; emits_auto; apply IH.
Qed.

Lemma download_each_emits delay n videos : ∀ i acc,
  emits inside_run (DownloadService.download_each up storage delay n i videos acc).
Proof.
  induction videos as [|video rest IH]; intros i acc; simpl; [apply emits_ret|].
  apply emits_bind.
  - intros w.
    destruct (download_transcript_emits up storage (Video.id video)
                (Video.title video) (Some (Video.channel video))
                (Video.channel_id video) (Video.date video) w)
      as (evs & -> & Hcalls).
    eexists. split; [reflexivity|]. constructor; [exact I|].
    eapply Forall_impl; [exact Hcalls|]. apply transcript_call_inside_run.
  - intros [success result]. apply emits_bind; [emits_auto|].
    intros _. apply IH.
Qed.

Lemma run_download_run config w :
  ∃ r w' evs,
    DownloadService.run_download up storage config w = (Ok r, w')
    ∧ trace w' = (trace w ++ RunDownload (default EmptyString (Config.channel config))
                               (default EmptyString (Config.video_ids config))
                             :: evs)%list
    ∧ List.filter is_run evs = [].
Proof.
  unfold DownloadService.run_download.
  match goal with |- context [(emit ?e;; try_except ?body ?h) w] =>
    assert (emits inside_run (try_except body h)) as Hemits;
    [|assert (∃ r, (try_except body h (logged e w)).1 = Ok r) as [r Hr]]
  end.
  { apply emits_try_except; [|intros msg; apply emits_ret].
    unfold DownloadService.get_channel_id, DownloadService.get_channel_info,
      DownloadService.get_uploads_playlist_id,
      DownloadService.get_video_ids_from_playlist.
    repeat first [ apply playlist_loop_emits | apply download_each_emits
                 | emits_step ]. }
  { unfold try_except.
    match goal with |- context [let (_, _) := ?m ?w0 in _] =>
      destruct (m w0) as [[r|msg] w1] end; by eexists. }
  match goal with |- context [(emit ?e;; ?k) w] =>
    destruct (emits_after_emit inside_run e k w Hemits) as (evs & Htrace & Hcalls);
    change ((emit e;; k) w) with (k (logged e w)) in *;
    destruct (k (logged e w)) as [r' w'] end.
  simpl in *. subst r'. exists r, w', evs.
  split; [reflexivity|]. split; [assumption|]. by apply inside_run_no_run.
Qed.

Import JobScheduler.

(** Every channel of the job gets its run, in order, whatever the runs
    before it returned; the loop adds up the downloads of the runs that
    returned a summary; the fields of the scheduler are left alone. *)
Lemma download_channels_results job after_date channels : ∀ total self w,
  ∃ results w' evs,
    channel_runs up storage job after_date channels w = (results, w')
    ∧ length results = length channels
    ∧ download_channels up storage job after_date channels total (self, w)
      = (Ok (total + downloads_of results), (self, w'))
    ∧ trace w' = (trace w ++ evs)%list
    ∧ List.filter is_run evs = map (λ channel, RunDownload channel EmptyString) channels.
Proof.
  induction channels as [|channel rest IH]; intros total self w.
  - exists [], w, []. simpl. rewrite app_nil_r, Z.add_0_r. by repeat split.
  - cbn [download_channels channel_runs].
    destruct (run_download_run (download_config job after_date channel) w)
      as (r & w1 & evs1 & Hrun & Htrace1 & Hruns1).
    unfold mbind at 1. unfold StateM_bind at 1. unfold in_world at 1.
    cbn [fst snd]. rewrite Hrun.
    match goal with |- context [download_channels _ _ _ _ rest ?t] =>
      destruct (IH t self w1)
        as (results & w' & evs & -> & Hlen & -> & Htrace & Hruns) end.
    exists (r :: results), w',
      (RunDownload channel EmptyString :: evs1 ++ evs)%list.
    split; [reflexivity|]. split; [simpl; by rewrite Hlen|]. split.
    { destruct r as [summary|msg]; cbn [downloads_of];
        by rewrite ?Z.add_assoc. }
    split.
    + rewrite Htrace, Htrace1. simpl. by rewrite <- app_assoc.
    + cbn [List.filter is_run map]. rewrite List.filter_app, Hruns1, Hruns.
      reflexivity.
Qed.


(** A line the standard output takes is printed without a trace. *)
Lemma print_run line (s : JobScheduler.t * world) :
  stdout_fault up s.2 line = None → print up line s = (Ok tt, s).
Proof.
  intros Hline. unfold print, in_world, ask, mbind, StateM_bind.
  rewrite Hline. by destruct s.
Qed.

(** A channel search that matches nothing makes the lookup raise. *)
Lemma get_channel_id_not_found query api_key body w :
  youtube_search up (logged (YouTubeSearch query) w) query api_key
    = Response 200 body [] →
  DownloadService.get_channel_id up query api_key w
  = (Raise ("No channel found for query: " ++ query),
     logged (YouTubeSearch query) w).
Proof.
  intros Hreply. unfold DownloadService.get_channel_id. run_monad.
  by rewrite Hreply.
Qed.

(** A run whose channel lookup raises returns the failure dict with the
    message of the exception. *)
Lemma run_download_resolution_fails job after_date channel key msg w w2 :
  Py.truthy channel = true →
  get_api_key_func up (logged (RunDownload channel EmptyString) w) = Some key →
  Py.truthy key = true →
  (Py.truthy after_date = true → ∃ d, strptime_ymd up after_date = Ok d) →
  DownloadService.get_channel_id up channel key
    (logged (RunDownload channel EmptyString) w) = (Raise msg, w2) →
  DownloadService.run_download up storage (download_config job after_date channel) w
  = (Ok (RunError msg), w2).
Proof.
  intros Hchannel Hkey Htruthy Hdate Hlookup.
  unfold DownloadService.run_download, download_config. cbn [Config.api_key
    Config.channel Config.video_ids Config.after_date Config.folder
    Config.delay Config.limit default from_option id Py.truthy_opt].
  match goal with |- context [(emit ?e;; ?body) w] =>
    change ((emit e;; body) w) with (body (logged e w)) end.
  unfold try_except.
  erewrite bind_run by reflexivity. cbv beta. rewrite Hkey.
  unfold Py.or_opt. cbn [Py.truthy_opt default from_option id].
  rewrite Htruthy. cbn [negb].
  assert (∃ after_date_obj,
            (if Py.truthy after_date
             then d ← lift (strptime_ymd up after_date); mret (Some d)
             else mret None) (logged (RunDownload channel EmptyString) w)
            = (Ok after_date_obj, logged (RunDownload channel EmptyString) w))
    as (after_date_obj & Hafter).
  { destruct (Py.truthy after_date); [|by eexists].
    destruct Hdate as [d Hd]; [reflexivity|].
    exists (Some d). run_monad. by rewrite Hd. }
  erewrite bind_run by exact Hafter.
  cbn [Py.truthy]. rewrite Hchannel.
  unfold mbind at 1. unfold StateM_bind at 1.
  unfold mbind at 1. unfold StateM_bind at 1.
  rewrite Hlookup. reflexivity.
Qed.

(** C1, amended. When the resolution of one channel of a job fails
    during a trigger, the run of that channel returns a failure dict (it
    raises nothing). Every channel of the job gets its run, in order,
    those after a failed one included, and the trigger counts as its
    downloads the total_downloads of the runs that returned a summary:
    a failure dict adds nothing. The date filter being computable and
    the standard output taking the lines the trigger prints, the trigger
    ends with those downloads added to the job's total_downloads, the
    job's status set to completed, last_error set to None and the jobs
    written to the file. *)
Theorem failed_channel_does_not_fail_job (job_id : string) (job : Job.t)
    (after_date : string) (self : JobScheduler.t) (w : world) :
  jobs self !! job_id = Some job →
  date_filter up job after_date →
  stdout_open up →
  (∀ channel key msg w0 w2,
     Py.truthy channel = true →
     get_api_key_func up (logged (RunDownload channel EmptyString) w0) = Some key →
     Py.truthy key = true →
     (Py.truthy after_date = true → ∃ d, strptime_ymd up after_date = Ok d) →
     DownloadService.get_channel_id up channel key
       (logged (RunDownload channel EmptyString) w0) = (Raise msg, w2) →
     DownloadService.run_download up storage
       (download_config job after_date channel) w0 = (Ok (RunError msg), w2))
  ∧ ∃ results w' evs,
      let downloads := downloads_of results in
      let self' :=
        {| jobs := <[job_id := completed job downloads (isoformat (now up w'))]>
                     (jobs self);
           jobs_file := <[job_id := completed job downloads (isoformat (now up w'))]>
                          (jobs self);
           running := running self; scheduler := scheduler self |} in
      channel_runs up storage job after_date (Job.channels job) w
      = (results, w')
      ∧ length results = length (Job.channels job)
      ∧ _run_scheduled_download up storage job_id (self, w) = (Ok tt, (self', w'))
      ∧ trace w' = (trace w ++ evs)%list
      ∧ List.filter is_run evs
        = map (λ channel, RunDownload channel EmptyString) (Job.channels job).
Proof.
  intros Hjob Hdate Hstdout. split.
  { intros channel key msg w0 w2. apply run_download_resolution_fails. }
  destruct (download_channels_results job after_date (Job.channels job) 0 self w)
    as (results & w' & evs & Hresults & Hlen & Hchannels & Htrace & Hruns).
  rewrite Z.add_0_l in Hchannels.
  exists results, w', evs. cbv zeta.
  split; [exact Hresults|]. split; [exact Hlen|].
  split; [|by split].
  unfold _run_scheduled_download.
  unfold mbind at 1. unfold StateM_bind at 1. unfold get_self at 1. cbn [fst].
  rewrite Hjob.
  erewrite bind_run by (apply print_run, Hstdout). apply try_except_run.
  assert ((if Py.truthy_opt (Job.last_run job)
           then lift (isoformat_to_ymd up (default EmptyString (Job.last_run job)))
           else mret (Job.start_date job)) (self, w) = (Ok after_date, (self, w)))
    as Hafter.
  { unfold date_filter in Hdate. destruct (Py.truthy_opt (Job.last_run job)).
    - unfold lift. by rewrite Hdate.
    - by rewrite Hdate. }
  erewrite bind_run by exact Hafter.
  erewrite bind_run by exact Hchannels.
  unfold add_total_downloads, update_job_status, set_jobs, _save_jobs, get_self,
    put_self, print, in_world.
  run_monad. rewrite Hjob. simpl. rewrite lookup_insert_eq. simpl.
  rewrite insert_insert_eq, Hstdout. reflexivity.
Qed.

End ScheduledRuns.

(** C1 as stated fails. A job over the channels gone and alive, where
    gone is not found: the run for gone returns a failure, the run for
    alive is still made, and the job ends completed with no error
    recorded. *)
Lemma failed_channel_leaves_job_completed :
  (DownloadService.run_download mixed_services GitHubStorage.new
     (JobScheduler.download_config two_channel_job "2024-01-01" "gone")
     empty_world).1
  = Ok (RunError "No channel found for query: gone")
  ∧ downloads_of
      (channel_runs mixed_services GitHubStorage.new two_channel_job
         "2024-01-01" ["gone"; "alive"] empty_world).1 = 0
  ∧ List.filter is_run
      (trace (JobScheduler._run_scheduled_download mixed_services
                GitHubStorage.new "job1" (one_job, empty_world)).2.2)
    = [RunDownload "gone" EmptyString; RunDownload "alive" EmptyString]
  ∧ (JobScheduler._run_scheduled_download mixed_services GitHubStorage.new
       "job1" (one_job, empty_world)).1 = Ok tt
  ∧ JobScheduler.jobs
      (JobScheduler._run_scheduled_download mixed_services GitHubStorage.new
         "job1" (one_job, empty_world)).2.1 !! "job1"
    = Some (completed two_channel_job 0 "2024-01-01T12:00:00").
Proof. repeat split; vm_compute; reflexivity. Qed.

(** The same job and services: the trigger runs both channels and
    completes. *)
Lemma failed_channel_does_not_fail_job_witness :
  JobScheduler.jobs one_job !! "job1" = Some two_channel_job
  ∧ date_filter mixed_services two_channel_job "2024-01-01"
  ∧ stdout_open mixed_services
  ∧ ∃ results finished st w',
      channel_runs mixed_services GitHubStorage.new two_channel_job
        "2024-01-01" ["gone"; "alive"] empty_world = (results, w')
      ∧ JobScheduler._run_scheduled_download mixed_services GitHubStorage.new
          "job1" (one_job, empty_world) = (Ok tt, (st, w'))
      ∧ JobScheduler.jobs st !! "job1"
        = Some (completed two_channel_job (downloads_of results) finished).
Proof.
  assert (JobScheduler.jobs one_job !! "job1" = Some two_channel_job) as Hjob
    by reflexivity.
  assert (date_filter mixed_services two_channel_job "2024-01-01") as Hdate
    by reflexivity.
  assert (stdout_open mixed_services) as Hstdout by (intros w line; reflexivity).
  split; [exact Hjob|]. split; [exact Hdate|]. split; [exact Hstdout|].
  destruct (failed_channel_does_not_fail_job mixed_services GitHubStorage.new
              "job1" two_channel_job "2024-01-01" one_job empty_world
              Hjob Hdate Hstdout)
    as (_ & results & w' & evs & Hresults & _ & Hrun & _).
  eexists results, _, _, w'. split; [exact Hresults|]. split; [exact Hrun|].
  apply lookup_insert_eq.
Defined.

(** ** Creating a job *)

Section AddJob.

Import JobScheduler.
Context (up : upstream).

Lemma _get_cron_trigger_unsupported frequency :
  frequency ≠ "daily" → frequency ≠ "weekly" → frequency ≠ "monthly" →
  _get_cron_trigger frequency = Raise ("Unsupported frequency: " ++ frequency).
Proof.
  intros Hd Hw Hm. unfold _get_cron_trigger.
  apply String.eqb_neq in Hd, Hw, Hm. by rewrite Hd, Hw, Hm.
Qed.

(** C4, as the code has it. For every call of [add_scheduled_job] with
    a frequency other than daily, weekly and monthly, the job is put in
    the mapping and written to the file before the frequency is looked
    at; a started scheduler then answers with the error of
    [_get_cron_trigger], a scheduler that has not been started never
    looks at the frequency and reports success. *)
Theorem unsupported_frequency_is_stored (name : string) (channels : list string)
    (frequency : string) (start_date : option string) (folder_prefix : string)
    (self : JobScheduler.t) (w : world) :
  frequency ≠ "daily" → frequency ≠ "weekly" → frequency ≠ "monthly" →
  ∃ job_id job,
    let out := add_scheduled_job up name channels frequency start_date
                 folder_prefix (self, w) in
    Job.id job = job_id ∧ Job.frequency job = frequency
    ∧ jobs out.2.1 !! job_id = Some job
    ∧ jobs_file out.2.1 !! job_id = Some job
    ∧ if running self
      then out.1 = Ok (AddError ("Unsupported frequency: " ++ frequency))
      else ∃ message, out.1 = Ok (AddOk job_id message).
Proof.
  intros Hd Hw Hm.
  pose proof (_get_cron_trigger_unsupported frequency Hd Hw Hm) as Htrigger.
  set (job_id :=
         Py.slice_to 12
           (md5_hexdigest up
              (name ++ "_" ++ Py.join "," channels ++ "_" ++ frequency ++ "_"
               ++ isoformat (now up w)))).
  exists job_id,
    {| Job.id := job_id; Job.name := name; Job.channels := channels;
       Job.frequency := frequency;
       Job.start_date :=
         if Py.truthy_opt start_date then default EmptyString start_date
         else today up w;
       Job.folder_prefix := folder_prefix;
       Job.created_at := isoformat (now up w);
       Job.last_run := None; Job.status := "active";
       Job.total_downloads := 0; Job.last_error := None |}.
  cbv zeta.
  unfold add_scheduled_job, _generate_job_id, _add_job_to_scheduler,
    _schedule_catchup_run, scheduler_add_job, set_jobs, _save_jobs, get_self,
    put_self, in_world.
  run_monad. fold job_id. destruct (running self); simpl.
  - rewrite Htrigger. simpl.
    split; [reflexivity|]. split; [reflexivity|].
    split; [apply lookup_insert_eq|]. split; [apply lookup_insert_eq|reflexivity].
  - split; [reflexivity|]. split; [reflexivity|].
    split; [apply lookup_insert_eq|]. split; [apply lookup_insert_eq|by eexists].
Qed.

End AddJob.

(** A job with frequency hourly, asked of a scheduler that has not been
    started: the call reports success and the job is in the file. *)
Lemma unsupported_frequency_is_stored_witness :
  (∃ message,
     (JobScheduler.add_scheduled_job fresh_store "digest" ["chan"] "hourly"
        None EmptyString (idle, empty_world)).1
     = Ok (JobScheduler.AddOk "0123456789ab" message))
  ∧ Job.frequency <$>
      JobScheduler.jobs_file
        (JobScheduler.add_scheduled_job fresh_store "digest" ["chan"] "hourly"
           None EmptyString (idle, empty_world)).2.1 !! "0123456789ab"
    = Some "hourly".
Proof.
  destruct (unsupported_frequency_is_stored fresh_store "digest" ["chan"]
              "hourly" None EmptyString idle empty_world)
    as (job_id & job & Hid & Hfrequency & Hjobs & Hfile & Hresult);
    [discriminate..|].
  split; [by eexists|]. reflexivity.
Defined.

(** The same request to a started scheduler: the call reports the error,
    and the job is in the mapping and in the file all the same. *)
Lemma unsupported_frequency_started :
  (JobScheduler.add_scheduled_job fresh_store "digest" ["chan"] "hourly"
     None EmptyString (started, empty_world)).1
  = Ok (JobScheduler.AddError "Unsupported frequency: hourly")
  ∧ Job.frequency <$>
      JobScheduler.jobs_file
        (JobScheduler.add_scheduled_job fresh_store "digest" ["chan"] "hourly"
           None EmptyString (started, empty_world)).2.1 !! "0123456789ab"
    = Some "hourly".
Proof. split; reflexivity. Qed.

(** * Further properties *)

(** ** Sanitised names *)

Section SanitisedNames.

Import GitHubStorage.

Lemma list_of_inj s1 s2 :
  list_ascii_of_string s1 = list_ascii_of_string s2 → s1 = s2.
Proof.
  intros H. rewrite <- (string_of_list_ascii_of_string s1),
    <- (string_of_list_ascii_of_string s2). by rewrite H.
Qed.

Lemma list_of_append s1 s2 :
  list_ascii_of_string (s1 ++ s2)
  = (list_ascii_of_string s1 ++ list_ascii_of_string s2)%list.
Proof. induction s1 as [|c s1 IH]; simpl; [reflexivity|]. by rewrite IH. Qed.

Lemma append_assoc (s1 s2 s3 : string) : (s1 ++ s2) ++ s3 = s1 ++ s2 ++ s3.
Proof.
  induction s1 as [|c s1 IH]; [reflexivity|].
  change (String c ((s1 ++ s2) ++ s3) = String c (s1 ++ s2 ++ s3)).
  by f_equal.
Qed.

Lemma cleaned_clean s : clean s → cleaned s = list_ascii_of_string s.
Proof.
  unfold clean, cleaned. induction 1 as [|c l [Hc Hsp] _ IH]; [reflexivity|].
  cbn [List.filter].
  assert (is_removed c = false) as ->.
  { rewrite <- invalid_chars_removed.
    apply not_true_is_false. intros Hex. apply existsb_exists in Hex
      as (d & Hd & Heq). apply Ascii.eqb_eq in Heq as <-.
    by apply Hc, list_elem_of_In. }
  cbn [negb map]. rewrite IH.
  destruct (Ascii.eqb_spec c space) as [->|_]; [by destruct Hsp|reflexivity].
Qed.

Lemma _sanitize_name_clean name : clean (_sanitize_name name).
Proof.
  unfold clean. rewrite sanitize_name_chars. apply Forall_forall.
  intros c Hin. apply subseteq_take in Hin. by apply cleaned_no_invalid in Hin.
Qed.

Lemma _sanitize_name_length name : (String.length (_sanitize_name name) ≤ 100)%nat.
Proof. rewrite <- length_list_of, sanitize_name_chars, length_take. lia. Qed.

(** A name that is clean and short is left as it is. *)
Lemma _sanitize_name_fixed s :
  clean s → (String.length s ≤ 100)%nat → _sanitize_name s = s.
Proof.
  intros Hclean Hlen. apply list_of_inj.
  rewrite sanitize_name_chars, cleaned_clean by assumption.
  apply take_ge. by rewrite length_list_of.
Qed.

(** X1. Sanitising is idempotent: a sanitised name is a fixed point of
    [_sanitize_name], so a folder or file name read back from storage
    addresses the same path when it is sanitised again. *)
Theorem _sanitize_name_idempotent (name : string) :
  _sanitize_name (_sanitize_name name) = _sanitize_name name.
Proof.
  apply _sanitize_name_fixed;
    [apply _sanitize_name_clean|apply _sanitize_name_length].
Qed.

Lemma clean_append s1 s2 : clean s1 → clean s2 → clean (s1 ++ s2).
Proof. unfold clean. rewrite list_of_append. apply Forall_app_2. Qed.

Lemma stem_clean video_id title : clean video_id → clean (stem video_id title).
Proof.
  intros Hid. unfold stem. apply clean_append; [assumption|].
  apply clean_append; [|apply _sanitize_name_clean].
  unfold clean. simpl. constructor; [|constructor].
  split; [|discriminate]. rewrite list_elem_of_In. simpl. intuition discriminate.
Qed.

(** The path read for the stem of a saved file is the path written,
    when the video id is clean and the stem has at most 100 characters. *)
Lemma read_path_stem channel_name channel_name' video_id title :
  _sanitize_name channel_name' = _sanitize_name channel_name →
  clean video_id →
  (String.length (stem video_id title) ≤ 100)%nat →
  read_path channel_name' (stem video_id title)
  = saved_path channel_name video_id title.
Proof.
  intros Hchannel Hid Hlen. unfold read_path, saved_path.
  rewrite Hchannel, (_sanitize_name_fixed (stem video_id title));
    [|by apply stem_clean|assumption].
  unfold stem. by rewrite !append_assoc.
Qed.

(** X3. A transcript whose video id, underscore and sanitised title
    come to more than 100 characters is written to a path that
    [get_transcript] reads for no name at all in that channel: the name
    it reads is cut to 100 characters. *)
Theorem long_stem_is_never_read (up : upstream)
    (channel_name video_id title name : string) (w : world) :
  (100 < String.length (stem video_id title))%nat →
  read_path channel_name name ≠ saved_path channel_name video_id title
  ∧ GetContents (saved_path channel_name video_id title)
    ∉ drop (length (trace w))
        (trace (get_transcript up channel_name name w).2).
Proof.
  intros Hlong.
  assert (read_path channel_name name ≠ saved_path channel_name video_id title)
    as Hne.
  { unfold read_path, saved_path, stem in *. intros Heq.
    do 3 apply String.app_inj in Heq.
    apply (f_equal String.length) in Heq.
    pose proof (_sanitize_name_length name).
    rewrite !length_append in Hlong. rewrite !length_append in Heq.
    change (String.length ".json") with 5%nat in Heq.
    change (String.length "_") with 1%nat in Heq, Hlong. lia. }
  split; [exact Hne|].
  unfold get_transcript. fold (read_path channel_name name).
  assert (trace (request (GetContents (read_path channel_name name))
                   (GitHub.get_contents up (read_path channel_name name)) w).2
          = (trace w ++ [GetContents (read_path channel_name name)])%list) as Hreq.
  { unfold request. run_monad. by destruct (GitHub.get_contents _ _ _). }
  match goal with |- context [trace (?m w).2] =>
    assert (trace (m w).2
            = (trace w ++ [GetContents (read_path channel_name name)])%list)
      as -> end.
  { unfold mbind, StateM_bind.
    destruct (request _ _ w) as [[response|msg] w1]; simpl in *; [|exact Hreq].
    destruct (status_code response =? 200); [|exact Hreq].
    by destruct (json response) as [[sha content]|]. }
  rewrite drop_app_length. rewrite list_elem_of_singleton. congruence.
Qed.

End SanitisedNames.

(** The name of a hundred letters makes a stem of 107 characters. *)
Lemma long_stem_is_never_read_witness :
  (100 < String.length (stem "abc123" long_title))%nat
  ∧ read_path "Chan" (stem "abc123" long_title)
    ≠ saved_path "Chan" "abc123" long_title.
Proof.
  assert (100 < String.length (stem "abc123" long_title))%nat as Hlong
    by (vm_compute; lia).
  split; [exact Hlong|].
  exact (proj1 (long_stem_is_never_read fresh_store "Chan" "abc123" long_title
                  (stem "abc123" long_title) empty_world Hlong)).
Defined.

(** ** The storage adapter *)

Section StorageAdapter.

Import GitHubStorage.
Context (up : upstream) (self : GitHubStorage.t).

(** The probe in full: what it returns and the world it leaves. *)
Lemma check_transcript_exists_probe video_id w :
  ∃ found,
    check_transcript_exists up self video_id w = (Ok found, probed self video_id w)
    ∧ (found = true ↔ probe_found (probe_reply up self video_id w)).
Proof.
  unfold probed, probe_found, probe_reply, check_transcript_exists. run_monad.
  destruct (github_search_code up _ _) as [msg|status body found]; simpl.
  - exists false. split; [reflexivity|]. split; [discriminate|tauto].
  - destruct (Z.eqb_spec status 200) as [->|Hne]; simpl.
    + destruct found as [|item items]; simpl.
      * exists false. split; [reflexivity|]. split; [discriminate|tauto].
      * exists true. split; [reflexivity|]. tauto.
    + exists false. split; [reflexivity|]. split; [discriminate|].
      by destruct found.
Qed.

(** X4. [check_transcript_exists] raises nothing, whatever the search
    request does, makes that one request and touches no file; it returns
    [True] exactly when the reply has status 200 and at least one item. *)
Theorem check_transcript_exists_spec (video_id : string) (w : world) :
  ∃ found,
    check_transcript_exists up self video_id w = (Ok found, probed self video_id w)
    ∧ (found = true ↔ probe_found (probe_reply up self video_id w)).
Proof. apply check_transcript_exists_probe. Qed.

Lemma check_transcript_exists_found video_id w :
  probe_found (probe_reply up self video_id w) →
  check_transcript_exists up self video_id w = (Ok true, probed self video_id w).
Proof.
  intros Hfound.
  destruct (check_transcript_exists_probe video_id w) as (found & Hrun & Hiff).
  apply Hiff in Hfound as ->. exact Hrun.
Qed.

Lemma check_transcript_exists_absent video_id w :
  ¬ probe_found (probe_reply up self video_id w) →
  check_transcript_exists up self video_id w = (Ok false, probed self video_id w).
Proof.
  intros Habsent.
  destruct (check_transcript_exists_probe video_id w) as ([|] & Hrun & Hiff);
    [|exact Hrun].
  destruct Habsent. by apply Hiff.
Qed.

(** When the probe finds the video id, [save_transcript] reports a
    duplicate: it makes no request to the contents API and leaves every
    file as it was. *)
Theorem save_transcript_duplicate (channel_name video_id title text : string)
    (metadata : option Metadata.t) (w : world) :
  probe_found (probe_reply up self video_id w) →
  save_transcript up self channel_name video_id title text metadata w
  = (Ok (SaveDuplicate "Transcript already exists"), probed self video_id w).
Proof.
  intros Hfound. unfold save_transcript.
  erewrite bind_run by (by apply check_transcript_exists_found).
  reflexivity.
Qed.

(** X7. [save_transcript] called without metadata (the default of the
    parameter is [None]) raises as soon as the duplicate check has let it
    through: the content dict reads [metadata.get] first. Nothing is
    asked of the contents API and nothing is written. *)
Theorem save_transcript_without_metadata (channel_name video_id title text : string)
    (w : world) :
  ¬ probe_found (probe_reply up self video_id w) →
  save_transcript up self channel_name video_id title text None w
  = (Raise "'NoneType' object has no attribute 'get'", probed self video_id w).
Proof.
  intros Habsent. unfold save_transcript.
  erewrite bind_run by (by apply check_transcript_exists_absent).
  reflexivity.
Qed.

(** A write that the repository answers itself with 200 or 201 has put
    the content at the path. *)
Lemma put_file_written file_path content sha w response w1 :
  github_put_fault up (logged (PutContents file_path sha) w) file_path = None →
  put_file up self file_path content sha w = (Ok response, w1) →
  (status_code response =? 201) || (status_code response =? 200) = true →
  files w1 !! file_path = Some content.
Proof.
  intros Hput. unfold put_file, GitHub.put_contents. run_monad. rewrite Hput.
  destruct (files w !! file_path) as [old|], sha as [h|]; simpl;
    try destruct (String.eqb h (git_sha up old)); simpl;
    intros [= <- <-]; simpl; intros Hstatus; try discriminate;
    apply lookup_insert_eq.
Qed.

(** A write that the repository answers itself and that [write_transcript]
    reports as done has put the record at its path. *)
Lemma write_transcript_stores channel_name video_id title text md w path url w1 :
  (∀ w', github_put_fault up w' (saved_path channel_name video_id title) = None) →
  write_transcript up self channel_name video_id title text (Some md) w
    = (Ok (SaveOk path url), w1) →
  path = saved_path channel_name video_id title
  ∧ files w1 !! path
    = Some (content_of channel_name video_id title text md (isoformat (now up w))).
Proof.
  intros Hput. unfold write_transcript.
  fold (saved_path channel_name video_id title).
  set (p := saved_path channel_name video_id title) in *.
  intros Hrun.
  apply bind_Ok in Hrun as (md' & w2 & [= <- <-] & Hrun).
  apply bind_Ok in Hrun as (downloaded & w2 & [= <- <-] & Hrun).
  apply bind_Ok in Hrun as (existing_sha & w2 & _ & Hrun).
  apply bind_Ok in Hrun as (response & w3 & Hwrite & Hrun).
  destruct ((status_code response =? 201) || (status_code response =? 200))
    eqn:Hstatus; [|discriminate].
  injection Hrun as <- _ <-. split; [reflexivity|].
  eapply put_file_written; [apply Hput|exact Hwrite|exact Hstatus].
Qed.

(** X2. A transcript that [save_transcript] reports as written is read
    back by [get_transcript] under the name of its file: the video id,
    an underscore and the sanitised title. This holds when the id is
    clean, that name has at most 100 characters and the contents API
    answers both requests itself; the record read carries the id, title,
    channel, text and metadata that were saved. *)
Theorem get_transcript_by_stem (channel_name channel_name' video_id title text : string)
    (md : Metadata.t) (w w1 : world) (path url : string) :
  save_transcript up self channel_name video_id title text (Some md) w
    = (Ok (SaveOk path url), w1) →
  _sanitize_name channel_name' = _sanitize_name channel_name →
  clean video_id →
  (String.length (stem video_id title) ≤ 100)%nat →
  (∀ w', github_put_fault up w' path = None) →
  (∀ w', github_get_fault up w' path = None) →
  get_transcript up channel_name' (stem video_id title) w1
  = (Ok (Some (content_of channel_name video_id title text md
                 (isoformat (now up (probed self video_id w))))),
     logged (GetContents path) w1).
Proof.
  intros Hsave Hchannel Hid Hlen Hput Hget.
  unfold save_transcript in Hsave.
  apply bind_Ok in Hsave as (dup & w0 & Hcheck & Hsave).
  destruct (check_transcript_exists_total up self video_id w) as [b Hb].
  rewrite Hb in Hcheck. injection Hcheck as <- <-.
  destruct b; [discriminate|].
  assert (path = saved_path channel_name video_id title) as Hpath.
  { revert Hsave. unfold write_transcript.
    fold (saved_path channel_name video_id title). intros Hrun.
    apply bind_Ok in Hrun as (md' & w2 & _ & Hrun).
    apply bind_Ok in Hrun as (downloaded & w3 & _ & Hrun).
    apply bind_Ok in Hrun as (existing_sha & w4 & _ & Hrun).
    apply bind_Ok in Hrun as (response & w5 & _ & Hrun).
    destruct (_ || _); [|discriminate]. by injection Hrun as <- _ _. }
  subst path.
  apply write_transcript_stores in Hsave as [_ Hstored]; [|exact Hput].
  unfold get_transcript. fold (read_path channel_name' (stem video_id title)).
  rewrite (read_path_stem channel_name) by assumption.
  unfold GitHub.get_contents. run_monad. by rewrite Hget, Hstored.
Qed.

End StorageAdapter.

(** Video abc123 titled Title, saved for channel Chan in an empty
    repository, is read back under the name abc123_Title. *)
Lemma get_transcript_by_stem_witness :
  clean "abc123"
  ∧ (String.length (stem "abc123" "Title") ≤ 100)%nat
  ∧ (GitHubStorage.get_transcript fresh_store "Chan" "abc123_Title"
       (GitHubStorage.save_transcript fresh_store GitHubStorage.new "Chan"
          "abc123" "Title" "hello" (Some some_metadata) empty_world).2).1
    = Ok (Some (content_of "Chan" "abc123" "Title" "hello" some_metadata
                  "2024-01-01T12:00:00")).
Proof.
  assert (clean "abc123") as Hclean.
  { unfold clean. simpl. repeat constructor; try discriminate;
      rewrite list_elem_of_In; simpl; intuition discriminate. }
  assert (String.length (stem "abc123" "Title") ≤ 100)%nat as Hlen
    by (vm_compute; lia).
  split; [exact Hclean|]. split; [exact Hlen|].
  refine (f_equal fst
    (get_transcript_by_stem fresh_store GitHubStorage.new "Chan" "Chan"
       "abc123" "Title" "hello" some_metadata empty_world _
       "channels/Chan/abc123_Title.json"
       "https://github.com/filenamedotexe/youtube-transcripts-db/blob/main/channels/Chan/abc123_Title.json"
       _ eq_refl Hclean Hlen (λ _, eq_refl) (λ _, eq_refl))).
  reflexivity.
Defined.

(** The probe finds the id: the save is reported as a duplicate. *)
Lemma save_transcript_duplicate_witness :
  probe_found (probe_reply stored_already GitHubStorage.new "abc123" empty_world)
  ∧ (GitHubStorage.save_transcript stored_already GitHubStorage.new "Chan"
       "abc123" "Title" "hello" (Some some_metadata) empty_world).1
    = Ok (GitHubStorage.SaveDuplicate "Transcript already exists").
Proof.
  assert (probe_found (probe_reply stored_already GitHubStorage.new "abc123"
                         empty_world)) as Hfound by reflexivity.
  split; [exact Hfound|].
  exact (f_equal fst
    (save_transcript_duplicate stored_already GitHubStorage.new "Chan" "abc123"
       "Title" "hello" (Some some_metadata) empty_world Hfound)).
Defined.

(** Nothing stored, no metadata given: the save raises. *)
Lemma save_transcript_without_metadata_witness :
  ¬ probe_found (probe_reply fresh_store GitHubStorage.new "abc123" empty_world)
  ∧ (GitHubStorage.save_transcript fresh_store GitHubStorage.new "Chan"
       "abc123" "Title" "hello" None empty_world).1
    = Raise "'NoneType' object has no attribute 'get'".
Proof.
  assert (¬ probe_found (probe_reply fresh_store GitHubStorage.new "abc123"
                           empty_world)) as Habsent by (simpl; tauto).
  split; [exact Habsent|].
  exact (f_equal fst
    (save_transcript_without_metadata fresh_store GitHubStorage.new "Chan"
       "abc123" "Title" "hello" empty_world Habsent)).
Defined.

(** ** File names *)

Section FileNames.

Lemma lstrip_first s c :
  first_char (Py.lstrip s) = Some c → Py.is_space c = false.
Proof.
  induction s as [|a s IH]; simpl; [discriminate|].
  destruct (Py.is_space a) eqn:Ha; [exact IH|].
  simpl. by intros [= <-].
Qed.

Lemma rstrip_cases a s :
  Py.rstrip (String a s) = EmptyString
  ∨ ∃ r, Py.rstrip (String a s) = String a r.
Proof.
  simpl. destruct (Py.rstrip s); [|right; by eexists].
  destruct (Py.is_space a); [by left|right; by eexists].
Qed.

Lemma rstrip_first s c :
  first_char (Py.rstrip s) = Some c → first_char s = Some c.
Proof.
  destruct s as [|a s]; [discriminate|].
  destruct (rstrip_cases a s) as [->|[r ->]]; [discriminate|done].
Qed.

Lemma rstrip_last s c :
  last_char (Py.rstrip s) = Some c → Py.is_space c = false.
Proof.
  induction s as [|a s IH]; [discriminate|].
  simpl. destruct (Py.rstrip s) as [|b r] eqn:Hr.
  - destruct (Py.is_space a) eqn:Ha; simpl; [discriminate|]. by intros [= <-].
  - exact IH.
Qed.

Lemma lstrip_fixed s :
  (∀ c, first_char s = Some c → Py.is_space c = false) → Py.lstrip s = s.
Proof.
  destruct s as [|a s]; [reflexivity|]. intros H. simpl.
  by rewrite (H a eq_refl).
Qed.

Lemma rstrip_fixed s :
  (∀ c, last_char s = Some c → Py.is_space c = false) → Py.rstrip s = s.
Proof.
  induction s as [|a s IH]; [reflexivity|]. intros H. simpl.
  destruct s as [|b s'].
  - simpl. by rewrite (H a eq_refl).
  - rewrite IH; [reflexivity|]. intros c Hc. by apply H.
Qed.

Lemma strip_trimmed s : trimmed (Py.strip s).
Proof.
  unfold trimmed, Py.strip. split.
  - intros c Hc. apply rstrip_first in Hc. by apply lstrip_first in Hc.
  - apply rstrip_last.
Qed.

Lemma strip_fixed s : trimmed s → Py.strip s = s.
Proof.
  intros [Hfirst Hlast]. unfold Py.strip.
  rewrite lstrip_fixed by assumption. by apply rstrip_fixed.
Qed.

Lemma lstrip_Forall (P : ascii → Prop) s :
  Forall P (list_ascii_of_string s) →
  Forall P (list_ascii_of_string (Py.lstrip s)).
Proof.
  induction s as [|a s IH]; simpl; [done|]. intros H.
  destruct (Py.is_space a); [|exact H]. apply IH. by inversion H.
Qed.

Lemma rstrip_Forall (P : ascii → Prop) s :
  Forall P (list_ascii_of_string s) →
  Forall P (list_ascii_of_string (Py.rstrip s)).
Proof.
  induction s as [|a s IH]; simpl; [done|]. intros H. inversion H; subst.
  destruct (Py.rstrip s) as [|b r].
  - destruct (Py.is_space a); simpl; [constructor|by repeat constructor].
  - simpl. constructor; [assumption|]. by apply IH.
Qed.

Lemma re_sub_class_empty_fixed cls s :
  Forall (λ c, existsb (Ascii.eqb c) cls = false) (list_ascii_of_string s) →
  Py.re_sub_class_empty cls s = s.
Proof.
  induction s as [|a s IH]; simpl; [done|]. intros H. inversion H; subst.
  rewrite H2. by rewrite IH.
Qed.

Lemma re_sub_class_empty_Forall cls s :
  Forall (λ c, existsb (Ascii.eqb c) cls = false)
         (list_ascii_of_string (Py.re_sub_class_empty cls s)).
Proof.
  induction s as [|a s IH]; simpl; [constructor|].
  destruct (existsb (Ascii.eqb a) cls) eqn:Ha; [exact IH|].
  simpl. by constructor.
Qed.

(** What [lstrip] and [rstrip] take off is whitespace. *)
Lemma lstrip_split s :
  ∃ leading,
    list_ascii_of_string s
    = (leading ++ list_ascii_of_string (Py.lstrip s))%list
    ∧ blank leading.
Proof.
  induction s as [|a s (leading & IH & Hblank)];
    [exists []; split; [reflexivity|constructor]|].
  simpl. destruct (Py.is_space a) eqn:Ha.
  - exists (a :: leading). simpl. rewrite <- IH. split; [reflexivity|].
    by constructor.
  - exists []. split; [reflexivity|constructor].
Qed.

Lemma rstrip_split s :
  ∃ trailing,
    list_ascii_of_string s
    = (list_ascii_of_string (Py.rstrip s) ++ trailing)%list
    ∧ blank trailing.
Proof.
  induction s as [|a s (trailing & IH & Hblank)];
    [exists []; split; [reflexivity|constructor]|].
  simpl. destruct (Py.rstrip s) as [|b r].
  - simpl in IH. destruct (Py.is_space a) eqn:Ha.
    + exists (a :: trailing). simpl. rewrite IH. split; [reflexivity|].
      by constructor.
    + exists trailing. simpl. by rewrite IH.
  - exists trailing. simpl. simpl in IH. by rewrite IH.
Qed.

(** The class of the code has the nine characters as its members. *)
Lemma filename_invalid_chars_removed c :
  existsb (Ascii.eqb c) DownloadService.filename_invalid_chars
  = bool_decide (c ∈ filename_removed_chars).
Proof.
  destruct (existsb (Ascii.eqb c) DownloadService.filename_invalid_chars)
    eqn:Hex.
  - apply existsb_exists in Hex as (d & Hd & Heq).
    apply Ascii.eqb_eq in Heq as <-. symmetry. apply bool_decide_eq_true.
    by apply list_elem_of_In.
  - symmetry. apply bool_decide_eq_false. intros Hin.
    apply list_elem_of_In in Hin.
    assert (existsb (Ascii.eqb c) DownloadService.filename_invalid_chars = true)
      as Hex'; [|congruence].
    apply existsb_exists. exists c. split; [exact Hin|apply Ascii.eqb_refl].
Qed.

(** X8. [sanitize_filename] gives the characters of the name that are
    not one of less-than, greater-than, colon, double quote, slash,
    backslash, bar, question mark and star, in order, without the
    whitespace before the first and after the last of them that is not
    whitespace: what it takes off those characters at either end is
    whitespace only, and the result neither starts nor ends with
    whitespace. So none of the nine characters is left, every other
    character of the name that is not whitespace is kept (the at sign
    among them, and so are the spaces inside the name), and the
    function is idempotent. *)
Theorem sanitize_filename_spec (name : string) :
  let result := DownloadService.sanitize_filename name in
  (∃ leading trailing,
     filename_kept name
     = (leading ++ list_ascii_of_string result ++ trailing)%list
     ∧ blank leading ∧ blank trailing)
  ∧ trimmed result
  ∧ (∀ c, c ∈ filename_removed_chars → c ∉ list_ascii_of_string result)
  ∧ (∀ c, c ∈ list_ascii_of_string name → c ∉ filename_removed_chars →
          Py.is_space c = false → c ∈ list_ascii_of_string result)
  ∧ DownloadService.sanitize_filename result = result.
Proof.
  cbv zeta. unfold DownloadService.sanitize_filename.
  set (cls := DownloadService.filename_invalid_chars).
  assert (list_ascii_of_string (Py.re_sub_class_empty cls name)
          = filename_kept name) as Hkept.
  { rewrite list_of_re_sub_class_empty. unfold filename_kept.
    apply filter_ext. intros c. subst cls.
    by rewrite filename_invalid_chars_removed. }
  assert (∃ leading trailing,
            filename_kept name
            = (leading
               ++ list_ascii_of_string
                    (Py.strip (Py.re_sub_class_empty cls name))
               ++ trailing)%list
            ∧ blank leading ∧ blank trailing)
    as (leading & trailing & Hsplit & Hleading & Htrailing).
  { unfold Py.strip.
    destruct (lstrip_split (Py.re_sub_class_empty cls name))
      as (leading & Hl & Hleading).
    destruct (rstrip_split (Py.lstrip (Py.re_sub_class_empty cls name)))
      as (trailing & Hr & Htrailing).
    exists leading, trailing. by rewrite <- Hkept, Hl, Hr. }
  assert (Forall (λ c, existsb (Ascii.eqb c) cls = false)
            (list_ascii_of_string (Py.strip (Py.re_sub_class_empty cls name))))
    as Hclean.
  { unfold Py.strip. apply rstrip_Forall, lstrip_Forall,
      re_sub_class_empty_Forall. }
  split; [by exists leading, trailing|].
  split; [apply strip_trimmed|]. split; [|split].
  - intros c Hc Hin. rewrite Forall_forall in Hclean.
    specialize (Hclean c Hin). subst cls.
    rewrite filename_invalid_chars_removed in Hclean.
    by apply bool_decide_eq_false in Hclean.
  - intros c Hin Hclass Hspace.
    assert (c ∈ filename_kept name) as Hc.
    { unfold filename_kept. apply list_elem_of_In, filter_In.
      split; [by apply list_elem_of_In|].
      apply negb_true_iff. by apply bool_decide_eq_false. }
    rewrite Hsplit in Hc.
    apply elem_of_app in Hc as [Hc|Hc];
      [|apply elem_of_app in Hc as [Hc|Hc]; [exact Hc|]].
    + unfold blank in Hleading. rewrite Forall_forall in Hleading.
      specialize (Hleading c Hc). congruence.
    + unfold blank in Htrailing. rewrite Forall_forall in Htrailing.
      specialize (Htrailing c Hc). congruence.
  - rewrite re_sub_class_empty_fixed by exact Hclean.
    apply strip_fixed, strip_trimmed.
Qed.

Example sanitize_filename_example :
  DownloadService.sanitize_filename "  a@b c: d?  " = "a@b c d".
Proof. reflexivity. Qed.

End FileNames.

(** ** What a download leaves in the repository *)

Section KeepsFiles.

Context {A B : Type}.

Lemma keeps_files_ret (a : A) : keeps_files (mret a).
Proof. by intros w. Qed.

Lemma keeps_files_raise msg : keeps_files (raise (A:=A) msg).
Proof. by intros w. Qed.

Lemma keeps_files_lift (r : res A) : keeps_files (lift r).
Proof. by intros w. Qed.

Lemma keeps_files_ask (oracle : world → A) : keeps_files (ask oracle).
Proof. by intros w. Qed.

Lemma keeps_files_emit e : keeps_files (emit e).
Proof. by intros w. Qed.

Lemma keeps_files_bind (m : M A) (f : A → M B) :
  keeps_files m → (∀ a, keeps_files (f a)) → keeps_files (m ≫= f).
Proof.
  intros Hm Hf w. specialize (Hm w). unfold mbind, StateM_bind.
  destruct (m w) as [[a|msg] w1]; simpl in *; [|assumption].
  by rewrite Hf.
Qed.

Lemma keeps_files_try_except (m : M A) (h : string → M A) :
  keeps_files m → (∀ msg, keeps_files (h msg)) → keeps_files (try_except m h).
Proof.
  intros Hm Hh w. specialize (Hm w). unfold try_except.
  destruct (m w) as [[a|msg] w1]; simpl in *; [assumption|].
  by rewrite Hh.
Qed.

Lemma keeps_files_request e (reply : world → http A) :
  keeps_files (request e reply).
Proof. intros w. unfold request. run_monad. by destruct (reply _). Qed.

Lemma quiet_intro (Q : A → Prop) (m : M A) :
  emits (λ e, is_put e = false) m → keeps_files m →
  (∀ w a, (m w).1 = Ok a → Q a) → quiet Q m.
Proof.
  intros Hemits Hkeeps Hret w. destruct (Hemits w) as (evs & Htrace & Hcalls).
  exists evs. split; [exact Htrace|]. split.
  - clear Htrace. induction Hcalls as [|e evs He _ IH]; [reflexivity|].
    simpl. by rewrite He.
  - split; [apply Hkeeps|apply Hret].
Qed.

Lemma quiet_ret (Q : A → Prop) (a : A) : Q a → quiet Q (mret a).
Proof.
  intros Ha w. exists []. simpl. rewrite app_nil_r.
  repeat split. by intros a' [= <-].
Qed.

Lemma puts_once_quiet path (ok : A → bool) (m : M A) :
  quiet (λ a, ok a = false) m → puts_once path ok m.
Proof.
  intros Hm w. destruct (Hm w) as (evs & Htrace & Hputs & Hfiles & Hret).
  exists evs. split; [exact Htrace|]. by left.
Qed.

Lemma puts_once_bind path (ok : B → bool) (Q : A → Prop) (m : M A)
    (f : A → M B) :
  quiet Q m → (∀ a, Q a → puts_once path ok (f a)) →
  puts_once path ok (m ≫= f).
Proof.
  intros Hm Hf w.
  destruct (Hm w) as (evs1 & Htrace1 & Hputs1 & Hfiles1 & Hret1).
  unfold mbind, StateM_bind. destruct (m w) as [[a|msg] w1]; simpl in *.
  - destruct (Hf a (Hret1 a eq_refl) w1) as (evs2 & Htrace2 & Hcase).
    exists (evs1 ++ evs2)%list.
    split; [rewrite Htrace2, Htrace1; by rewrite app_assoc|].
    rewrite List.filter_app, Hputs1. simpl. rewrite <- Hfiles1. exact Hcase.
  - exists evs1. split; [exact Htrace1|]. left. by repeat split.
Qed.

Lemma puts_once_try_except path (ok : A → bool) (m : M A)
    (h : string → M A) :
  puts_once path ok m → (∀ msg, quiet (λ a, ok a = false) (h msg)) →
  puts_once path ok (try_except m h).
Proof.
  intros Hm Hh w. destruct (Hm w) as (evs1 & Htrace1 & Hcase).
  unfold try_except. destruct (m w) as [[a|msg] w1]; simpl in *.
  - exists evs1. by split.
  - destruct (Hh msg w1) as (evs2 & Htrace2 & Hputs2 & Hfiles2 & Hret2).
    exists (evs1 ++ evs2)%list.
    split; [rewrite Htrace2, Htrace1; by rewrite app_assoc|].
    rewrite List.filter_app, Hputs2, app_nil_r.
    destruct Hcase as [(Hputs1 & Hfiles1 & _)|Hput]; [left|by right].
    split; [exact Hputs1|]. split; [congruence|exact Hret2].
Qed.

End KeepsFiles.

(** Goals [keeps_files m] for code built from the monad. *)
Ltac keeps_files_step :=
  first
    [ apply keeps_files_ret | apply keeps_files_raise | apply keeps_files_lift
    | apply keeps_files_ask | apply keeps_files_emit
    | apply keeps_files_request
    | apply keeps_files_bind; [|intros ?]
    | apply keeps_files_try_except; [|intros ?]
    | match goal with
      | |- keeps_files (match ?x with _ => _ end) => destruct x
      | |- keeps_files (if ?x then _ else _) => destruct x
      | |- keeps_files (let '(_, _) := ?x in _) => destruct x
      end ].

Ltac keeps_files_auto := repeat keeps_files_step.

Section DownloadWrites.

Context (up : upstream) (storage : GitHubStorage.t).

Lemma check_transcript_exists_keeps_files video_id :
  keeps_files (GitHubStorage.check_transcript_exists up storage video_id).
Proof. unfold GitHubStorage.check_transcript_exists. keeps_files_auto. Qed.

Lemma _get_file_sha_keeps_files file_path :
  keeps_files (GitHubStorage._get_file_sha up file_path).
Proof. unfold GitHubStorage._get_file_sha. keeps_files_auto. Qed.

Lemma select_transcript_keeps_files transcript_list :
  keeps_files (DownloadService.select_transcript up transcript_list).
Proof.
  unfold DownloadService.select_transcript,
    TranscriptList.find_manually_created_transcript,
    TranscriptList.find_generated_transcript, TranscriptList.find_transcript,
    TranscriptList.iter, TranscriptList.fetch.
  keeps_files_auto.
Qed.

Lemma check_transcript_exists_quiet video_id :
  quiet (λ _, True) (GitHubStorage.check_transcript_exists up storage video_id).
Proof.
  apply quiet_intro; [|apply check_transcript_exists_keeps_files|done].
  unfold GitHubStorage.check_transcript_exists. emits_auto.
Qed.

Lemma _get_file_sha_quiet file_path :
  quiet (λ _, True) (GitHubStorage._get_file_sha up file_path).
Proof.
  apply quiet_intro; [|apply _get_file_sha_keeps_files|done].
  unfold GitHubStorage._get_file_sha. emits_auto.
Qed.

(** What the tier lookup returns from inside is a failure. *)
Lemma select_transcript_quiet transcript_list :
  quiet early_return (DownloadService.select_transcript up transcript_list).
Proof.
  apply quiet_intro; [|apply select_transcript_keeps_files|].
  - unfold DownloadService.select_transcript,
      TranscriptList.find_manually_created_transcript,
      TranscriptList.find_generated_transcript, TranscriptList.find_transcript,
      TranscriptList.iter, TranscriptList.fetch.
    emits_auto.
  - intros w selected.
    unfold DownloadService.select_transcript,
      TranscriptList.find_manually_created_transcript,
      TranscriptList.find_generated_transcript, TranscriptList.find_transcript,
      TranscriptList.iter, TranscriptList.fetch.
    run_monad.
    repeat match goal with
           | |- context [match TranscriptList.lookup ?c ?d with _ => _ end] =>
               destruct (TranscriptList.lookup c d); simpl
           | |- context [match youtube_transcript_fetch up ?w0 ?t with _ => _ end] =>
               destruct (youtube_transcript_fetch up w0 t); simpl
           | |- context [match (?l ++ ?r)%list with _ => _ end] =>
               destruct (l ++ r)%list; simpl
           end;
      by intros [= <-].
Qed.

(** The one write request of [save_transcript] is for the path it
    builds from the sanitised names. *)
Lemma write_transcript_puts_once channel_name video_id title text metadata :
  puts_once (saved_path channel_name video_id title) is_saved
    (GitHubStorage.write_transcript up storage channel_name video_id title text
       metadata).
Proof.
  unfold GitHubStorage.write_transcript.
  fold (saved_path channel_name video_id title).
  set (path := saved_path channel_name video_id title).
  apply (puts_once_bind _ _ (λ _, True)).
  { apply quiet_intro; [emits_auto|keeps_files_auto|done]. }
  intros md _. apply (puts_once_bind _ _ (λ _, True)).
  { apply quiet_intro; [emits_auto|keeps_files_auto|done]. }
  intros downloaded _. apply (puts_once_bind _ _ (λ _, True)).
  { apply _get_file_sha_quiet. }
  intros existing_sha _ w.
  exists [PutContents path
            (if Py.truthy_opt existing_sha then existing_sha else None)].
  split; [|right; by eexists].
  unfold GitHubStorage.put_file. run_monad.
  destruct (GitHub.put_contents _ _ _ _ _ _ _).1 as [msg|status body j];
    [reflexivity|].
  simpl. by destruct (_ || _).
Qed.

Lemma save_transcript_puts_once channel_name video_id title text metadata :
  puts_once (saved_path channel_name video_id title) is_saved
    (GitHubStorage.save_transcript up storage channel_name video_id title text
       metadata).
Proof.
  unfold GitHubStorage.save_transcript.
  apply (puts_once_bind _ _ (λ _, True)); [apply check_transcript_exists_quiet|].
  intros [|] _; [by apply puts_once_quiet, quiet_ret|].
  apply write_transcript_puts_once.
Qed.

Lemma store_transcript_puts_once video_id title channel_name channel_id
    published_at transcript transcript_type :
  puts_once (saved_path (folder_of channel_name) video_id title) fst
    (DownloadService.store_transcript up storage video_id title channel_name
       channel_id published_at transcript transcript_type).
Proof.
  unfold DownloadService.store_transcript.
  destruct transcript as [|entry transcript];
    [by apply puts_once_quiet, quiet_ret|].
  fold (folder_of channel_name). intros w.
  match goal with |- context [GitHubStorage.save_transcript up storage ?c ?v ?t ?x ?m] =>
    destruct (save_transcript_puts_once c v t x m w) as (evs & Htrace & Hcase);
    unfold mbind, StateM_bind;
    destruct (GitHubStorage.save_transcript up storage c v t x m w)
      as [[result|msg] w1]
  end; simpl in *; exists evs.
  - assert (∀ r : bool * string,
              (is_saved result = false → r.1 = false) →
              trace w1 = (trace w ++ evs)%list
              ∧ ((List.filter is_put evs = [] ∧ files w1 = files w
                  ∧ ∀ a, Ok r = Ok a → a.1 = false)
                 ∨ ∃ sha, List.filter is_put evs
                          = [PutContents
                               (saved_path (folder_of channel_name) video_id title)
                               sha])) as Hdone.
    { intros r Hr. split; [exact Htrace|].
      destruct Hcase as [(Hputs & Hfiles & Hret)|Hput]; [left|by right].
      split; [exact Hputs|]. split; [exact Hfiles|].
      intros a [= <-]. by apply Hr, Hret. }
    destruct result as [error|p url|error]; simpl.
    + by apply Hdone.
    + by apply Hdone.
    + destruct (Py.contains _ _); simpl; by apply Hdone.
  - split; [exact Htrace|].
    destruct Hcase as [(Hputs & Hfiles & _)|Hput]; [left|by right].
    by repeat split.
Qed.

Lemma download_transcript_puts_once video_id title channel_name channel_id
    published_at :
  puts_once (saved_path (folder_of channel_name) video_id title) fst
    (DownloadService.download_transcript up storage video_id title channel_name
       channel_id published_at).
Proof.
  unfold DownloadService.download_transcript.
  apply (puts_once_bind _ _ (λ _, True)).
  { apply quiet_intro; [emits_auto|keeps_files_auto|done]. }
  intros _ _. apply puts_once_try_except.
  2:{ intros msg. apply quiet_intro; [emits_auto|keeps_files_auto|].
      intros w a. run_monad.
      repeat match goal with |- context [if ?c then _ else _] => destruct c end;
        by intros [= <-]. }
  apply (puts_once_bind _ _ (λ _, True)); [apply check_transcript_exists_quiet|].
  intros [|] _; [by apply puts_once_quiet, quiet_ret|].
  apply (puts_once_bind _ _ early_return).
  { apply quiet_intro.
    - unfold TranscriptList.list_transcripts. emits_auto.
    - unfold TranscriptList.list_transcripts. keeps_files_auto.
    - intros w listed. unfold TranscriptList.list_transcripts. run_monad.
      destruct (youtube_transcript_list up _ _) as [tl|msg]; simpl;
        [by intros [= <-]|].
      repeat match goal with |- context [if ?c then _ else _] => destruct c end;
        by intros [= <-]. }
  intros [returned|transcript_list] Hlisted;
    [by apply puts_once_quiet, quiet_ret|].
  apply (puts_once_bind _ _ early_return); [apply select_transcript_quiet|].
  intros [returned|[transcript transcript_type]] Hselected;
    [by apply puts_once_quiet, quiet_ret|].
  apply store_transcript_puts_once.
Qed.

(** X6. [download_transcript] raises nothing: every exception inside it
    is turned into a failure message. It makes at most one write
    request to the contents API, and that request is for the path
    [save_transcript] builds for the video; a call that makes no write
    request leaves every file of the repository as it was and reports a
    failure, so a call that reports success has made its write
    request. *)
Theorem download_transcript_writes_by_one_request (video_id title : string)
    (channel_name channel_id published_at : option string) (w : world) :
  ∃ success result w' evs,
    DownloadService.download_transcript up storage video_id title channel_name
      channel_id published_at w = (Ok (success, result), w')
    ∧ trace w' = (trace w ++ evs)%list
    ∧ (List.filter is_put evs = []
       ∨ ∃ sha,
           List.filter is_put evs
           = [PutContents (saved_path (folder_of channel_name) video_id title)
                sha])
    ∧ (List.filter is_put evs = [] → files w' = files w ∧ success = false).
Proof.
  destruct (download_transcript_returns up storage video_id title channel_name
              channel_id published_at w) as (success & result & Hret).
  destruct (download_transcript_puts_once video_id title channel_name channel_id
              published_at w) as (evs & Htrace & Hcase).
  destruct (DownloadService.download_transcript _ _ _ _ _ _ _ w) as [r w'].
  simpl in *. subst r. exists success, result, w', evs.
  split; [reflexivity|]. split; [exact Htrace|].
  destruct Hcase as [(Hputs & Hfiles & Hok)|[sha Hput]].
  - split; [by left|]. intros _. split; [exact Hfiles|].
    exact (Hok (success, result) eq_refl).
  - split; [right; by exists sha|]. rewrite Hput. discriminate.
Qed.

End DownloadWrites.

(** ** The tiers of the transcript lookup, past the second *)

Section Tiers.

Context (up : upstream) (storage : GitHubStorage.t).

Ltac unfold_select :=
  unfold DownloadService.select_transcript,
    TranscriptList.find_manually_created_transcript,
    TranscriptList.find_generated_transcript, TranscriptList.find_transcript,
    TranscriptList.iter, TranscriptList.fetch;
  run_monad.

(** Under [Hsteady], the fetch of [t] in the goal gives what [H] says an
    earlier fetch of [t] gave. *)
Ltac steady t H :=
  match goal with
  | Hsteady : steady_fetch _ |- context [youtube_transcript_fetch ?up ?w0 t] =>
      match type of H with
      | youtube_transcript_fetch up ?w1 t = _ =>
          rewrite (Hsteady w0 w1 t), H
      end
  end.

(** No exception leaves the tier lookup. *)
Lemma select_transcript_returns tl w :
  ∃ selected, (DownloadService.select_transcript up tl w).1 = Ok selected.
Proof.
  unfold_select.
  repeat match goal with
         | |- context [match TranscriptList.lookup ?c ?d with _ => _ end] =>
             destruct (TranscriptList.lookup c d); simpl
         | |- context [match youtube_transcript_fetch up ?w0 ?t with _ => _ end] =>
             destruct (youtube_transcript_fetch up w0 t); simpl
         | |- context [match (?l ++ ?r)%list with _ => _ end] =>
             destruct (l ++ r)%list; simpl
         end; by eexists.
Qed.

(** X9. The type unknown, that of the third tier, is given only after
    a fetch that failed and then succeeded: the third tier finds the
    English transcript the first or the second tier found, so when
    fetching a transcript always gives the same, no transcript is ever
    typed unknown. *)
Theorem unknown_type_needs_unsteady_fetch (tl : transcript_list) (w w' : world)
    (snippets : list snippet) (transcript_type : string) :
  steady_fetch up →
  DownloadService.select_transcript up tl w
    = (Ok (inr (snippets, transcript_type)), w') →
  transcript_type ≠ "unknown".
Proof.
  intros Hsteady. unfold_select.
  destruct (TranscriptList.lookup "en" (manually_created tl)) as [t1|] eqn:H1;
    simpl.
  - destruct (youtube_transcript_fetch up _ t1) as [s1|e1] eqn:Hf1; simpl;
      [by intros [= _ <- _]|].
    destruct (TranscriptList.lookup "en" (generated tl)) as [t2|] eqn:H2; simpl.
    + destruct (youtube_transcript_fetch up _ t2) as [s2|e2] eqn:Hf2; simpl;
        [by intros [= _ <- _]|].
      steady t1 Hf1. simpl.
      destruct (manually_created tl ++ generated tl)%list as [|first others];
        simpl; [discriminate|].
      destruct (youtube_transcript_fetch up _ first); simpl;
        [by intros [= _ <- _]|discriminate].
    + steady t1 Hf1. simpl.
      destruct (manually_created tl ++ generated tl)%list as [|first others];
        simpl; [discriminate|].
      destruct (youtube_transcript_fetch up _ first); simpl;
        [by intros [= _ <- _]|discriminate].
  - destruct (TranscriptList.lookup "en" (generated tl)) as [t2|] eqn:H2; simpl.
    + destruct (youtube_transcript_fetch up _ t2) as [s2|e2] eqn:Hf2; simpl;
        [by intros [= _ <- _]|].
      steady t2 Hf2. simpl.
      destruct (manually_created tl ++ generated tl)%list as [|first others];
        simpl; [discriminate|].
      destruct (youtube_transcript_fetch up _ first); simpl;
        [by intros [= _ <- _]|discriminate].
    + destruct (manually_created tl ++ generated tl)%list as [|first others];
        simpl; [discriminate|].
      destruct (youtube_transcript_fetch up _ first); simpl;
        [by intros [= _ <- _]|discriminate].
Qed.

(** X10. A listing without any English transcript goes through all four
    lookups. What is fetched is the first transcript of the listing, the
    manually created ones coming first, and it is typed auto with its
    language whether or not it was generated; a fetch that fails gives
    the message that starts with Cannot fetch transcript, an empty
    listing the message that no transcript is available in any
    language. *)
Theorem select_transcript_without_english (tl : transcript_list) (w : world) :
  TranscriptList.lookup "en" (manually_created tl) = None →
  TranscriptList.lookup "en" (generated tl) = None →
  DownloadService.select_transcript up tl w
  = match (manually_created tl ++ generated tl)%list with
    | [] => (Ok (inl (false, "No transcripts available in any language")),
             looked_up w)
    | first :: _ =>
        (match youtube_transcript_fetch up (logged (Fetch first) (looked_up w))
                 first with
         | Ok snippets => Ok (inr (snippets, "auto (" ++ language first ++ ")"))
         | Raise e => Ok (inl (false, "Cannot fetch transcript: "
                                      ++ Py.slice_to 200 e))
         end,
         logged (Fetch first) (looked_up w))
    end.
Proof.
  intros Hmanual Hgenerated. unfold looked_up. unfold_select.
  rewrite Hmanual, Hgenerated. simpl.
  destruct (manually_created tl ++ generated tl)%list as [|first others];
    simpl; [reflexivity|].
  by destruct (youtube_transcript_fetch up _ first).
Qed.

End Tiers.

(** With services that always answer a fetch the same, the generated
    English transcript of abc123 is typed auto-generated. *)
Lemma unknown_type_needs_unsteady_fetch_witness :
  steady_fetch (generated_only_services not_found (Ok two_lines))
  ∧ "auto-generated" ≠ "unknown".
Proof.
  assert (steady_fetch (generated_only_services not_found (Ok two_lines)))
    as Hsteady by (intros w1 w2 t; reflexivity).
  split; [exact Hsteady|].
  exact (unknown_type_needs_unsteady_fetch
           (generated_only_services not_found (Ok two_lines))
           {| manually_created := []; generated := [en_generated] |}
           empty_world _ two_lines "auto-generated" Hsteady eq_refl).
Defined.

(** The only transcript is German and written by hand: it is fetched
    and typed auto (German). *)
Lemma select_transcript_without_english_witness :
  (DownloadService.select_transcript
     (services not_found (Ok only_german) (λ _, Ok two_lines) (Some "KEY")
        (λ _, not_found) (PageError EmptyString))
     only_german empty_world).1
  = Ok (inr (two_lines, "auto (German)")).
Proof.
  exact (f_equal fst
    (select_transcript_without_english
       (services not_found (Ok only_german) (λ _, Ok two_lines) (Some "KEY")
          (λ _, not_found) (PageError EmptyString))
       only_german empty_world eq_refl eq_refl)).
Defined.
(** ** Where the failure messages come from *)

Section FailureMessages.

Context (up : upstream) (storage : GitHubStorage.t).

(** [result] starts with another letter than the four messages of the
    handler. *)
Ltac not_handler_message :=
  let H := fresh "H" in
  intros [H|[H|[H|[? H]]]];
  apply (f_equal first_char) in H; vm_compute in H; discriminate.

Lemma check_transcript_exists_run video_id w :
  ∃ found,
    GitHubStorage.check_transcript_exists up storage video_id w
    = (Ok found, probed storage video_id w).
Proof.
  unfold probed, GitHubStorage.check_transcript_exists. run_monad.
  destruct (github_search_code up _ _) as [msg|status body found]; simpl;
    [by eexists|].
  destruct (status =? 200); by eexists.
Qed.

(** The listing is obtained, or its failure is put into one of the
    three messages of its own handler. *)
Lemma list_transcripts_run video_id w :
  let listing :=
    try_except
      (transcript_list ← TranscriptList.list_transcripts up video_id;
       mret (inr transcript_list))
      (λ error_msg,
       if Py.contains "Could not retrieve" error_msg
       then mret (inl (false, "No transcript available for this video (ID: "
                              ++ video_id ++ ")"))
       else if Py.contains "Too Many Requests" error_msg
       then mret (inl (false, "YouTube rate limit reached - please wait a few minutes"))
       else mret (inl (false, "Failed to fetch transcript: "
                              ++ Py.slice_to 200 error_msg))) in
  ∃ listed,
    listing w = (Ok listed, logged (ListTranscripts video_id) w)
    ∧ match listed with
      | inl (success, result) => ¬ handler_message video_id result
      | inr _ => True
      end.
Proof.
  unfold TranscriptList.list_transcripts. run_monad.
  destruct (youtube_transcript_list up _ _) as [tl|msg]; simpl; [by eexists|].
  repeat match goal with |- context [if ?c then _ else _] => destruct c end;
    (eexists; split; [reflexivity|]); not_handler_message.
Qed.

(** A message returned from inside the tier lookup is not one of the
    handler's. *)
Lemma select_transcript_run video_id tl w :
  ∃ selected w' evs,
    DownloadService.select_transcript up tl w = (Ok selected, w')
    ∧ trace w' = (trace w ++ evs)%list
    ∧ match selected with
      | inl (success, result) => ¬ handler_message video_id result
      | inr _ => True
      end.
Proof.
  destruct (select_transcript_emits up tl w) as (evs & Htrace & _).
  revert Htrace.
  unfold DownloadService.select_transcript,
    TranscriptList.find_manually_created_transcript,
    TranscriptList.find_generated_transcript, TranscriptList.find_transcript,
    TranscriptList.iter, TranscriptList.fetch.
  run_monad.
  repeat match goal with
         | |- context [match TranscriptList.lookup ?c ?d with _ => _ end] =>
             destruct (TranscriptList.lookup c d); simpl
         | |- context [match youtube_transcript_fetch up ?w0 ?t with _ => _ end] =>
             destruct (youtube_transcript_fetch up w0 t); simpl
         | |- context [match (?l ++ ?r)%list with _ => _ end] =>
             destruct (l ++ r)%list; simpl
         end;
    intros Htrace; eexists _, _, evs;
    (split; [reflexivity|]); (split; [exact Htrace|]);
    solve [exact I | not_handler_message].
Qed.

Lemma put_file_trace file_path content sha w :
  trace (GitHubStorage.put_file up storage file_path content sha w).2
  = (trace w ++ [PutContents file_path sha])%list.
Proof.
  unfold GitHubStorage.put_file. run_monad.
  by destruct (GitHub.put_contents _ _ _ _ _ _ _).1.
Qed.

(** Past the duplicate check, [save_transcript] asks the contents API
    for the file at its path before anything else can go wrong. *)
Lemma write_transcript_asks channel_name video_id title text md w :
  ∃ evs,
    trace (GitHubStorage.write_transcript up storage channel_name video_id
             title text (Some md) w).2
    = (trace w ++ GetContents (saved_path channel_name video_id title) :: evs)%list.
Proof.
  unfold GitHubStorage.write_transcript.
  fold (saved_path channel_name video_id title).
  set (path := saved_path channel_name video_id title).
  unfold mbind at 1. unfold StateM_bind at 1. unfold mret at 1, StateM_ret at 1.
  unfold mbind at 1. unfold StateM_bind at 1. unfold ask at 1.
  unfold mbind at 1. unfold StateM_bind at 1.
  pose proof (_get_file_sha_world up path w) as Hsha.
  destruct (GitHubStorage._get_file_sha up path w) as [[existing_sha|msg] w1];
    simpl in Hsha; subst w1; [|by exists []].
  unfold mbind at 1. unfold StateM_bind at 1.
  match goal with |- context [GitHubStorage.put_file up storage ?p ?c ?s ?w1] =>
    pose proof (put_file_trace p c s w1) as Hput;
    destruct (GitHubStorage.put_file up storage p c s w1) as [[response|msg] w2]
  end; simpl in Hput.
  - exists [PutContents path
              (if Py.truthy_opt existing_sha then existing_sha else None)].
    destruct (_ || _); simpl; rewrite Hput; simpl; by rewrite <- app_assoc.
  - eexists. simpl. rewrite Hput. simpl. by rewrite <- app_assoc.
Qed.

(** X11. The four messages of the handler around the whole of
    [download_transcript] (rate limited, video not found, access
    forbidden, unexpected error) are reported only for what goes wrong
    once the contents API has been asked for the file: the existence
    probe raises nothing, and what the transcript API raises is put into
    the messages of the inner handlers, a rate limit of YouTube
    included. *)
Theorem handler_messages_follow_contents_request (video_id title : string)
    (channel_name channel_id published_at : option string) (w : world) :
  ∃ success result w' evs,
    DownloadService.download_transcript up storage video_id title channel_name
      channel_id published_at w = (Ok (success, result), w')
    ∧ trace w' = (trace w ++ evs)%list
    ∧ (handler_message video_id result → ∃ path, GetContents path ∈ evs).
Proof.
  unfold DownloadService.download_transcript.
  match goal with |- context [(emit ?e;; ?body) w] =>
    change ((emit e;; body) w) with (body (logged e w)) end.
  set (w1 := logged (DownloadTranscript video_id title) w).
  assert (trace w1 = (trace w ++ [DownloadTranscript video_id title])%list)
    as Hw1 by reflexivity.
  clearbody w1.
  unfold try_except at 1. unfold mbind at 1. unfold StateM_bind at 1.
  destruct (check_transcript_exists_run video_id w1) as [dup ->].
  set (w2 := probed storage video_id w1).
  assert (∃ evs2, trace w2 = (trace w ++ evs2)%list) as [evs2 Hw2].
  { eexists. unfold w2, probed, logged. simpl. rewrite Hw1.
    by rewrite <- app_assoc. }
  clearbody w2. clear Hw1 w1.
  destruct dup.
  { eexists _, _, _, evs2. split; [reflexivity|]. split; [exact Hw2|].
    intros Hmsg. exfalso. revert Hmsg. not_handler_message. }
  unfold mbind at 1. unfold StateM_bind at 1.
  destruct (list_transcripts_run video_id w2) as (listed & -> & Hlisted).
  set (w3 := logged (ListTranscripts video_id) w2).
  assert (∃ evs3, trace w3 = (trace w ++ evs3)%list) as [evs3 Hw3].
  { eexists. unfold w3, logged. simpl. rewrite Hw2. by rewrite <- app_assoc. }
  clearbody w3. clear Hw2 evs2 w2.
  destruct listed as [[success result]|transcript_list].
  { exists success, result, w3, evs3. split; [reflexivity|].
    split; [exact Hw3|]. intros Hmsg. by destruct Hlisted. }
  clear Hlisted.
  unfold mbind at 1. unfold StateM_bind at 1.
  destruct (select_transcript_run video_id transcript_list w3)
    as (selected & w4 & evs & -> & Htrace & Hselected).
  assert (∃ evs4, trace w4 = (trace w ++ evs4)%list) as [evs4 Hw4].
  { eexists. rewrite Htrace, Hw3. by rewrite <- app_assoc. }
  clear Htrace evs Hw3 evs3 w3.
  destruct selected as [[success result]|[transcript transcript_type]].
  { exists success, result, w4, evs4. split; [reflexivity|].
    split; [exact Hw4|]. intros Hmsg. by destruct Hselected. }
  clear Hselected.
  unfold DownloadService.store_transcript.
  destruct transcript as [|entry transcript].
  { eexists _, _, w4, evs4. split; [reflexivity|]. split; [exact Hw4|].
    intros Hmsg. exfalso. revert Hmsg. not_handler_message. }
  unfold GitHubStorage.save_transcript.
  unfold mbind at 1. unfold StateM_bind at 1.
  unfold mbind at 1. unfold StateM_bind at 1.
  destruct (check_transcript_exists_run video_id w4) as [dup ->].
  set (w5 := probed storage video_id w4).
  assert (∃ evs5, trace w5 = (trace w ++ evs5)%list) as [evs5 Hw5].
  { eexists. unfold w5, probed, logged. simpl. rewrite Hw4.
    by rewrite <- app_assoc. }
  clearbody w5. clear Hw4 evs4 w4.
  destruct dup.
  { eexists _, _, w5, evs5. split; [reflexivity|]. split; [exact Hw5|].
    intros Hmsg. exfalso. revert Hmsg. not_handler_message. }
  match goal with
  | |- context [GitHubStorage.write_transcript up storage ?c ?v ?t ?x (Some ?m) w5] =>
      destruct (write_transcript_asks c v t x m w5) as (evs & Htrace);
      destruct (GitHubStorage.write_transcript up storage c v t x (Some m) w5)
        as [[saved|msg] w6];
      set (path := saved_path c v t) in *
  end; simpl in Htrace.
  - assert (∀ r : bool * string,
              ∃ success result w' evs',
                (Ok r, w6) = (Ok (success, result), w')
                ∧ trace w' = (trace w ++ evs')%list
                ∧ (handler_message video_id result → ∃ p, GetContents p ∈ evs'))
      as Hdone.
    { intros [success result].
      exists success, result, w6, (evs5 ++ GetContents path :: evs)%list.
      split; [reflexivity|]. split.
      - rewrite Htrace, Hw5. by rewrite <- app_assoc.
      - intros _. exists path. apply elem_of_app. right. by left. }
    destruct saved as [error|p url|error]; simpl; try apply Hdone.
    destruct (Py.contains _ _); apply Hdone.
  - assert (∀ result : string,
              ∃ success result' w' evs',
                (Ok (false, result), w6) = (Ok (success, result'), w')
                ∧ trace w' = (trace w ++ evs')%list
                ∧ (handler_message video_id result' → ∃ p, GetContents p ∈ evs'))
      as Hdone.
    { intros result.
      exists false, result, w6, (evs5 ++ GetContents path :: evs)%list.
      split; [reflexivity|]. split.
      - rewrite Htrace, Hw5. by rewrite <- app_assoc.
      - intros _. exists path. apply elem_of_app. right. by left. }
    repeat match goal with |- context [if ?c then _ else _] => destruct c end;
      apply Hdone.
Qed.

End FailureMessages.

(** ** The shape of a run *)

Lemma bind_Raise {St A B} (m : StateM St A) (f : A → StateM St B) s msg s' :
  (m ≫= f) s = (Raise msg, s') →
  m s = (Raise msg, s') ∨ ∃ a s1, m s = (Ok a, s1) ∧ f a s1 = (Raise msg, s').
Proof.
  unfold mbind, StateM_bind. destruct (m s) as [[a|msg0] s1]; intros H.
  - right. by exists a, s1.
  - left. by injection H as -> ->.
Qed.

Section Runs.

Context (up : upstream) (storage : GitHubStorage.t).

Lemma playlist_loop_resolution playlist_id channel_id after_date limit served :
  ∀ video_data token,
  emits resolution_call
    (DownloadService.playlist_loop playlist_id channel_id after_date limit
       video_data token served)
  ∧ keeps_files
      (DownloadService.playlist_loop playlist_id channel_id after_date limit
         video_data token served).
Proof.
  induction served as [msg|status body page_items|status body page_items next rest IH];
    intros video_data token; simpl.
  - split; [emits_auto|keeps_files_auto].
  - split; [emits_auto|keeps_files_auto].
  - split.
    + emits_auto. apply IH.
    + keeps_files_auto. apply IH.
Qed.

Lemma run_download_cases config w :
  let w0 := logged (RunDownload (default EmptyString (Config.channel config))
                      (default EmptyString (Config.video_ids config))) w in
  (∃ msg w1 evs,
     DownloadService.run_download up storage config w = (Ok (RunError msg), w1)
     ∧ trace w1 = (trace w0 ++ evs)%list
     ∧ Forall resolution_call evs
     ∧ files w1 = files w)
  ∨ (∃ videos folder_name w1 evs acc w',
       trace w1 = (trace w0 ++ evs)%list
       ∧ Forall resolution_call evs
       ∧ files w1 = files w
       ∧ DownloadService.download_each up storage (DownloadService.delay_of config)
           (Z.of_nat (length videos)) 0 videos
           {| DownloadService.success_count := 0;
              DownloadService.failed_count := 0;
              DownloadService.duplicate_count := 0;
              DownloadService.results := [] |} w1 = (Ok acc, w')
       ∧ DownloadService.run_download up storage config w
         = (Ok (RunOk
              {| Summary.total_videos := Z.of_nat (length videos);
                 Summary.total_downloads := DownloadService.success_count acc;
                 Summary.success_count := DownloadService.success_count acc;
                 Summary.failed_count := DownloadService.failed_count acc;
                 Summary.duplicate_count := DownloadService.duplicate_count acc;
                 Summary.folder := folder_name;
                 Summary.results := DownloadService.results acc |}), w'))
  ∨ (∃ videos w1 evs msg w',
       trace w1 = (trace w0 ++ evs)%list
       ∧ Forall resolution_call evs
       ∧ files w1 = files w
       ∧ DownloadService.download_each up storage (DownloadService.delay_of config)
           (Z.of_nat (length videos)) 0 videos
           {| DownloadService.success_count := 0;
              DownloadService.failed_count := 0;
              DownloadService.duplicate_count := 0;
              DownloadService.results := [] |} w1 = (Raise msg, w')
       ∧ DownloadService.run_download up storage config w
         = (Ok (RunError msg), w')).
Proof.
  intros w0.
  assert (∀ (key : string) after_date_obj,
    let prelude :=
      if Py.truthy (default EmptyString (Config.video_ids config)) then
        mret (map (λ vid,
                {| Video.id := vid; Video.date := None;
                   Video.title := "video_" ++ vid;
                   Video.channel :=
                     Py.or_else (default EmptyString (Config.folder config))
                                "Direct_Downloads";
                   Video.channel_id := None |})
                (map Py.strip
                   (Py.split "," (default EmptyString (Config.video_ids config)))),
              default EmptyString (Config.folder config))
      else if Py.truthy (default EmptyString (Config.channel config)) then
        channel_id ← DownloadService.get_channel_id up
                       (default EmptyString (Config.channel config)) key;
        info ← DownloadService.get_channel_info up channel_id key;
        let channel_name :=
          Py.or_else info (default EmptyString (Config.channel config)) in
        let folder_name :=
          if negb (Py.truthy (default EmptyString (Config.folder config)))
          then channel_name else default EmptyString (Config.folder config) in
        playlist_id ← DownloadService.get_uploads_playlist_id up channel_id key;
        videos ← DownloadService.get_video_ids_from_playlist up playlist_id key
                   (Some channel_id) after_date_obj (Config.limit config);
        mret (map (λ video,
                {| Video.id := Video.id video;
                   Video.date := Video.date video;
                   Video.title := Video.title video;
                   Video.channel := folder_name;
                   Video.channel_id := Video.channel_id video |}) videos,
              folder_name)
      else mret ([], default EmptyString (Config.folder config)) in
    emits resolution_call prelude ∧ keeps_files prelude) as Hprelude.
  { intros key after_date_obj. cbv zeta.
    unfold DownloadService.get_channel_id, DownloadService.get_channel_info,
      DownloadService.get_uploads_playlist_id,
      DownloadService.get_video_ids_from_playlist.
    split.
    - repeat first [ apply playlist_loop_resolution | emits_step ].
    - repeat first [ apply playlist_loop_resolution | keeps_files_step ]. }
  destruct (DownloadService.run_download up storage config w) as [r w']
    eqn:Hrun.
  unfold DownloadService.run_download in Hrun.
  match type of Hrun with (emit ?e;; ?body) w = _ =>
    change ((emit e;; body) w) with (body w0) in Hrun end.
  assert (files w0 = files w) as Hfiles0 by reflexivity.
  clearbody w0.
  assert (∀ sk w2,
            (if Py.truthy_opt (Config.api_key config) then mret None
             else ask (get_api_key_func up)) w0 = (Ok sk, w2) → w2 = w0)
    as Hkey.
  { intros sk w2. destruct (Py.truthy_opt (Config.api_key config));
      by intros [= _ <-]. }
  assert (∀ (r : res (option datetime)) w3,
            (if Py.truthy (default EmptyString (Config.after_date config))
             then d ← lift (strptime_ymd up
                              (default EmptyString (Config.after_date config)));
                  mret (Some d)
             else mret None) w0 = (r, w3) → w3 = w0) as Hdate.
  { intros r0 w3.
    destruct (Py.truthy (default EmptyString (Config.after_date config)));
      run_monad; [|congruence].
    destruct (strptime_ymd up _); congruence. }
  unfold try_except in Hrun.
  match type of Hrun with (let (_, _) := ?body w0 in _) = _ =>
    destruct (body w0) as [[result|msg] w1] eqn:Hbody end.
  - injection Hrun as <- <-.
    apply bind_Ok in Hbody as (stored_key & w2 & Hstored & Hbody).
    apply Hkey in Hstored as ->.
    destruct (negb (Py.truthy_opt
                (Py.or_opt (Config.api_key config) stored_key))).
    { injection Hbody as <- <-. left. exists "No API key available", w0, [].
      split; [reflexivity|]. rewrite app_nil_r. by repeat split. }
    apply bind_Ok in Hbody as (after_date_obj & w3 & Hafter & Hbody).
    apply Hdate in Hafter as ->.
    apply bind_Ok in Hbody as ([videos folder_name] & w4 & Hvideos & Hbody).
    apply bind_Ok in Hbody as (acc & w5 & Heach & Hbody).
    injection Hbody as <- <-.
    destruct (Hprelude (default EmptyString
                (Py.or_opt (Config.api_key config) stored_key)) after_date_obj)
      as [Hemits Hkeeps].
    cbv zeta in Hemits, Hkeeps.
    destruct (Hemits w0) as (evs & Htrace & Hcalls). specialize (Hkeeps w0).
    rewrite Hvideos in Htrace, Hkeeps. simpl in Htrace, Hkeeps.
    right. left. exists videos, folder_name, w4, evs, acc, w5.
    split; [exact Htrace|]. split; [exact Hcalls|].
    split; [congruence|]. split; [exact Heach|reflexivity].
  - injection Hrun as <- <-.
    apply bind_Raise in Hbody as [Hstored|(stored_key & w2 & Hstored & Hbody)].
    { destruct (Py.truthy_opt (Config.api_key config)); discriminate. }
    apply Hkey in Hstored as ->.
    destruct (negb (Py.truthy_opt
                (Py.or_opt (Config.api_key config) stored_key)));
      [discriminate|].
    apply bind_Raise in Hbody as [Hafter|(after_date_obj & w3 & Hafter & Hbody)].
    { apply Hdate in Hafter as ->. left. exists msg, w0, [].
      split; [reflexivity|]. rewrite app_nil_r. by repeat split. }
    apply Hdate in Hafter as ->.
    destruct (Hprelude (default EmptyString
                (Py.or_opt (Config.api_key config) stored_key)) after_date_obj)
      as [Hemits Hkeeps].
    cbv zeta in Hemits, Hkeeps.
    destruct (Hemits w0) as (evs & Htrace & Hcalls). specialize (Hkeeps w0).
    apply bind_Raise in Hbody as [Hvideos|([videos folder_name] & w4 & Hvideos & Hbody)].
    { rewrite Hvideos in Htrace, Hkeeps. simpl in Htrace, Hkeeps.
      left. exists msg, w1, evs. split; [reflexivity|]. split; [exact Htrace|].
      split; [exact Hcalls|congruence]. }
    apply bind_Raise in Hbody as [Heach|(acc & w5 & Heach & Hbody)];
      [|discriminate].
    rewrite Hvideos in Htrace, Hkeeps. simpl in Htrace, Hkeeps.
    right. right. exists videos, w4, evs, msg, w1.
    split; [exact Htrace|]. split; [exact Hcalls|].
    split; [congruence|]. split; [exact Heach|reflexivity].
Qed.

Lemma resolution_calls_no_step evs :
  Forall resolution_call evs → List.filter is_step evs = [].
Proof.
  induction 1 as [|e evs He _ IH]; [reflexivity|].
  simpl. rewrite IH. by destruct e.
Qed.

(** X12. [run_download] raises nothing. A run that reports a failure
    has either stopped before its first download (beyond the requests
    that look the channel and its uploads up it has made no call: no
    probe, no transcript request, no write, no sleep; and it has left
    every file as it was), or it has been stopped by [time.sleep]
    raising on the configured delay, the error of the run being the
    message of that exception, after the lookups and the download of at
    least the first candidate. *)
Theorem failed_run_stopped_early_or_in_sleep (config : Config.t) (w : world) :
  ∃ r w',
    DownloadService.run_download up storage config w = (Ok r, w')
    ∧ ∀ error, r = RunError error →
        (files w' = files w
         ∧ ∃ evs, trace w' = (trace (entered config w) ++ evs)%list
                  ∧ Forall resolution_call evs)
        ∨ ((∃ w0, time_sleep up w0 (DownloadService.delay_of config) = Some error)
           ∧ ∃ evs video evs',
               trace w'
               = (trace (entered config w) ++ evs
                  ++ DownloadTranscript (Video.id video) (Video.title video)
                     :: evs')%list
               ∧ Forall resolution_call evs).
Proof.
  destruct (run_download_cases config w)
    as [(msg & w1 & evs & -> & Htrace & Hcalls & Hfiles)
       |[(videos & folder_name & w1 & evs & acc & w' & _ & _ & _ & _ & ->)
        |(videos & w1 & evs & msg & w' & Htrace & Hcalls & _ & Heach & ->)]].
  - eexists _, _. split; [reflexivity|]. intros error _. left.
    split; [exact Hfiles|]. by exists evs.
  - eexists _, _. split; [reflexivity|]. discriminate.
  - eexists _, _. split; [reflexivity|]. intros error [= <-]. right.
    destruct (download_each_run up storage (DownloadService.delay_of config)
                videos 0 {| DownloadService.success_count := 0;
                            DownloadService.failed_count := 0;
                            DownloadService.duplicate_count := 0;
                            DownloadService.results := [] |} w1)
      as (r & w'' & evs1 & Hrun & Htrace1 & Hr).
    rewrite Z.add_0_l, Heach in Hrun. injection Hrun as <- <-.
    destruct Hr as (Hfault & video & evs' & _ & ->).
    split; [exact Hfault|]. exists evs, video, evs'.
    split; [|exact Hcalls]. rewrite Htrace1, Htrace. by rewrite <- app_assoc.
Qed.

Lemma steps_of_sleeps delay videos :
  length (List.filter is_sleep (steps_of delay videos)) = (length videos - 1)%nat.
Proof.
  induction videos as [|video rest IH]; [reflexivity|].
  destruct rest as [|next rest']; [reflexivity|].
  change (steps_of delay (video :: next :: rest'))
    with (DownloadTranscript (Video.id video) (Video.title video)
          :: Sleep delay :: steps_of delay (next :: rest')).
  cbn [List.filter is_sleep length]. rewrite IH. simpl. lia.
Qed.

Lemma filter_sleep_step evs :
  List.filter is_sleep (List.filter is_step evs) = List.filter is_sleep evs.
Proof.
  induction evs as [|e evs IH]; [reflexivity|].
  destruct e; simpl; by rewrite ?IH.
Qed.

(** X13. In every run that completes, whether the candidates come from
    the ids of the config or from the uploads of a channel, the loop
    enters [download_transcript] once for each candidate, in order,
    sleeps the configured delay between two candidates and never after
    the last: a run over n candidates sleeps n - 1 times, a run over
    none not at all. The entries of [results] are those candidates. *)
Theorem completed_run_steps (config : Config.t) (w w' : world)
    (summary : Summary.t) :
  DownloadService.run_download up storage config w = (Ok (RunOk summary), w') →
  ∃ videos evs,
    trace w' = (trace (entered config w) ++ evs)%list
    ∧ List.filter is_step evs = steps_of (DownloadService.delay_of config) videos
    ∧ length (List.filter is_sleep evs) = (length videos - 1)%nat
    ∧ recorded (Summary.results summary)
      = map (λ v, (Video.id v, Video.title v)) videos
    ∧ Summary.total_videos summary = Z.of_nat (length videos).
Proof.
  intros Hrun.
  destruct (run_download_cases config w)
    as [(msg & w1 & evs & Heq & _)
       |[(videos & folder_name & w1 & evs & acc & w2 & Htrace & Hcalls & _
          & Heach & Heq)
        |(videos & w1 & evs & msg & w2 & _ & _ & _ & _ & Heq)]];
    rewrite Heq in Hrun; [discriminate| |discriminate].
  injection Hrun as <- <-.
  destruct (download_each_run up storage (DownloadService.delay_of config)
              videos 0 {| DownloadService.success_count := 0;
                          DownloadService.failed_count := 0;
                          DownloadService.duplicate_count := 0;
                          DownloadService.results := [] |} w1)
    as (r & w' & evs' & Hsteps & Htrace' & Hr).
  rewrite Z.add_0_l, Heach in Hsteps. injection Hsteps as <- <-.
  destruct Hr as [Hfilter Hrecorded].
  assert (List.filter is_step (evs ++ evs') =
          steps_of (DownloadService.delay_of config) videos) as Hall.
  { by rewrite List.filter_app, (resolution_calls_no_step evs Hcalls), Hfilter. }
  exists videos, (evs ++ evs')%list.
  split; [by rewrite Htrace', Htrace, app_assoc|].
  split; [exact Hall|].
  split; [by rewrite <- filter_sleep_step, Hall, steps_of_sleeps|].
  split; [exact Hrecorded|reflexivity].
Qed.

(** A video the probe finds stored is reported as a duplicate after
    that one request. *)
Lemma download_transcript_duplicate video_id title channel_name channel_id
    published_at w :
  probe_found (probe_reply up storage video_id
                 (logged (DownloadTranscript video_id title) w)) →
  DownloadService.download_transcript up storage video_id title channel_name
    channel_id published_at w
  = (Ok (false, "Transcript already exists (duplicate)"),
     probed storage video_id (logged (DownloadTranscript video_id title) w)).
Proof.
  intros Hfound. unfold DownloadService.download_transcript.
  match goal with |- context [(emit ?e;; ?body) w] =>
    change ((emit e;; body) w) with (body (logged e w)) end.
  unfold try_except.
  erewrite bind_run by (by apply check_transcript_exists_found).
  reflexivity.
Qed.

Lemma download_each_duplicates delay n videos : ∀ i acc w acc' w',
  all_stored up storage →
  DownloadService.download_each up storage delay n i videos acc w
  = (Ok acc', w') →
  DownloadService.success_count acc' = DownloadService.success_count acc
  ∧ DownloadService.failed_count acc'
    = DownloadService.failed_count acc + Z.of_nat (length videos)
  ∧ DownloadService.duplicate_count acc'
    = DownloadService.duplicate_count acc + Z.of_nat (length videos)
  ∧ files w' = files w
  ∧ ∃ evs, trace w' = (trace w ++ evs)%list ∧ Forall duplicate_call evs.
Proof.
  induction videos as [|video rest IH]; intros i acc w acc' w' Hstored Hrun.
  - injection Hrun as <- <-. repeat split; try (simpl; lia).
    exists []. by rewrite app_nil_r.
  - cbn [DownloadService.download_each] in Hrun.
    erewrite bind_run in Hrun
      by (apply download_transcript_duplicate, Hstored).
    cbv beta iota in Hrun.
    change (Py.contains "duplicate"
              (Py.lower "Transcript already exists (duplicate)")) with true
      in Hrun.
    cbv iota in Hrun.
    match type of Hrun with
      context [DownloadService.download_each _ _ _ _ _ rest ?a] =>
      set (acc1 := a) in Hrun end.
    set (w1 := probed storage (Video.id video)
                 (logged (DownloadTranscript (Video.id video) (Video.title video)) w))
      in Hrun.
    destruct (i <? n - 1).
    + unfold DownloadService.sleep, ask in Hrun.
      unfold mbind at 1 2, StateM_bind at 1 2 in Hrun.
      destruct (time_sleep up w1 delay); [discriminate|].
      unfold emit in Hrun.
      destruct (IH _ _ _ _ _ Hstored Hrun)
        as (Hs & Hf & Hd & Hfiles & evs & Htrace & Hcalls).
      subst acc1. simpl in *.
      repeat split; try lia; try assumption.
      exists (DownloadTranscript (Video.id video) (Video.title video)
              :: SearchCode (GitHubStorage.exists_query storage (Video.id video))
              :: Sleep delay :: evs).
      split; [rewrite Htrace; by rewrite <- !app_assoc|].
      by repeat constructor.
    + destruct (IH _ _ _ _ _ Hstored Hrun)
        as (Hs & Hf & Hd & Hfiles & evs & Htrace & Hcalls).
      subst acc1. simpl in *.
      repeat split; try lia; try assumption.
      exists (DownloadTranscript (Video.id video) (Video.title video)
              :: SearchCode (GitHubStorage.exists_query storage (Video.id video))
              :: evs).
      split; [rewrite Htrace; by rewrite <- !app_assoc|].
      by repeat constructor.
Qed.

(** X14. A run over videos that are all stored already (the probe finds
    each of them) stores nothing again: every candidate is counted as
    failed and as a duplicate, none as a success, no file is touched,
    and apart from looking the channel up the run only enters
    [download_transcript], probes and sleeps; the transcript API and the
    contents API are not called. *)
Theorem rerun_counts_duplicates (config : Config.t) (w w' : world)
    (summary : Summary.t) :
  all_stored up storage →
  DownloadService.run_download up storage config w = (Ok (RunOk summary), w') →
  Summary.total_downloads summary = 0
  ∧ Summary.failed_count summary = Summary.total_videos summary
  ∧ Summary.duplicate_count summary = Summary.total_videos summary
  ∧ files w' = files w
  ∧ ∃ evs, trace w' = (trace (entered config w) ++ evs)%list
           ∧ Forall (λ e, resolution_call e ∨ duplicate_call e) evs.
Proof.
  intros Hstored Hrun.
  destruct (run_download_cases config w)
    as [(msg & w1 & evs & Heq & _)
       |[(videos & folder_name & w1 & evs & acc & w2 & Htrace & Hcalls & Hfiles
          & Heach & Heq)
        |(videos & w1 & evs & msg & w2 & _ & _ & _ & _ & Heq)]];
    rewrite Heq in Hrun; [discriminate| |discriminate].
  injection Hrun as <- <-.
  destruct (download_each_duplicates _ _ _ _ _ _ _ _ Hstored Heach)
    as (Hs & Hf & Hd & Hfiles' & evs' & Htrace' & Hcalls').
  simpl in *.
  repeat split; try lia; try congruence.
  exists (evs ++ evs')%list.
  split; [by rewrite Htrace', Htrace, app_assoc|].
  apply Forall_app. split; (eapply Forall_impl; [eassumption|]); tauto.
Qed.

(** Without an api key, in the config or from the key store, a run
    fails with the message No API key available before it makes any
    request, also when the config gives video ids, for which no request
    needs a key. *)
Theorem run_download_without_key (config : Config.t) (w : world) :
  Py.truthy_opt (api_key_of up config w) = false →
  DownloadService.run_download up storage config w
  = (Ok (RunError "No API key available"), entered config w).
Proof.
  unfold api_key_of, entered, Py.or_opt, DownloadService.run_download.
  match goal with |- context [(emit ?e;; ?body) w] =>
    change ((emit e;; body) w) with (body (logged e w)) end.
  unfold try_except.
  destruct (Py.truthy_opt (Config.api_key config)) eqn:Hconfig.
  - intros Hkey. congruence.
  - intros Hkey.
    erewrite bind_run by reflexivity. cbv beta.
    unfold Py.or_opt. rewrite Hconfig, Hkey. reflexivity.
Qed.


End Runs.

(** Two ids that are stored already: both are counted as duplicates. *)
Lemma rerun_counts_duplicates_witness :
  all_stored stored_already GitHubStorage.new
  ∧ ∃ summary w',
      DownloadService.run_download stored_already GitHubStorage.new
        direct_config empty_world = (Ok (RunOk summary), w')
      ∧ Summary.total_downloads summary = 0
      ∧ Summary.duplicate_count summary = Summary.total_videos summary.
Proof.
  assert (all_stored stored_already GitHubStorage.new) as Hstored
    by (intros w video_id; reflexivity).
  split; [exact Hstored|].
  eexists _, _. split; [reflexivity|].
  pose proof (rerun_counts_duplicates stored_already GitHubStorage.new
                direct_config empty_world _ _ Hstored eq_refl)
    as (Hnone & _ & Hall & _).
  by split.
Defined.

(** The run of the two ids completes over two candidates: one sleep. *)
Lemma completed_run_steps_witness :
  ∃ summary w',
    DownloadService.run_download fresh_store GitHubStorage.new direct_config
      empty_world = (Ok (RunOk summary), w')
    ∧ ∃ (videos : list Video.t) evs,
        trace w' = (trace (entered direct_config empty_world) ++ evs)%list
        ∧ length (List.filter is_sleep evs) = (length videos - 1)%nat
        ∧ Summary.total_videos summary = Z.of_nat (length videos).
Proof.
  eexists _, _. split; [reflexivity|].
  destruct (completed_run_steps fresh_store GitHubStorage.new direct_config
              empty_world _ _ eq_refl)
    as (videos & evs & Htrace & _ & Hsleeps & _ & Htotal).
  by exists videos, evs.
Defined.

(** No key in the config, none in the key store. *)
Lemma run_download_without_key_witness :
  Py.truthy_opt (api_key_of fresh_store keyless_config empty_world) = false
  ∧ (DownloadService.run_download fresh_store GitHubStorage.new keyless_config
       empty_world).1 = Ok (RunError "No API key available").
Proof.
  split; [reflexivity|].
  exact (f_equal fst
    (run_download_without_key fresh_store GitHubStorage.new keyless_config
       empty_world eq_refl)).
Defined.


(** ** Limits that are not positive, and pages that fail *)

Section PlaylistEdges.

Context (up : upstream).

Lemma collect_page_zero_limit channel_id after_date page_items : ∀ video_data,
  DownloadService.collect_page channel_id after_date (Some 0) page_items video_data
  = DownloadService.collect_page channel_id after_date None page_items video_data.
Proof.
  induction page_items as [|item rest IH]; intros video_data; simpl;
    [reflexivity|].
  destruct (match after_date with Some _ => _ | None => _ end); by rewrite IH.
Qed.

Lemma playlist_loop_zero_limit playlist_id channel_id after_date served :
  ∀ video_data token w,
  DownloadService.playlist_loop playlist_id channel_id after_date (Some 0)
    video_data token served w
  = DownloadService.playlist_loop playlist_id channel_id after_date None
      video_data token served w.
Proof.
  induction served as [msg|status body page_items|status body page_items next rest IH];
    intros video_data token w; simpl; [reflexivity| |].
  - by rewrite collect_page_zero_limit.
  - rewrite collect_page_zero_limit. unfold mbind, StateM_bind, emit.
    destruct (negb (status =? 200)); [reflexivity|].
    destruct (DownloadService.collect_page _ _ _ _ _); [reflexivity|].
    destruct (negb (Py.truthy next)); [reflexivity|]. apply IH.
Qed.

(** X17. A limit of 0 is no limit: the listing asked with limit 0 makes
    the requests and gives the result of the listing asked without a
    limit. *)
Theorem limit_zero_is_no_limit (playlist_id api_key : string)
    (channel_id : option string) (after_date : option datetime) (w : world) :
  DownloadService.get_video_ids_from_playlist up playlist_id api_key channel_id
    after_date (Some 0) w
  = DownloadService.get_video_ids_from_playlist up playlist_id api_key channel_id
      after_date None w.
Proof.
  unfold DownloadService.get_video_ids_from_playlist, mbind, StateM_bind, ask.
  apply playlist_loop_zero_limit.
Qed.

Lemma collect_page_negative_limit channel_id after_date (n : Z) page_items :
  n < 0 → ∀ video_data,
  DownloadService.collect_page channel_id after_date (Some n) page_items video_data
  = DownloadService.collect_page channel_id after_date (Some 1) page_items
      video_data.
Proof.
  intros Hn. induction page_items as [|item rest IH]; intros video_data; simpl;
    [reflexivity|].
  destruct (match after_date with Some _ => _ | None => _ end); [|by rewrite IH].
  rewrite length_app. simpl.
  destruct (Z.eqb_spec n 0) as [|_]; [lia|].
  destruct (Z.leb_spec n (Z.of_nat (length video_data + 1))) as [_|]; [|lia].
  destruct (Z.leb_spec 1 (Z.of_nat (length video_data + 1))) as [_|]; [|lia].
  reflexivity.
Qed.

Lemma playlist_loop_negative_limit playlist_id channel_id after_date (n : Z) served :
  n < 0 → ∀ video_data token w,
  DownloadService.playlist_loop playlist_id channel_id after_date (Some n)
    video_data token served w
  = DownloadService.playlist_loop playlist_id channel_id after_date (Some 1)
      video_data token served w.
Proof.
  intros Hn.
  induction served as [msg|status body page_items|status body page_items next rest IH];
    intros video_data token w; simpl; [reflexivity| |].
  - by rewrite collect_page_negative_limit.
  - rewrite collect_page_negative_limit by assumption.
    unfold mbind, StateM_bind, emit.
    destruct (negb (status =? 200)); [reflexivity|].
    destruct (DownloadService.collect_page _ _ _ _ _); [reflexivity|].
    destruct (negb (Py.truthy next)); [reflexivity|]. apply IH.
Qed.

(** With limit 1 a page gives back the first video it keeps, or nothing
    new. *)
Lemma collect_page_limit_one channel_id after_date page_items :
  match DownloadService.collect_page channel_id after_date (Some 1) page_items []
  with
  | inl returned => length returned = 1%nat
  | inr collected => collected = []
  end.
Proof.
  induction page_items as [|item rest IH]; simpl; [reflexivity|].
  destruct (match after_date with Some _ => _ | None => _ end);
    [reflexivity|exact IH].
Qed.

Lemma playlist_loop_limit_one playlist_id channel_id after_date served :
  ∀ token w videos w',
  DownloadService.playlist_loop playlist_id channel_id after_date (Some 1)
    [] token served w = (Ok videos, w') →
  (length videos ≤ 1)%nat.
Proof.
  induction served as [msg|status body page_items|status body page_items next rest IH];
    intros token w videos w'; simpl; unfold mbind, StateM_bind, emit.
  - discriminate.
  - destruct (negb (status =? 200)); [discriminate|].
    pose proof (collect_page_limit_one channel_id after_date page_items) as Hpage.
    destruct (DownloadService.collect_page _ _ _ _ _) as [returned|collected];
      intros [= <- _]; [lia|subst; simpl; lia].
  - destruct (negb (status =? 200)); [discriminate|].
    pose proof (collect_page_limit_one channel_id after_date page_items) as Hpage.
    destruct (DownloadService.collect_page _ _ _ _ _) as [returned|collected].
    + intros [= <- _]. lia.
    + subst collected. destruct (negb (Py.truthy next)).
      * intros [= <- _]. simpl. lia.
      * apply IH.
Qed.

(** X18. A negative limit is a limit of 1: the test made after each
    video that is kept holds from the first one on, so the listing
    returns as it does with limit 1, with at most one video. *)
Theorem negative_limit_is_limit_one (playlist_id api_key : string)
    (channel_id : option string) (after_date : option datetime) (n : Z)
    (w : world) :
  n < 0 →
  DownloadService.get_video_ids_from_playlist up playlist_id api_key channel_id
    after_date (Some n) w
  = DownloadService.get_video_ids_from_playlist up playlist_id api_key channel_id
      after_date (Some 1) w
  ∧ ∀ videos w',
      DownloadService.get_video_ids_from_playlist up playlist_id api_key
        channel_id after_date (Some n) w = (Ok videos, w') →
      (length videos ≤ 1)%nat.
Proof.
  intros Hn.
  unfold DownloadService.get_video_ids_from_playlist, mbind, StateM_bind, ask.
  split; [by apply playlist_loop_negative_limit|].
  intros videos w'. rewrite playlist_loop_negative_limit by assumption.
  apply playlist_loop_limit_one.
Qed.

Lemma playlist_loop_page_fails playlist_id channel_id after_date served :
  served_pages served = None →
  ∀ video_data token w,
  ∃ error w',
    DownloadService.playlist_loop playlist_id channel_id after_date None
      video_data token served w = (Raise error, w').
Proof.
  induction served as [msg|status body page_items|status body page_items next rest IH];
    simpl; intros Hserved video_data token w; unfold mbind, StateM_bind, emit.
  - by eexists _, _.
  - destruct (status =? 200); [discriminate|]. by eexists _, _.
  - destruct (status =? 200); simpl; [|by eexists _, _].
    rewrite collect_page_no_limit.
    destruct (Py.truthy next); simpl; [|discriminate].
    apply IH. by destruct (served_pages rest).
Qed.

(** X19. A listing asked without a limit raises as soon as the request
    for one of its pages fails or is answered with a status other than
    200; the videos of the pages before it are not returned. *)
Theorem failed_page_fails_listing (playlist_id api_key : string)
    (channel_id : option string) (after_date : option datetime) (w : world) :
  served_pages (youtube_playlist_items up w playlist_id api_key) = None →
  ∃ error w',
    DownloadService.get_video_ids_from_playlist up playlist_id api_key
      channel_id after_date None w = (Raise error, w').
Proof.
  intros Hserved.
  unfold DownloadService.get_video_ids_from_playlist, mbind, StateM_bind, ask.
  by apply playlist_loop_page_fails.
Qed.

End PlaylistEdges.

(** The listing of [two_pages] with limit -5 stops at the newest upload. *)
Lemma negative_limit_is_limit_one_witness :
  (DownloadService.get_video_ids_from_playlist channel_services "UU1" "KEY"
     (Some "UC1") None (Some (-5)) empty_world).1
  = Ok [candidate (Some "UC1") upload_after].
Proof.
  pose proof (negative_limit_is_limit_one channel_services "UU1" "KEY"
                (Some "UC1") None (-5) empty_world eq_refl) as [Hsame _].
  rewrite Hsame. reflexivity.
Defined.

(** The first page is served, the second is not: the listing raises. *)
Lemma failed_page_fails_listing_witness :
  served_pages (youtube_playlist_items broken_services empty_world "UU1" "KEY")
  = None
  ∧ ∃ error w',
      DownloadService.get_video_ids_from_playlist broken_services "UU1" "KEY"
        (Some "UC1") None None empty_world = (Raise error, w').
Proof.
  split; [reflexivity|].
  exact (failed_page_fails_listing broken_services "UU1" "KEY" (Some "UC1")
           None empty_world eq_refl).
Defined.

(** ** Jobs: creation, removal, catch-up and triggers *)

Section Jobs.

Import JobScheduler.
Context (up : upstream) (storage : GitHubStorage.t).














End Jobs.


(** ** The key store of app_v2.py *)

Section KeyStore.

Import App.
Context (sha256_hexdigest : string → string).

Lemma hex_digit_not_space c : hex_digit c = true → Py.is_space c = false.
Proof.
  unfold hex_digit, Py.is_space. generalize (nat_of_ascii c). intros n Hhex.
  repeat match goal with
         | |- context [Nat.leb ?a ?b] => destruct (Nat.leb_spec a b)
         | |- context [Nat.eqb ?a ?b] => destruct (Nat.eqb_spec a b)
         | H : context [Nat.leb ?a ?b] |- _ => destruct (Nat.leb_spec a b)
         end; simpl in *; try reflexivity; try discriminate; lia.
Qed.

Lemma hex_digit_not_cr c : hex_digit c = true → Ascii.eqb c "013" = false.
Proof.
  intros Hhex. apply Ascii.eqb_neq. intros ->. discriminate.
Qed.

Lemma slice_to_Forall (P : ascii → Prop) n s :
  Forall P (list_ascii_of_string s) →
  Forall P (list_ascii_of_string (Py.slice_to n s)).
Proof.
  revert s. induction n as [|n IH]; intros [|c s]; simpl; try constructor.
  - by inversion H.
  - apply IH. by inversion H.
Qed.

Lemma slice_to_length n s :
  (n ≤ String.length s)%nat → String.length (Py.slice_to n s) = n.
Proof.
  revert s. induction n as [|n IH]; intros [|c s]; simpl; try lia.
  intros Hlen. rewrite IH; lia.
Qed.

Lemma universal_newlines_append p s :
  Forall (λ c, hex_digit c = true) (list_ascii_of_string p) →
  Py.universal_newlines (p ++ s) = p ++ Py.universal_newlines s.
Proof.
  induction p as [|c p IH]; [reflexivity|]. simpl. intros Hp.
  inversion Hp as [|? ? Hc Hrest]; subst.
  rewrite (hex_digit_not_cr c Hc).
  change (String c (Py.universal_newlines (p ++ s))
          = String c (p ++ Py.universal_newlines s)).
  by rewrite IH.
Qed.

Lemma rstrip_append p s :
  Forall (λ c, hex_digit c = true) (list_ascii_of_string p) →
  Py.rstrip (p ++ s) = p ++ Py.rstrip s.
Proof.
  induction p as [|c p IH]; [reflexivity|]. simpl. intros Hp.
  inversion Hp as [|? ? Hc Hrest]; subst.
  change (String c p ++ s) with (String c (p ++ s)).
  change (String c p ++ Py.rstrip s) with (String c (p ++ Py.rstrip s)).
  cbn [Py.rstrip]. rewrite IH by assumption.
  destruct (p ++ Py.rstrip s); [|reflexivity].
  by rewrite (hex_digit_not_space c Hc).
Qed.

Lemma lstrip_append p s :
  p ≠ EmptyString →
  Forall (λ c, hex_digit c = true) (list_ascii_of_string p) →
  Py.lstrip (p ++ s) = p ++ s.
Proof.
  destruct p as [|c p]; [done|]. intros _ Hp.
  inversion Hp as [|? ? Hc Hrest]; subst.
  change (String c p ++ s) with (String c (p ++ s)).
  cbn [Py.lstrip]. by rewrite (hex_digit_not_space c Hc).
Qed.

Lemma slice_from_append p s :
  Py.slice_from (String.length p) (p ++ s) = s.
Proof.
  induction p as [|c p IH]; simpl; [by destruct s|]. exact IH.
Qed.

(** What [load_api_key_from_file] makes of a file that
    [save_api_key_to_file] wrote. *)
Lemma load_saved_key api_key s :
  sha256_like sha256_hexdigest →
  readable s = true →
  load_api_key_from_file
    (set_key_file
       (Some (Py.slice_to 16 (sha256_hexdigest api_key) ++ api_key)) s)
  = if Py.truthy (stored_form api_key) then Some (stored_form api_key) else None.
Proof.
  intros Hsha Hreadable. destruct (Hsha api_key) as [Hlen Hhex].
  set (prefix := Py.slice_to 16 (sha256_hexdigest api_key)).
  assert (String.length prefix = 16%nat) as Hprefix
    by (apply slice_to_length; lia).
  assert (Forall (λ c, hex_digit c = true) (list_ascii_of_string prefix))
    as Hdigits by by apply slice_to_Forall.
  assert (prefix ≠ EmptyString) as Hnonempty by (by intros Heq; rewrite Heq in Hprefix).
  unfold load_api_key_from_file, set_key_file. cbn [key_file readable].
  rewrite Hreadable. unfold Py.strip.
  rewrite universal_newlines_append, lstrip_append, rstrip_append by assumption.
  fold (stored_form api_key). rewrite length_append, Hprefix.
  rewrite <- Hprefix at 3. rewrite slice_from_append.
  destruct (stored_form api_key) as [|c k]; simpl; [reflexivity|].
  destruct (Nat.ltb_spec 16 (16 + S (String.length k))); [reflexivity|lia].
Qed.

(** X26. A key saved to the key file is loaded again without its
    trailing whitespace, and with the line ends a text file is read
    with; a key that has nothing else in it is not loaded at all. So a
    key without a carriage return and without whitespace at its end
    comes back as it was saved. *)
Theorem saved_key_is_loaded (api_key : string) (s : App.t) :
  sha256_like sha256_hexdigest →
  writable s = true →
  readable s = true →
  (save_api_key_to_file sha256_hexdigest api_key s).1 = true
  ∧ load_api_key_from_file (save_api_key_to_file sha256_hexdigest api_key s).2
    = (if Py.truthy (stored_form api_key) then Some (stored_form api_key)
       else None).
Proof.
  intros Hsha Hwritable Hreadable. unfold save_api_key_to_file.
  rewrite Hwritable. cbn [fst snd]. split; [reflexivity|].
  by apply load_saved_key.
Qed.

(** X27. Once [set_api_key] has saved a key, the session that sent it
    works with the key as it was sent, and a session without a key of
    its own with the key as the file gives it back: without its
    trailing whitespace, or, when nothing is left of it, with the key
    of the environment. *)
Theorem set_key_is_current (api_key : string) (s : App.t) :
  sha256_like sha256_hexdigest →
  writable s = true →
  readable s = true →
  Py.truthy api_key = true →
  let out := set_api_key sha256_hexdigest (Some api_key) s in
  success out.1 = true
  ∧ get_current_api_key out.2 = api_key
  ∧ get_current_api_key (set_session_key None out.2)
    = (if Py.truthy (stored_form api_key) then stored_form api_key
       else default EmptyString (environ_key s)).
Proof.
  intros Hsha Hwritable Hreadable Htruthy. cbv zeta.
  unfold set_api_key, save_api_key_to_file.
  cbn [default from_option id]. rewrite Htruthy, Hwritable. cbn [fst snd success].
  split; [reflexivity|]. split; [reflexivity|].
  unfold get_current_api_key. cbn [session_key set_session_key].
  match goal with |- context [load_api_key_from_file ?s0] =>
    replace (load_api_key_from_file s0)
      with (if Py.truthy (stored_form api_key) then Some (stored_form api_key)
            else None)
  end.
  - by destruct (stored_form api_key).
  - symmetry. by apply (load_saved_key api_key s).
Qed.

(** [remove_api_key] always reports success and forgets the key of
    the session. When there is no key file, or the file can be removed,
    what is left is the key of the environment; when the file cannot be
    removed, the stored key stays in use. *)
Theorem removed_key_falls_back (s : App.t) :
  let out := remove_api_key s in
  success out.1 = true
  ∧ session_key out.2 = None
  ∧ get_current_api_key out.2
    = if bool_decide (key_file s = None) || removable s
      then default EmptyString (environ_key s)
      else get_current_api_key (set_session_key None s).
Proof.
  cbv zeta. unfold remove_api_key, remove_api_key_file.
  cbn [key_file set_session_key removable].
  destruct (key_file s) as [text|] eqn:Hfile; cbn [bool_decide orb].
  - rewrite bool_decide_eq_false_2 by discriminate. cbn [orb].
    destruct (removable s); cbn [fst snd success]; repeat split.
  - rewrite bool_decide_eq_true_2 by reflexivity. cbn [orb fst snd success].
    repeat split.
    unfold get_current_api_key, load_api_key_from_file. simpl.
    by rewrite Hfile.
Qed.

End KeyStore.

(** A key with a line end after it is saved; another session reads it
    without the line end. *)
Lemma saved_key_is_loaded_witness :
  sha256_like constant_digest
  ∧ App.load_api_key_from_file
      (App.save_api_key_to_file constant_digest
         ("AIzaKEY" ++ DownloadService.newline) no_keys).2
    = Some "AIzaKEY".
Proof.
  assert (sha256_like constant_digest) as Hsha.
  { intros s. split; [reflexivity|]. unfold constant_digest.
    repeat constructor. }
  split; [exact Hsha|].
  exact (proj2 (saved_key_is_loaded constant_digest
                  ("AIzaKEY" ++ DownloadService.newline) no_keys Hsha
                  eq_refl eq_refl)).
Defined.

Lemma set_key_is_current_witness :
  sha256_like constant_digest
  ∧ App.get_current_api_key
      (App.set_api_key constant_digest (Some "AIzaKEY ") no_keys).2
    = "AIzaKEY "
  ∧ App.get_current_api_key
      (App.set_session_key None
         (App.set_api_key constant_digest (Some "AIzaKEY ") no_keys).2)
    = "AIzaKEY".
Proof.
  assert (sha256_like constant_digest) as Hsha.
  { intros s. split; [reflexivity|]. unfold constant_digest.
    repeat constructor. }
  split; [exact Hsha|].
  exact (proj2 (set_key_is_current constant_digest "AIzaKEY " no_keys Hsha
                  eq_refl eq_refl eq_refl)).
Defined.
(** ** The combined document of app_v2.py *)

Section CombinedDocument.

Context (up : upstream) (strftime_now : world → string).

(** The slash is not among the listed characters. *)
Ltac no_slash :=
  let Hin := fresh "Hin" in
  intros Hin;
  repeat (apply elem_of_cons in Hin as [Hin|Hin]; [discriminate|]);
  by apply elem_of_nil in Hin.

Lemma split_without_separator sep s :
  sep ∉ list_ascii_of_string s → Py.split sep s = [s].
Proof.
  induction s as [|c s IH]; [reflexivity|]. simpl. intros Hnotin.
  rewrite not_elem_of_cons in Hnotin. destruct Hnotin as [Hne Hrest].
  destruct (Ascii.eqb_spec c sep) as [->|_]; [done|].
  by rewrite IH.
Qed.

Lemma split_at_separator sep s1 s2 :
  sep ∉ list_ascii_of_string s1 →
  Py.split sep (s1 ++ String sep s2) = s1 :: Py.split sep s2.
Proof.
  induction s1 as [|c s1 IH]; simpl; intros Hnotin.
  - by rewrite Ascii.eqb_refl.
  - rewrite not_elem_of_cons in Hnotin. destruct Hnotin as [Hne Hrest].
    change (String c s1 ++ String sep s2) with (String c (s1 ++ String sep s2)).
    cbn [Py.split].
    destruct (Ascii.eqb_spec c sep) as [->|_]; [done|].
    by rewrite IH.
Qed.

Lemma clean_no_slash s : clean s → "/"%char ∉ list_ascii_of_string s.
Proof.
  unfold clean. intros Hclean Hin. rewrite Forall_forall in Hclean.
  apply Hclean in Hin as [Hin _]. apply Hin.
  rewrite list_elem_of_In. simpl. tauto.
Qed.

(** The parts of the path of a saved transcript. *)
Lemma split_saved_path channel_name video_id title :
  clean video_id →
  Py.split "/" (saved_path channel_name video_id title)
  = ["channels"; GitHubStorage._sanitize_name channel_name;
     stem video_id title ++ ".json"].
Proof.
  intros Hid. unfold saved_path.
  change ("channels/" ++ ?s) with ("channels" ++ String "/" s).
  rewrite split_at_separator by (simpl; no_slash).
  change ("/" ++ ?s) with (String "/"%char s).
  rewrite split_at_separator by apply clean_no_slash, _sanitize_name_clean.
  replace (video_id ++ "_" ++ GitHubStorage._sanitize_name title ++ ".json")
    with (stem video_id title ++ ".json")
    by (unfold stem; by rewrite !append_assoc).
  rewrite split_without_separator; [reflexivity|].
  rewrite list_of_append. rewrite not_elem_of_app.
  split; [by apply clean_no_slash, stem_clean|].
  simpl. no_slash.
Qed.

Lemma prefix_cons old c s :
  String.prefix (String c old) (String c s) = String.prefix old s.
Proof. simpl. by destruct (ascii_dec c c). Qed.

(** An occurrence of the extension cannot start in a name and end in
    the extension that follows it. *)
Lemma prefix_json_straddle s :
  s ≠ EmptyString →
  String.prefix ".json" s = false →
  String.prefix ".json" (s ++ ".json") = false.
Proof.
  intros Hnonempty.
  destruct s as [|c1 [|c2 [|c3 [|c4 [|c5 s]]]]]; [done|..];
    cbv beta iota delta [String.append String.prefix];
    repeat match goal with
           | |- context [ascii_dec ?a ?b] =>
               destruct (ascii_dec a b); try discriminate; subst
           end;
    try reflexivity; try discriminate; try done.
  destruct s; discriminate.
Qed.

Lemma replace_str_extension s :
  Py.contains ".json" s = false →
  Py.replace_str ".json" EmptyString (s ++ ".json") = s.
Proof.
  unfold Py.replace_str. induction s as [|c s IH]; [reflexivity|].
  intros Hcontains. cbn [Py.contains] in Hcontains.
  apply orb_false_iff in Hcontains as [Hprefix Hrest].
  pose proof (prefix_json_straddle (String c s) ltac:(done) Hprefix) as Hstraddle.
  change (String c s ++ ".json") with (String c (s ++ ".json")) in *.
  cbn [Py.replace_from]. rewrite Hstraddle. by rewrite IH.
Qed.

Lemma get_transcript_found channel_name title content w :
  files w !! read_path channel_name title = Some content →
  github_get_fault up (logged (GetContents (read_path channel_name title)) w)
    (read_path channel_name title) = None →
  GitHubStorage.get_transcript up channel_name title w
  = (Ok (Some content), logged (GetContents (read_path channel_name title)) w).
Proof.
  intros Hfile Hfault. unfold GitHubStorage.get_transcript.
  fold (read_path channel_name title). unfold GitHub.get_contents.
  run_monad. by rewrite Hfault, Hfile.
Qed.

(** X29. The path of a file that [save_transcript] wrote leads
    [combine_transcripts] back to that file: cut at the slashes and
    freed of its extension, it gives a channel and a name for which
    [get_transcript] reads the very path, so the document is the head
    followed by the part for that transcript. This holds when the video
    id is clean, the name has at most 100 characters and does not
    itself contain the extension, and the contents API answers the
    request. *)
Theorem combine_reads_saved_transcript (channel_name video_id title : string)
    (content : Content.t) (w : world) :
  let path := saved_path channel_name video_id title in
  files w !! path = Some content →
  clean video_id →
  (String.length (stem video_id title) ≤ 100)%nat →
  Py.contains ".json" (stem video_id title) = false →
  github_get_fault up (logged (GetContents path) w) path = None →
  App.combine_transcripts up strftime_now (Some [path]) w
  = (Ok (App.Combined (App.heading (strftime_now w) ++ App.section_of content) 1),
     logged (GetContents path) w).
Proof.
  intros path Hfile Hid Hlen Hcontains Hfault.
  assert (read_path (GitHubStorage._sanitize_name channel_name)
            (stem video_id title) = path) as Hread.
  { apply read_path_stem; [|assumption..].
    apply _sanitize_name_fixed;
      [apply _sanitize_name_clean|apply _sanitize_name_length]. }
  subst path.
  assert (∀ combined_markdown,
            App.combine_each up [saved_path channel_name video_id title]
              combined_markdown w
            = (Ok (combined_markdown ++ App.section_of content),
               logged (GetContents (saved_path channel_name video_id title)) w))
    as Heach.
  { intros combined_markdown. cbn [App.combine_each].
    rewrite split_saved_path by assumption.
    cbn [length Nat.leb nth]. rewrite replace_str_extension by assumption.
    pose proof (get_transcript_found
                  (GitHubStorage._sanitize_name channel_name)
                  (stem video_id title) content w) as Hget.
    rewrite Hread in Hget. specialize (Hget Hfile Hfault).
    by erewrite bind_run by exact Hget. }
  unfold App.combine_transcripts. cbn [default from_option id].
  unfold try_except.
  erewrite bind_run by reflexivity. cbv beta.
  erewrite bind_run by apply Heach. reflexivity.
Qed.

Lemma get_transcript_nothing_stored channel_name title w :
  nothing_stored up w →
  GitHubStorage.get_transcript up channel_name title w
  = (Ok None, logged (GetContents (read_path channel_name title)) w).
Proof.
  intros [Hfiles Hfault]. unfold GitHubStorage.get_transcript.
  fold (read_path channel_name title). unfold GitHub.get_contents.
  run_monad. by rewrite Hfault, Hfiles, lookup_empty.
Qed.

Lemma combine_each_nothing_stored paths : ∀ combined_markdown w,
  nothing_stored up w →
  ∃ w', App.combine_each up paths combined_markdown w = (Ok combined_markdown, w')
        ∧ files w' = files w.
Proof.
  induction paths as [|path rest IH]; intros combined_markdown w Hnothing.
  - by exists w.
  - cbn [App.combine_each].
    destruct (3 <=? length (Py.split "/" path))%nat; [|by apply IH].
    erewrite bind_run by (by apply get_transcript_nothing_stored).
    match goal with |- context [logged ?e w] =>
      destruct (IH combined_markdown (logged e w)) as (w' & Hrun & Hfiles) end.
    { destruct Hnothing as [Hfiles Hfault]. by split. }
    exists w'. by split.
Qed.

(** X30. The count of a combined document is the number of paths that
    were asked for, not the number of transcripts in it: a path for
    which nothing is found is passed over, and asked for nothing but
    such paths the route still answers success, with the bare head as
    the document. *)
Theorem combine_counts_paths (paths : list string) (w : world) :
  paths ≠ [] →
  nothing_stored up w →
  ∃ w',
    App.combine_transcripts up strftime_now (Some paths) w
    = (Ok (App.Combined (App.heading (strftime_now w))
             (Z.of_nat (length paths))), w').
Proof.
  intros Hpaths Hnothing.
  destruct (combine_each_nothing_stored paths (App.heading (strftime_now w)) w
              Hnothing) as (w' & Hrun & _).
  exists w'. unfold App.combine_transcripts. cbn [default from_option id].
  destruct paths as [|path rest]; [done|].
  unfold try_except.
  erewrite bind_run by reflexivity. cbv beta.
  erewrite bind_run by exact Hrun. reflexivity.
Qed.

End CombinedDocument.

(** The file saved for abc123 is found again from its path. *)
Lemma combine_reads_saved_transcript_witness :
  ∃ content,
    files one_saved !! saved_path "Chan" "abc123" "Title" = Some content
    ∧ (App.combine_transcripts fresh_store stamp
         (Some [saved_path "Chan" "abc123" "Title"]) one_saved).1
      = Ok (App.Combined (App.heading "2024-01-01 12:00:00"
                          ++ App.section_of content) 1).
Proof.
  eexists. split; [reflexivity|].
  refine (f_equal fst
    (combine_reads_saved_transcript fresh_store stamp "Chan" "abc123" "Title"
       _ one_saved eq_refl _ _ eq_refl eq_refl)).
  - unfold clean. simpl. repeat constructor; try discriminate;
      rewrite list_elem_of_In; simpl; intuition discriminate.
  - simpl. lia.
Defined.

(** Two paths asked of an empty repository: an empty document, count 2. *)
Lemma combine_counts_paths_witness :
  nothing_stored fresh_store empty_world
  ∧ ∃ w',
      App.combine_transcripts fresh_store stamp
        (Some ["channels/Chan/one.json"; "channels/Chan/two.json"]) empty_world
      = (Ok (App.Combined (App.heading "2024-01-01 12:00:00") 2), w').
Proof.
  assert (nothing_stored fresh_store empty_world) as Hnothing by done.
  split; [exact Hnothing|].
  exact (combine_counts_paths fresh_store stamp
           ["channels/Chan/one.json"; "channels/Chan/two.json"] empty_world
           ltac:(discriminate) Hnothing).
Defined.

(** ** Starting the scheduler *)

Section Start.

Import JobScheduler.
Context (up : upstream) (storage : GitHubStorage.t).

Lemma _add_job_to_scheduler_supported job trigger self w :
  _get_cron_trigger (Job.frequency job) = Ok trigger →
  _add_job_to_scheduler job (self, w)
  = (Ok tt,
     ({| jobs := jobs self; jobs_file := jobs_file self;
         running := running self;
         scheduler :=
           <[Job.id job :=
               {| APScheduler.job_func := APScheduler.RunScheduledDownload;
                  APScheduler.job_trigger := APScheduler.Cron trigger;
                  APScheduler.args := Job.id job;
                  APScheduler.name := Job.name job |}]> (scheduler self) |}, w)).
Proof.
  intros Htrigger. unfold _add_job_to_scheduler, scheduler_add_job, get_self,
    put_self. run_monad. by rewrite Htrigger.
Qed.

Lemma _add_job_to_scheduler_unsupported job self w :
  ¬ supported (Job.frequency job) →
  ∃ error, _add_job_to_scheduler job (self, w) = (Raise error, (self, w)).
Proof.
  intros Hunsupported. unfold _add_job_to_scheduler. run_monad.
  destruct (_get_cron_trigger (Job.frequency job)) as [trigger|error] eqn:Htrigger.
  - destruct Hunsupported. by exists trigger.
  - by exists error.
Qed.

(** Every step of the restoring either raises or changes the cron store
    alone. *)
Lemma _restore_jobs_raises items : ∀ self w job_id job,
  (job_id, job) ∈ items →
  Job.status job = "active" →
  ¬ supported (Job.frequency job) →
  ∃ error self',
    _restore_jobs items (self, w) = (Raise error, (self', w))
    ∧ running self' = running self
    ∧ jobs self' = jobs self.
Proof.
  induction items as [|[k j] rest IH]; intros self w job_id job Hin Hactive Hbad.
  - by apply elem_of_nil in Hin.
  - cbn [_restore_jobs]. unfold mbind at 1. unfold StateM_bind at 1.
    destruct (String.eqb_spec (Job.status j) "active") as [Hj|Hj].
    + destruct (_get_cron_trigger (Job.frequency j)) as [trigger|error]
        eqn:Htrigger.
      * rewrite (_add_job_to_scheduler_supported j trigger self w Htrigger).
        apply elem_of_cons in Hin as [[= <- <-]|Hin].
        { destruct Hbad. by exists trigger. }
        match goal with |- context [_restore_jobs rest (?s, w)] =>
          destruct (IH s w job_id job Hin Hactive Hbad)
            as (error & self' & -> & Hrunning & Hjobs) end.
        by exists error, self'.
      * destruct (_add_job_to_scheduler_unsupported j self w) as [error' ->].
        { intros [trigger Hsupported]. congruence. }
        by exists error', self.
    + apply elem_of_cons in Hin as [[= <- <-]|Hin]; [done|].
      unfold mret at 1, StateM_ret at 1.
      apply (IH self w job_id job Hin Hactive Hbad).
Qed.

(** X5. One active job with a frequency [_get_cron_trigger] does not
    know, as a scheduler that was not started accepts it, makes [start]
    raise while it restores the jobs. By then the scheduler is marked
    as running, so calling [start] again does nothing: the jobs that
    come after the one that raised are not restored. *)
Theorem start_fails_on_unsupported_frequency (items : list (string * Job.t))
    (job_id : string) (job : Job.t) (self : JobScheduler.t) (w : world) :
  running self = false →
  (job_id, job) ∈ items →
  Job.status job = "active" →
  ¬ supported (Job.frequency job) →
  ∃ error self',
    start items (self, w) = (Raise error, (self', w))
    ∧ running self' = true
    ∧ jobs self' = jobs self
    ∧ start items (self', w) = (Ok tt, (self', w)).
Proof.
  intros Hstopped Hin Hactive Hbad.
  unfold start at 1. unfold mbind at 1. unfold StateM_bind at 1.
  unfold get_self at 1. cbn [fst]. rewrite Hstopped. cbn [negb].
  unfold mbind at 1. unfold StateM_bind at 1.
  unfold set_running, get_self, put_self. run_monad.
  match goal with |- context [_restore_jobs items (?s, w)] =>
    destruct (_restore_jobs_raises items s w job_id job Hin Hactive Hbad)
      as (error & self' & -> & Hrunning & Hjobs) end.
  simpl in Hrunning, Hjobs.
  exists error, self'. split; [reflexivity|]. split; [assumption|].
  split; [assumption|].
  unfold start, mbind, StateM_bind. simpl. by rewrite Hrunning.
Qed.

Lemma _restore_jobs_restores items : ∀ self w,
  (∀ k j, (k, j) ∈ items → Job.status j = "active" →
          supported (Job.frequency j)) →
  ∃ self',
    _restore_jobs items (self, w) = (Ok tt, (self', w))
    ∧ running self' = running self
    ∧ jobs self' = jobs self
    ∧ jobs_file self' = jobs_file self
    ∧ (∀ k j, (k, j) ∈ items → Job.status j = "active" →
              ∃ entry, scheduler self' !! Job.id j = Some entry
                       ∧ cron_entry_of j entry)
    ∧ (∀ id, (∀ k j, (k, j) ∈ items → Job.status j = "active" →
                     Job.id j ≠ id) →
             scheduler self' !! id = scheduler self !! id)
    ∧ (∀ id entry, scheduler self !! id = Some entry →
                   APScheduler.job_func entry = APScheduler.RunScheduledDownload →
                   APScheduler.args entry = id →
                   ∃ entry', scheduler self' !! id = Some entry'
                             ∧ APScheduler.job_func entry'
                               = APScheduler.RunScheduledDownload
                             ∧ APScheduler.args entry' = id).
Proof.
  induction items as [|[k j] rest IH]; intros self w Hsupported.
  - exists self. split; [reflexivity|]. repeat split; try done.
    + intros k j Hin. by apply elem_of_nil in Hin.
    + intros id entry Hentry Hfunc Hargs. by exists entry.
  - cbn [_restore_jobs]. unfold mbind at 1. unfold StateM_bind at 1.
    assert (∀ k' j', (k', j') ∈ rest → Job.status j' = "active" →
                     supported (Job.frequency j')) as Hrest.
    { intros k' j' Hin Hstatus.
      apply (Hsupported k' j'); [by apply elem_of_cons; right|done]. }
    destruct (String.eqb_spec (Job.status j) "active") as [Hj|Hj].
    + destruct (Hsupported k j) as [trigger Htrigger];
        [by apply elem_of_cons; left|assumption|].
      rewrite (_add_job_to_scheduler_supported j trigger self w Htrigger).
      match goal with |- context [_restore_jobs rest (?s, w)] =>
        destruct (IH s w Hrest)
          as (self' & -> & Hrunning & Hjobs & Hfile & Hactive & Hothers & Hkept)
      end.
      simpl in Hrunning, Hjobs, Hfile, Hothers, Hkept.
      exists self'. split; [reflexivity|].
      repeat (split; [assumption|]). split; [|split].
      * intros k' j' Hin Hactive'.
        apply elem_of_cons in Hin as [[= -> ->]|Hin]; [|by eapply Hactive].
        destruct (Hkept (Job.id j)
                    {| APScheduler.job_func := APScheduler.RunScheduledDownload;
                       APScheduler.job_trigger := APScheduler.Cron trigger;
                       APScheduler.args := Job.id j;
                       APScheduler.name := Job.name j |})
          as (entry' & Hentry' & Hfunc' & Hargs'); [apply lookup_insert_eq|done..|].
        exists entry'. by repeat split.
      * intros id Hid. rewrite Hothers.
        -- apply lookup_insert_ne. apply (Hid k j); [by apply elem_of_cons; left|done].
        -- intros k' j' Hin. apply (Hid k' j'). by apply elem_of_cons; right.
      * intros id entry Hentry Hfunc Hargs.
        destruct (decide (Job.id j = id)) as [<-|Hne].
        -- apply (Hkept (Job.id j)
                    {| APScheduler.job_func := APScheduler.RunScheduledDownload;
                       APScheduler.job_trigger := APScheduler.Cron trigger;
                       APScheduler.args := Job.id j;
                       APScheduler.name := Job.name j |});
             [apply lookup_insert_eq|done..].
        -- apply (Hkept id entry); [|done..].
           by rewrite lookup_insert_ne.
    + unfold mret at 1, StateM_ret at 1.
      destruct (IH self w Hrest)
        as (self' & -> & Hrunning & Hjobs & Hfile & Hactive & Hothers & Hkept).
      exists self'. split; [reflexivity|].
      repeat (split; [assumption|]). split; [|split].
      * intros k' j' Hin Hactive'.
        apply elem_of_cons in Hin as [[= -> ->]|Hin]; [done|by eapply Hactive].
      * intros id Hid. apply Hothers.
        intros k' j' Hin. apply (Hid k' j'). by apply elem_of_cons; right.
      * exact Hkept.
Qed.

Lemma start_restores items self w :
  running self = false →
  (∀ k j, (k, j) ∈ items → Job.status j = "active" →
          supported (Job.frequency j)) →
  ∃ self',
    start items (self, w) = (Ok tt, (self', w))
    ∧ running self' = true
    ∧ jobs self' = jobs self
    ∧ jobs_file self' = jobs_file self
    ∧ (∀ k j, (k, j) ∈ items → Job.status j = "active" →
              ∃ entry, scheduler self' !! Job.id j = Some entry
                       ∧ cron_entry_of j entry)
    ∧ (∀ id, (∀ k j, (k, j) ∈ items → Job.status j = "active" →
                     Job.id j ≠ id) →
             scheduler self' !! id = scheduler self !! id).
Proof.
  intros Hstopped Hsupported.
  unfold start. unfold mbind at 1. unfold StateM_bind at 1.
  unfold get_self at 1. cbn [fst]. rewrite Hstopped. cbn [negb].
  unfold mbind at 1. unfold StateM_bind at 1.
  unfold set_running, get_self, put_self. run_monad.
  match goal with |- context [_restore_jobs items (?s, w)] =>
    destruct (_restore_jobs_restores items s w Hsupported)
      as (self' & -> & Hrunning & Hjobs & Hfile & Hactive & Hothers & _) end.
  simpl in *. exists self'. by repeat split.
Qed.

(** X15. [start] on a scheduler that was not started marks it as
    running and, when every active job has a frequency
    [_get_cron_trigger] knows, gives each active job its cron entry and
    raises nothing; the jobs and the file stay as they are. Only active
    jobs are restored: an id that no active job carries has after the
    start the entry it had before. *)
Theorem start_restores_active_jobs (items : list (string * Job.t))
    (self : JobScheduler.t) (w : world) :
  running self = false →
  (∀ k j, (k, j) ∈ items → Job.status j = "active" →
          supported (Job.frequency j)) →
  ∃ self',
    start items (self, w) = (Ok tt, (self', w))
    ∧ running self' = true
    ∧ jobs self' = jobs self
    ∧ jobs_file self' = jobs_file self
    ∧ (∀ k j, (k, j) ∈ items → Job.status j = "active" →
              ∃ entry, scheduler self' !! Job.id j = Some entry
                       ∧ cron_entry_of j entry)
    ∧ (∀ id, (∀ k j, (k, j) ∈ items → Job.status j = "active" →
                     Job.id j ≠ id) →
             scheduler self' !! id = scheduler self !! id).
Proof. apply start_restores. Qed.



End Start.


Lemma hourly_unsupported : ¬ supported "hourly".
Proof. intros [trigger Htrigger]. discriminate. Qed.

(** The hourly job was accepted by a scheduler that was not started;
    the scheduler made from the file raises when it is started. *)
Lemma start_fails_on_unsupported_frequency_witness :
  ¬ supported (Job.frequency hourly_job)
  ∧ ∃ error self',
      JobScheduler.start [("job2", hourly_job)]
        (JobScheduler.__init__ {[ "job2" := hourly_job ]}, empty_world)
      = (Raise error, (self', empty_world))
      ∧ JobScheduler.running self' = true.
Proof.
  split; [exact hourly_unsupported|].
  destruct (start_fails_on_unsupported_frequency [("job2", hourly_job)] "job2"
              hourly_job (JobScheduler.__init__ {[ "job2" := hourly_job ]})
              empty_world eq_refl ltac:(by left) eq_refl hourly_unsupported)
    as (error & self' & Hstart & Hrunning & _).
  by exists error, self'.
Defined.

(** The weekly job is restored when the scheduler is started. *)
Lemma start_restores_active_jobs_witness :
  ∃ self' entry,
    JobScheduler.start [("job1", two_channel_job)]
      (JobScheduler.__init__ {[ "job1" := two_channel_job ]}, empty_world)
    = (Ok tt, (self', empty_world))
    ∧ JobScheduler.scheduler self' !! "job1" = Some entry
    ∧ cron_entry_of two_channel_job entry.
Proof.
  destruct (start_restores_active_jobs [("job1", two_channel_job)]
              (JobScheduler.__init__ {[ "job1" := two_channel_job ]})
              empty_world eq_refl)
    as (self' & Hstart & _ & _ & _ & Hactive & _).
  { intros k j Hin _. apply list_elem_of_singleton in Hin as [= _ ->].
    by eexists. }
  destruct (Hactive "job1" two_channel_job ltac:(by left) eq_refl)
    as (entry & Hentry & Hcron).
  by exists self', entry.
Defined.

